(** * Rockchip INNO USB2 PHY: bit-field accessor and charger detection

    Shallow embedding of [drivers/phy/phy-rockchip-inno-usb2.c]: the
    [usb2phy_reg] bit-field descriptor, the accessors [property_enable] and
    [property_enabled], and the charger-type detection
    [rockchip_chg_get_type] with its helpers.  Unsigned C integers are
    integers of [Z] with their wrap-around written out; the hardware is an
    interface ([Hardware]) the driver talks to through [regmap_read],
    [regmap_write], [mdelay] and the VBUS gpio, and every such access is
    recorded in a trace. *)

From Stdlib Require Import ZArith List Bool Lia.
From stdpp Require Import base option gmap.
From Stdlib Require String.
Import ListNotations.
Import String.StringSyntax.
Delimit Scope string_scope with string.

Local Open Scope Z_scope.

(** ** Constants of the driver (lines 23-28) *)

Definition U2PHY_BIT_WRITEABLE_SHIFT : Z := 16.
Definition CHG_DCD_MAX_RETRIES : Z := 6.
Definition CHG_PRI_MAX_RETRIES : Z := 2.
Definition CHG_DCD_POLL_TIME : Z := 100.
Definition CHG_PRIMARY_DET_TIME : Z := 40.
Definition CHG_SECONDARY_DET_TIME : Z := 40.

(** ** Machine integers *)

(** A value stored in a [u32]: the low 32 bits. *)
Definition u32 (x : Z) : Z := Z.land x (Z.ones 32).

(** A value stored in a [u8]. *)
Definition u8 (x : Z) : Z := x mod 256.

(** Modelled from the spec: [GENMASK] comes from linux/bitops.h, which is
    not part of the driver file; it is the mask of the bit range [l..h] of
    a register, here as the header computes it on 32-bit words,
    [(~0 << l) & (~0 >> (31 - h))]. *)
Definition GENMASK (h l : Z) : Z :=
  Z.land (u32 (Z.shiftl (Z.ones 32) l)) (Z.shiftr (Z.ones 32) (31 - h)).

(** ** Data model (lines 32-168) *)

Inductive power_supply_type :=
| POWER_SUPPLY_TYPE_UNKNOWN
| POWER_SUPPLY_TYPE_USB
| POWER_SUPPLY_TYPE_USB_DCP
| POWER_SUPPLY_TYPE_USB_CDP
| POWER_SUPPLY_TYPE_USB_FLOATING.

Record usb2phy_reg := Usb2phyReg {
  offset : Z;
  bitend : Z;
  bitstart : Z;
  disable : Z;
  enable : Z
}.

Record rockchip_chg_det_reg := {
  cp_det : usb2phy_reg;
  dcp_det : usb2phy_reg;
  dp_det : usb2phy_reg;
  idm_sink_en : usb2phy_reg;
  idp_sink_en : usb2phy_reg;
  idp_src_en : usb2phy_reg;
  rdm_pdwn_en : usb2phy_reg;
  vdm_src_en : usb2phy_reg;
  vdp_src_en : usb2phy_reg;
  opmode : usb2phy_reg
}.

Record rockchip_usb2phy_port_cfg := {
  phy_sus : usb2phy_reg;
  bvalid_det_en : usb2phy_reg;
  bvalid_det_st : usb2phy_reg;
  bvalid_det_clr : usb2phy_reg;
  ls_det_en : usb2phy_reg;
  ls_det_st : usb2phy_reg;
  ls_det_clr : usb2phy_reg;
  iddig_output : usb2phy_reg;
  iddig_en : usb2phy_reg;
  idfall_det_en : usb2phy_reg;
  idfall_det_st : usb2phy_reg;
  idfall_det_clr : usb2phy_reg;
  idrise_det_en : usb2phy_reg;
  idrise_det_st : usb2phy_reg;
  idrise_det_clr : usb2phy_reg;
  utmi_avalid : usb2phy_reg;
  utmi_bvalid : usb2phy_reg;
  utmi_iddig : usb2phy_reg;
  utmi_ls : usb2phy_reg;
  utmi_hstdet : usb2phy_reg;
  vbus_det_en : usb2phy_reg
}.

(** [struct rockchip_usb2phy_cfg]; the tuning hook is not called by the
    functions embedded here and is left out. *)
Record rockchip_usb2phy_cfg := {
  reg : Z;
  num_ports : Z;
  clkout_ctl : usb2phy_reg;
  port_cfg_otg : rockchip_usb2phy_port_cfg;
  port_cfg_host : rockchip_usb2phy_port_cfg;
  chg_det : rockchip_chg_det_reg
}.

(** The two register banks a PHY can be reached through. *)
Inductive regmap := GRF | USBGRF.

(** [struct rockchip_usb2phy], the fields the detection touches.  A NULL
    [usbgrf_base] is [None]; [vbus_det_gpio] holds whether the gpio
    descriptor is valid ([dev] not NULL). *)
Record rockchip_usb2phy := {
  dcd_retries : Z;
  primary_retries : Z;
  grf_base : regmap;
  usbgrf_base : option regmap;
  vbus_det_gpio : bool;
  phy_cfg : rockchip_usb2phy_cfg
}.

(** Build-time switches the detection is compiled under. *)
Record build_config := {
  CONFIG_ROCKCHIP_RK3036 : bool;
  CONFIG_ROCKCHIP_RK3506 : bool
}.

(** ** Bit-field arithmetic of the accessors *)

(** The word [property_enable] hands to [regmap_write] (lines 180-182). *)
Definition property_enable_val (r : usb2phy_reg) (en : bool) : Z :=
  let tmp := if en then enable r else disable r in
  let mask := GENMASK (bitend r) (bitstart r) in
  u32 (Z.lor (u32 (Z.shiftl tmp (bitstart r)))
             (u32 (Z.shiftl mask U2PHY_BIT_WRITEABLE_SHIFT))).

(** The value [property_enabled] extracts from the word read (line 195). *)
Definition property_field (r : usb2phy_reg) (orig : Z) : Z :=
  let mask := GENMASK (bitend r) (bitstart r) in
  Z.shiftr (Z.land orig mask) (bitstart r).

(** The test of [property_enabled] on the word read (lines 195-197). *)
Definition property_test (r : usb2phy_reg) (orig : Z) : bool :=
  property_field r orig =? enable r.

(** Modelled from the spec: the register bus itself is not in the driver
    file.  A register that honours the write-enable convention takes, from
    a written word, the upper half-word as a per-bit write mask for the
    lower half-word: masked bits take the data bit, all others keep their
    value. *)
Definition wmask_write (old val : Z) : Z :=
  let wen := Z.land (Z.shiftr val 16) (Z.ones 16) in
  Z.lor (Z.land old (Z.lnot wen)) (Z.land val wen).

(** ** The hardware interface and the trace of accesses *)

(** Modelled from the spec: the register space ([read32]/[write32], here
    per bank), the wall-clock sleep and the optional VBUS-presence gpio are
    the environment of the driver; none is defined in the driver file.
    [hw_delay] is what the hardware does while the driver sleeps. *)
Class Hardware (W : Type) := {
  hw_read : W -> regmap -> Z -> Z;
  hw_write : W -> regmap -> Z -> Z -> W;
  hw_delay : W -> Z -> W;
  hw_gpio_bound : W -> bool;
  hw_gpio_value : W -> bool
}.

Inductive event :=
| EvRead (base : regmap) (off val : Z)
| EvWrite (base : regmap) (off val : Z)
| EvDelay (ms : Z)
| EvGpio (level : bool).

Definition is_write (e : event) : bool :=
  match e with EvWrite _ _ _ => true | _ => false end.

Definition delay_of (e : event) : Z :=
  match e with EvDelay ms => ms | _ => 0 end.

(** Sum of the sleeps of a trace, in milliseconds. *)
Definition total_delay (tr : list event) : Z :=
  fold_right (fun e acc => delay_of e + acc) 0 tr.

Section Driver.

Context {W : Type} {HW : Hardware W}.

(** The state the driver runs in: the hardware, the PHY instance and the
    accesses made so far, oldest first. *)
Record machine := Machine {
  hw : W;
  rphy : rockchip_usb2phy;
  trace : list event
}.

(** State monad; [None] is a loop that ran out of fuel. *)
Definition M (A : Type) : Type := machine -> option (A * machine).

Definition ret {A} (a : A) : M A := fun m => Some (a, m).

Definition bind {A B} (c : M A) (k : A -> M B) : M B :=
  fun m => match c m with
           | Some (a, m') => k a m'
           | None => None
           end.

Definition out_of_fuel {A} : M A := fun _ => None.

Notation "'let*' x ':=' c 'in' k" := (bind c (fun x => k))
  (at level 10, x name, c at level 100, k at level 200, only parsing).
Notation "c >> k" := (bind c (fun _ => k))
  (at level 100, k at level 200, right associativity, only parsing).

(** *** Primitive accesses *)

Definition regmap_read (base : regmap) (off : Z) : M Z :=
  fun m =>
    let v := hw_read (hw m) base off in
    Some (v, Machine (hw m) (rphy m) (trace m ++ [EvRead base off v])).

(** The status code [regmap_write] returns is dropped by every caller in
    the detection, so the write is a [unit] action. *)
Definition regmap_write (base : regmap) (off val : Z) : M unit :=
  fun m =>
    Some (tt, Machine (hw_write (hw m) base off val) (rphy m)
                      (trace m ++ [EvWrite base off val])).

Definition mdelay (ms : Z) : M unit :=
  fun m =>
    Some (tt, Machine (hw_delay (hw m) ms) (rphy m) (trace m ++ [EvDelay ms])).

Definition dm_gpio_get_value : M bool :=
  fun m =>
    let v := hw_gpio_value (hw m) in
    Some (v, Machine (hw m) (rphy m) (trace m ++ [EvGpio v])).

Definition get_rphy : M rockchip_usb2phy := fun m => Some (rphy m, m).

Definition set_rphy (r : rockchip_usb2phy) : M unit :=
  fun m => Some (tt, Machine (hw m) r (trace m)).

Definition with_dcd_retries (n : Z) (r : rockchip_usb2phy) :=
  {| dcd_retries := n; primary_retries := primary_retries r;
     grf_base := grf_base r; usbgrf_base := usbgrf_base r;
     vbus_det_gpio := vbus_det_gpio r; phy_cfg := phy_cfg r |}.

Definition with_primary_retries (n : Z) (r : rockchip_usb2phy) :=
  {| dcd_retries := dcd_retries r; primary_retries := n;
     grf_base := grf_base r; usbgrf_base := usbgrf_base r;
     vbus_det_gpio := vbus_det_gpio r; phy_cfg := phy_cfg r |}.

Definition with_vbus_det_gpio (g : bool) (r : rockchip_usb2phy) :=
  {| dcd_retries := dcd_retries r; primary_retries := primary_retries r;
     grf_base := grf_base r; usbgrf_base := usbgrf_base r;
     vbus_det_gpio := g; phy_cfg := phy_cfg r |}.

(** *** Accessors (lines 170-198) *)

Definition get_reg_base (r : rockchip_usb2phy) : regmap :=
  match usbgrf_base r with
  | None => grf_base r
  | Some b => b
  end.

Definition property_enable (base : regmap) (r : usb2phy_reg) (en : bool)
  : M unit :=
  regmap_write base (offset r) (property_enable_val r en).

Definition property_enabled (base : regmap) (r : usb2phy_reg) : M bool :=
  let* orig := regmap_read base (offset r) in
  ret (property_test r orig).

(** *** Charger-detect bundles (lines 241-266) *)

Definition rockchip_chg_enable_dcd (en : bool) : M unit :=
  let* r := get_rphy in
  let base := get_reg_base r in
  property_enable base (rdm_pdwn_en (chg_det (phy_cfg r))) en >>
  property_enable base (idp_src_en (chg_det (phy_cfg r))) en.

Definition rockchip_chg_enable_primary_det (en : bool) : M unit :=
  let* r := get_rphy in
  let base := get_reg_base r in
  property_enable base (vdp_src_en (chg_det (phy_cfg r))) en >>
  property_enable base (idm_sink_en (chg_det (phy_cfg r))) en.

Definition rockchip_chg_enable_secondary_det (en : bool) : M unit :=
  let* r := get_rphy in
  let base := get_reg_base r in
  property_enable base (vdm_src_en (chg_det (phy_cfg r))) en >>
  property_enable base (idp_sink_en (chg_det (phy_cfg r))) en.

(** *** Retry counters *)

(** [rphy->dcd_retries--] as a loop condition: yields the value before the
    decrement and stores the decremented [u8]. *)
Definition post_dec_dcd_retries : M Z :=
  let* r := get_rphy in
  set_rphy (with_dcd_retries (u8 (dcd_retries r - 1)) r) >>
  ret (dcd_retries r).

Definition post_dec_primary_retries : M Z :=
  let* r := get_rphy in
  set_rphy (with_primary_retries (u8 (primary_retries r - 1)) r) >>
  ret (primary_retries r).

(** A [u8] counter leaves a [while (n--)] loop after at most 256 tests. *)
Definition u8_fuel : nat := 256.

(** *** Primary-detect retries (lines 268-284) *)

(** The [while] loop of lines 273-280; [vout] is the local of that name. *)
Fixpoint primary_det_retry_loop (fuel : nat) (vout : bool) : M bool :=
  match fuel with
  | O => out_of_fuel
  | S fuel' =>
      let* n := post_dec_primary_retries in
      if n =? 0 then ret vout
      else
        rockchip_chg_enable_primary_det true >>
        mdelay CHG_PRIMARY_DET_TIME >>
        let* r := get_rphy in
        let* vout' :=
          property_enabled (get_reg_base r) (cp_det (chg_det (phy_cfg r))) in
        if vout' then ret vout'
        else primary_det_retry_loop fuel' vout'
  end.

Definition rockchip_chg_primary_det_retry : M bool :=
  let* vout := primary_det_retry_loop u8_fuel false in
  rockchip_chg_enable_primary_det false >>
  ret vout.

(** *** Charger detection (lines 312-431)

    The embedding starts at line 331, with the PHY instance found. *)

(** Lines 286-310, under CONFIG_ROCKCHIP_RK3506: the gpio descriptor is
    valid when the device tree binds a VBUS gpio and the request succeeds. *)
Definition rockchip_u2phy_get_vbus_gpio : M unit :=
  fun m =>
    Some (tt, Machine (hw m)
                      (with_vbus_det_gpio (hw_gpio_bound (hw m)) (rphy m))
                      (trace m)).

(** Lines 335-339. *)
Definition chg_setup_vbus_gpio (b : build_config) : M unit :=
  if CONFIG_ROCKCHIP_RK3506 b then rockchip_u2phy_get_vbus_gpio
  else
    let* r := get_rphy in
    set_rphy (with_vbus_det_gpio false r).

(** Lines 341-352, the VBUS check; [false] is the [return
    POWER_SUPPLY_TYPE_UNKNOWN] of lines 347 and 351. *)
Definition chg_check_vbus : M bool :=
  let* r := get_rphy in
  if vbus_det_gpio r then dm_gpio_get_value
  else property_enabled (get_reg_base r)
                        (utmi_bvalid (port_cfg_otg (phy_cfg r))).

(** Lines 369-384, the DCD polling loop. *)
Fixpoint chg_dcd_loop (fuel : nat) : M unit :=
  match fuel with
  | O => out_of_fuel
  | S fuel' =>
      let* n := post_dec_dcd_retries in
      if n =? 0 then ret tt
      else
        mdelay CHG_DCD_POLL_TIME >>
        let* r := get_rphy in
        let* is_dcd :=
          property_enabled (get_reg_base r) (dp_det (chg_det (phy_cfg r))) in
        let* r := get_rphy in
        if is_dcd || (dcd_retries r =? 0) then
          rockchip_chg_enable_dcd false >>
          rockchip_chg_enable_primary_det true
        else chg_dcd_loop fuel'
  end.

(** Lines 363-384 as one stage: counters reset, DCD on, polling. *)
Definition chg_dcd_stage : M unit :=
  let* r := get_rphy in
  set_rphy (with_dcd_retries CHG_DCD_MAX_RETRIES r) >>
  let* r := get_rphy in
  set_rphy (with_primary_retries CHG_PRI_MAX_RETRIES r) >>
  rockchip_chg_enable_dcd true >>
  chg_dcd_loop u8_fuel.

(** Lines 386-412, primary detection.  [Some t] is [chg_type = t; goto
    out]; [None] falls through to the secondary stage. *)
Definition chg_primary_stage : M (option power_supply_type) :=
  mdelay CHG_PRIMARY_DET_TIME >>
  let* r := get_rphy in
  let* vout :=
    property_enabled (get_reg_base r) (cp_det (chg_det (phy_cfg r))) in
  rockchip_chg_enable_primary_det false >>
  if vout then
    rockchip_chg_enable_secondary_det true >> ret None
  else
    let* r := get_rphy in
    if dcd_retries r =? 0 then ret (Some POWER_SUPPLY_TYPE_USB_FLOATING)
    else
      let* vout := rockchip_chg_primary_det_retry in
      if vout then rockchip_chg_enable_secondary_det true >> ret None
      else ret (Some POWER_SUPPLY_TYPE_USB).

(** Lines 414-421, secondary detection. *)
Definition chg_secondary_stage : M power_supply_type :=
  mdelay CHG_SECONDARY_DET_TIME >>
  let* r := get_rphy in
  let* vout :=
    property_enabled (get_reg_base r) (dcp_det (chg_det (phy_cfg r))) in
  rockchip_chg_enable_secondary_det false >>
  ret (if vout then POWER_SUPPLY_TYPE_USB_DCP else POWER_SUPPLY_TYPE_USB_CDP).

(** Lines 423-426, the code at label [out]. *)
Definition chg_cleanup : M unit :=
  let* r := get_rphy in
  let base := get_reg_base r in
  property_enable base (opmode (chg_det (phy_cfg r))) true >>
  property_enable base (phy_sus (port_cfg_otg (phy_cfg r))) false.

(** Lines 359-421: the stages between the VBUS check and label [out]. *)
Definition chg_detect : M power_supply_type :=
  let* r := get_rphy in
  let base := get_reg_base r in
  property_enable base (phy_sus (port_cfg_otg (phy_cfg r))) true >>
  property_enable base (opmode (chg_det (phy_cfg r))) false >>
  chg_dcd_stage >>
  let* decided := chg_primary_stage in
  match decided with
  | Some chg_type => ret chg_type
  | None => chg_secondary_stage
  end.

(** Lines 386-430: what is left of a call when the DCD loop has stopped. *)
Definition chg_from_primary : M power_supply_type :=
  let* chg_type :=
    (let* decided := chg_primary_stage in
     match decided with
     | Some chg_type => ret chg_type
     | None => chg_secondary_stage
     end) in
  chg_cleanup >> ret chg_type.

Definition rockchip_chg_get_type (b : build_config) : M power_supply_type :=
  chg_setup_vbus_gpio b >>
  let* present := chg_check_vbus in
  if negb present then ret POWER_SUPPLY_TYPE_UNKNOWN
  else
    let* chg_type :=
      (if CONFIG_ROCKCHIP_RK3036 b then ret POWER_SUPPLY_TYPE_USB
       else chg_detect) in
    chg_cleanup >>
    ret chg_type.


End Driver.

Arguments machine W : clear implicits.
Arguments M W A : clear implicits.

Notation "'let*' x ':=' c 'in' k" := (bind c (fun x => k))
  (at level 10, x name, c at level 100, k at level 200, only parsing).
Notation "c >> k" := (bind c (fun _ => k))
  (at level 100, k at level 200, right associativity, only parsing).

(** ** Observation points of a detection run

    The hardware states a run goes through, as functions of the state it
    starts from, and the trace entries of each step.  The theorems below
    tie them to the code: they state that the code produces exactly these
    states and traces. *)

Section Observations.

Context {W : Type} {HW : Hardware W}.

Definition hw_property_enable (base : regmap) (r : usb2phy_reg) (en : bool)
  (w : W) : W :=
  hw_write w base (offset r) (property_enable_val r en).

Definition hw_property_enabled (base : regmap) (r : usb2phy_reg) (w : W)
  : bool :=
  property_test r (hw_read w base (offset r)).

Definition ev_property_enable (base : regmap) (r : usb2phy_reg) (en : bool)
  : event :=
  EvWrite base (offset r) (property_enable_val r en).

Definition ev_property_enabled (base : regmap) (r : usb2phy_reg) (w : W)
  : event :=
  EvRead base (offset r) (hw_read w base (offset r)).

Definition chg (p : rockchip_usb2phy) : rockchip_chg_det_reg :=
  chg_det (phy_cfg p).

Definition otg (p : rockchip_usb2phy) : rockchip_usb2phy_port_cfg :=
  port_cfg_otg (phy_cfg p).

(** The three bundles: hardware effect and trace entries. *)
Definition hw_enable_dcd (p : rockchip_usb2phy) (en : bool) (w : W) : W :=
  hw_property_enable (get_reg_base p) (idp_src_en (chg p)) en
    (hw_property_enable (get_reg_base p) (rdm_pdwn_en (chg p)) en w).

Definition ev_enable_dcd (p : rockchip_usb2phy) (en : bool) : list event :=
  [ev_property_enable (get_reg_base p) (rdm_pdwn_en (chg p)) en;
   ev_property_enable (get_reg_base p) (idp_src_en (chg p)) en].

Definition hw_enable_primary_det (p : rockchip_usb2phy) (en : bool) (w : W)
  : W :=
  hw_property_enable (get_reg_base p) (idm_sink_en (chg p)) en
    (hw_property_enable (get_reg_base p) (vdp_src_en (chg p)) en w).

Definition ev_enable_primary_det (p : rockchip_usb2phy) (en : bool)
  : list event :=
  [ev_property_enable (get_reg_base p) (vdp_src_en (chg p)) en;
   ev_property_enable (get_reg_base p) (idm_sink_en (chg p)) en].

Definition hw_enable_secondary_det (p : rockchip_usb2phy) (en : bool) (w : W)
  : W :=
  hw_property_enable (get_reg_base p) (idp_sink_en (chg p)) en
    (hw_property_enable (get_reg_base p) (vdm_src_en (chg p)) en w).

Definition ev_enable_secondary_det (p : rockchip_usb2phy) (en : bool)
  : list event :=
  [ev_property_enable (get_reg_base p) (vdm_src_en (chg p)) en;
   ev_property_enable (get_reg_base p) (idp_sink_en (chg p)) en].

(** Stage 1 writes: suspend asserted, opmode disabled. *)
Definition hw_suspend (p : rockchip_usb2phy) (w : W) : W :=
  hw_property_enable (get_reg_base p) (opmode (chg p)) false
    (hw_property_enable (get_reg_base p) (phy_sus (otg p)) true w).

Definition ev_suspend (p : rockchip_usb2phy) : list event :=
  [ev_property_enable (get_reg_base p) (phy_sus (otg p)) true;
   ev_property_enable (get_reg_base p) (opmode (chg p)) false].

(** Cleanup writes: opmode enabled, suspend cleared. *)
Definition hw_cleanup (p : rockchip_usb2phy) (w : W) : W :=
  hw_property_enable (get_reg_base p) (phy_sus (otg p)) false
    (hw_property_enable (get_reg_base p) (opmode (chg p)) true w).

Definition ev_cleanup (p : rockchip_usb2phy) : list event :=
  [ev_property_enable (get_reg_base p) (opmode (chg p)) true;
   ev_property_enable (get_reg_base p) (phy_sus (otg p)) false].

(** The hardware at the [j]-th DCD poll, [w] being the hardware when the
    DCD bundle has just been enabled. *)
Definition hw_dcd_poll (w : W) (j : nat) : W :=
  Nat.iter j (fun w' => hw_delay w' CHG_DCD_POLL_TIME) w.

(** What the [j]-th poll reads for [dp_det]. *)
Definition dp_det_at (p : rockchip_usb2phy) (w : W) (j : nat) : bool :=
  hw_property_enabled (get_reg_base p) (dp_det (chg p)) (hw_dcd_poll w j).

(** Trace of polls [1..k]. *)
Definition ev_dcd_polls (p : rockchip_usb2phy) (w : W) (k : nat) : list event :=
  flat_map
    (fun j => [EvDelay CHG_DCD_POLL_TIME;
               ev_property_enabled (get_reg_base p) (dp_det (chg p))
                 (hw_dcd_poll w j)])
    (seq 1 k).

(** One primary-detect sample from hardware [w]: the 40 ms sleep, then the
    hardware [cp_det] is read on. *)
Definition hw_primary_sample (w : W) : W := hw_delay w CHG_PRIMARY_DET_TIME.

Definition cp_det_at (p : rockchip_usb2phy) (w : W) : bool :=
  hw_property_enabled (get_reg_base p) (cp_det (chg p)) (hw_primary_sample w).

Definition ev_primary_sample (p : rockchip_usb2phy) (w : W) : list event :=
  [EvDelay CHG_PRIMARY_DET_TIME;
   ev_property_enabled (get_reg_base p) (cp_det (chg p)) (hw_primary_sample w)].

Definition hw_secondary_sample (w : W) : W := hw_delay w CHG_SECONDARY_DET_TIME.

Definition dcp_det_at (p : rockchip_usb2phy) (w : W) : bool :=
  hw_property_enabled (get_reg_base p) (dcp_det (chg p)) (hw_secondary_sample w).

Definition ev_secondary_sample (p : rockchip_usb2phy) (w : W) : list event :=
  [EvDelay CHG_SECONDARY_DET_TIME;
   ev_property_enabled (get_reg_base p) (dcp_det (chg p))
     (hw_secondary_sample w)].

(** The hardware when the DCD stage stops after [k] polls: DCD bundle off,
    primary bundle on. *)
Definition hw_dcd_done (p : rockchip_usb2phy) (w : W) (k : nat) : W :=
  hw_enable_primary_det p true (hw_enable_dcd p false (hw_dcd_poll w k)).

(** The hardware a run of the detection stages starts polling from. *)
Definition hw_dcd_start (p : rockchip_usb2phy) (w : W) : W :=
  hw_enable_dcd p true (hw_suspend p w).

(** Whether the gpio descriptor is valid after lines 335-339. *)
Definition gpio_valid (b : build_config) (w : W) : bool :=
  CONFIG_ROCKCHIP_RK3506 b && hw_gpio_bound w.

(** The outcome of the VBUS check of lines 341-352 and its trace entry. *)
Definition vbus_present (b : build_config) (m : machine W) : bool :=
  if gpio_valid b (hw m) then hw_gpio_value (hw m)
  else hw_property_enabled (get_reg_base (rphy m))
         (utmi_bvalid (otg (rphy m))) (hw m).

Definition ev_check_vbus (b : build_config) (m : machine W) : event :=
  if gpio_valid b (hw m) then EvGpio (hw_gpio_value (hw m))
  else ev_property_enabled (get_reg_base (rphy m))
         (utmi_bvalid (otg (rphy m))) (hw m).

(** The hardware at the read of the [j]-th primary-detect retry, [w]
    being the hardware when the retry loop is entered: each retry enables
    the primary bundle and sleeps. *)
Definition hw_retry (p : rockchip_usb2phy) (w : W) (j : nat) : W :=
  Nat.iter j (fun w' => hw_primary_sample (hw_enable_primary_det p true w')) w.

Definition cp_det_retry_at (p : rockchip_usb2phy) (w : W) (j : nat) : bool :=
  hw_property_enabled (get_reg_base p) (cp_det (chg p)) (hw_retry p w j).

(** Trace of retries [1..a]. *)
Definition ev_retries (p : rockchip_usb2phy) (w : W) (a : nat) : list event :=
  flat_map
    (fun j => ev_enable_primary_det p true
              ++ [EvDelay CHG_PRIMARY_DET_TIME;
                  ev_property_enabled (get_reg_base p) (cp_det (chg p))
                    (hw_retry p w j)])
    (seq 1 a).

(** A primary-detect attempt as the specification words it, for comparison
    with the code: bundle on, 40 ms sleep, [cp_det] read, bundle off. *)
Definition spec_primary_attempt (p : rockchip_usb2phy) (w : W) : list event :=
  ev_enable_primary_det p true
  ++ ev_primary_sample p (hw_enable_primary_det p true w)
  ++ ev_enable_primary_det p false.

(** The hardware when the first primary-detect pass starts, the DCD stage
    having stopped at poll [k]; and when that pass is over, bundle off. *)
Definition hw_primary_first (p : rockchip_usb2phy) (w : W) (k : nat) : W :=
  hw_dcd_done p (hw_dcd_start p w) k.

Definition hw_after_primary (p : rockchip_usb2phy) (w : W) (k : nat) : W :=
  hw_enable_primary_det p false (hw_primary_sample (hw_primary_first p w k)).

(** The hardware when the secondary sample starts, entered from [w]. *)
Definition hw_secondary_first (p : rockchip_usb2phy) (w : W) : W :=
  hw_enable_secondary_det p true w.

(** Trace of the secondary stage entered from hardware [w]: bundle on,
    sample, bundle off. *)
Definition ev_secondary (p : rockchip_usb2phy) (w : W) : list event :=
  ev_enable_secondary_det p true
  ++ ev_secondary_sample p (hw_secondary_first p w)
  ++ ev_enable_secondary_det p false.

Definition hw_after_secondary (p : rockchip_usb2phy) (w : W) : W :=
  hw_enable_secondary_det p false
    (hw_secondary_sample (hw_secondary_first p w)).

(** What the secondary stage classifies, entered from hardware [w]. *)
Definition secondary_type (p : rockchip_usb2phy) (w : W) : power_supply_type :=
  if dcp_det_at p (hw_secondary_first p w)
  then POWER_SUPPLY_TYPE_USB_DCP else POWER_SUPPLY_TYPE_USB_CDP.

(** The PHY instance after a call: gpio descriptor as set up, counters as
    left. *)
Definition phy_after (b : build_config) (m : machine W) (dcd pri : Z)
  : rockchip_usb2phy :=
  with_dcd_retries dcd
    (with_primary_retries pri
       (with_vbus_det_gpio (gpio_valid b (hw m)) (rphy m))).

(** Trace of a call from the VBUS check to the end of the first
    primary-detect pass, the DCD stage stopping at poll [k]. *)
Definition ev_until_primary (b : build_config) (m : machine W) (k : nat)
  : list event :=
  [ev_check_vbus b m]
  ++ ev_suspend (rphy m)
  ++ ev_enable_dcd (rphy m) true
  ++ ev_dcd_polls (rphy m) (hw_dcd_start (rphy m) (hw m)) k
  ++ ev_enable_dcd (rphy m) false
  ++ ev_enable_primary_det (rphy m) true
  ++ ev_primary_sample (rphy m) (hw_primary_first (rphy m) (hw m) k)
  ++ ev_enable_primary_det (rphy m) false.

(** Poll [k] is the one that stops the DCD loop entered with hardware [w]
    and a budget of six: the first to read [dp_det], or the sixth. *)
Definition dcd_stops_at (p : rockchip_usb2phy) (w : W) (k : nat) : Prop :=
  (1 <= k <= 6)%nat
  /\ (forall j, (1 <= j < k)%nat -> dp_det_at p w j = false)
  /\ (dp_det_at p w k = true \/ k = 6%nat).

(** A register that honours the write-enable convention, and that writes
    to other registers leave alone. *)
Definition honours_wmask (base : regmap) (off : Z) : Prop :=
  forall (w : W) (v : Z),
    hw_read (hw_write w base off v) base off
    = wmask_write (hw_read w base off) v.

Definition unaffected_by_others (base : regmap) (off : Z) : Prop :=
  forall (w : W) (base' : regmap) (off' v : Z),
    (base', off') <> (base, off) ->
    hw_read (hw_write w base' off' v) base off = hw_read w base off.

End Observations.

(** A descriptor the write-enable convention can serve: a bit range inside
    the lower half-word, and encodings that fit in the range. *)
Definition fits (r : usb2phy_reg) (x : Z) : Prop :=
  0 <= x < 2 ^ (bitend r - bitstart r + 1).

Definition low_half (r : usb2phy_reg) : Prop :=
  0 <= bitstart r <= bitend r /\ bitend r <= 15.

(** Two descriptors that share no register bit. *)
Definition disjoint_fields (r1 r2 : usb2phy_reg) : Prop :=
  offset r1 <> offset r2 \/ bitend r1 < bitstart r2 \/ bitend r2 < bitstart r1.

(** ** A simulated register space

    Two banks of read/write registers that honour the write-enable
    convention, a clock advanced by the sleeps, read-only status registers
    given by a script over the clock, and an optional VBUS gpio. *)

Record sim := Sim {
  sim_grf : gmap Z Z;
  sim_usbgrf : gmap Z Z;
  sim_now : Z;
  sim_gpio : option bool
}.

Definition sim_bank (w : sim) (base : regmap) : gmap Z Z :=
  match base with GRF => sim_grf w | USBGRF => sim_usbgrf w end.

Definition sim_read (script : Z -> Z -> option Z) (w : sim) (base : regmap)
  (off : Z) : Z :=
  match script (sim_now w) off with
  | Some v => v
  | None => default 0 (sim_bank w base !! off)
  end.

Definition sim_write (w : sim) (base : regmap) (off val : Z) : sim :=
  let v := wmask_write (default 0 (sim_bank w base !! off)) val in
  match base with
  | GRF => Sim (<[off := v]> (sim_grf w)) (sim_usbgrf w) (sim_now w) (sim_gpio w)
  | USBGRF =>
      Sim (sim_grf w) (<[off := v]> (sim_usbgrf w)) (sim_now w) (sim_gpio w)
  end.

Definition sim_delay (w : sim) (ms : Z) : sim :=
  Sim (sim_grf w) (sim_usbgrf w) (sim_now w + ms) (sim_gpio w).

Definition sim_hw (script : Z -> Z -> option Z) : Hardware sim :=
  {| hw_read := sim_read script;
     hw_write := sim_write;
     hw_delay := sim_delay;
     hw_gpio_bound := fun w => bool_decide (is_Some (sim_gpio w));
     hw_gpio_value := fun w => default false (sim_gpio w) |}.

(** No status register at all: a plain register file. *)
Definition no_status : Z -> Z -> option Z := fun _ _ => None.

(** A status register at [off] that reads [before] until the clock reaches
    [t], and [after] from then on. *)
Definition status_step (off t before after : Z) : Z -> Z -> option Z :=
  fun now o =>
    if o =? off then Some (if now <? t then before else after) else None.

Definition sim_reset : sim := Sim ∅ ∅ 0 None.

(** ** Configuration tables of the driver *)

Definition absent : usb2phy_reg := Usb2phyReg 0 0 0 0 0.

Definition no_port : rockchip_usb2phy_port_cfg :=
  {| phy_sus := absent; bvalid_det_en := absent; bvalid_det_st := absent;
     bvalid_det_clr := absent; ls_det_en := absent; ls_det_st := absent;
     ls_det_clr := absent; iddig_output := absent; iddig_en := absent;
     idfall_det_en := absent; idfall_det_st := absent;
     idfall_det_clr := absent; idrise_det_en := absent;
     idrise_det_st := absent; idrise_det_clr := absent;
     utmi_avalid := absent; utmi_bvalid := absent; utmi_iddig := absent;
     utmi_ls := absent; utmi_hstdet := absent; vbus_det_en := absent |}.

Definition no_chg_det : rockchip_chg_det_reg :=
  {| cp_det := absent; dcp_det := absent; dp_det := absent;
     idm_sink_en := absent; idp_sink_en := absent; idp_src_en := absent;
     rdm_pdwn_en := absent; vdm_src_en := absent; vdp_src_en := absent;
     opmode := absent |}.

(** [rk1808_phy_cfgs[0]] (lines 1064-1115). *)
Definition rk1808_phy_cfg : rockchip_usb2phy_cfg :=
  {| reg := 0x100;
     num_ports := 2;
     clkout_ctl := Usb2phyReg 0x108 4 4 1 0;
     port_cfg_otg :=
       {| phy_sus := Usb2phyReg 0x0100 8 0 0 0x1d1;
          bvalid_det_en := Usb2phyReg 0x0110 2 2 0 1;
          bvalid_det_st := Usb2phyReg 0x0114 2 2 0 1;
          bvalid_det_clr := Usb2phyReg 0x0118 2 2 0 1;
          ls_det_en := Usb2phyReg 0x0110 0 0 0 1;
          ls_det_st := Usb2phyReg 0x0114 0 0 0 1;
          ls_det_clr := Usb2phyReg 0x0118 0 0 0 1;
          iddig_output := Usb2phyReg 0x0100 10 10 0 1;
          iddig_en := Usb2phyReg 0x0100 9 9 0 1;
          idfall_det_en := Usb2phyReg 0x0110 5 5 0 1;
          idfall_det_st := Usb2phyReg 0x0114 5 5 0 1;
          idfall_det_clr := Usb2phyReg 0x0118 5 5 0 1;
          idrise_det_en := Usb2phyReg 0x0110 4 4 0 1;
          idrise_det_st := Usb2phyReg 0x0114 4 4 0 1;
          idrise_det_clr := Usb2phyReg 0x0118 4 4 0 1;
          utmi_avalid := Usb2phyReg 0x0120 10 10 0 1;
          utmi_bvalid := Usb2phyReg 0x0120 9 9 0 1;
          utmi_iddig := Usb2phyReg 0x0120 6 6 0 1;
          utmi_ls := Usb2phyReg 0x0120 5 4 0 1;
          utmi_hstdet := absent;
          vbus_det_en := Usb2phyReg 0x001c 15 15 1 0 |};
     port_cfg_host :=
       {| phy_sus := Usb2phyReg 0x104 8 0 0 0x1d1;
          bvalid_det_en := absent; bvalid_det_st := absent;
          bvalid_det_clr := absent;
          ls_det_en := Usb2phyReg 0x110 1 1 0 1;
          ls_det_st := Usb2phyReg 0x114 1 1 0 1;
          ls_det_clr := Usb2phyReg 0x118 1 1 0 1;
          iddig_output := absent; iddig_en := absent;
          idfall_det_en := absent; idfall_det_st := absent;
          idfall_det_clr := absent; idrise_det_en := absent;
          idrise_det_st := absent; idrise_det_clr := absent;
          utmi_avalid := absent; utmi_bvalid := absent; utmi_iddig := absent;
          utmi_ls := Usb2phyReg 0x120 17 16 0 1;
          utmi_hstdet := Usb2phyReg 0x120 19 19 0 1;
          vbus_det_en := absent |};
     chg_det :=
       {| cp_det := Usb2phyReg 0x0120 24 24 0 1;
          dcp_det := Usb2phyReg 0x0120 23 23 0 1;
          dp_det := Usb2phyReg 0x0120 25 25 0 1;
          idm_sink_en := Usb2phyReg 0x0108 8 8 0 1;
          idp_sink_en := Usb2phyReg 0x0108 7 7 0 1;
          idp_src_en := Usb2phyReg 0x0108 9 9 0 1;
          rdm_pdwn_en := Usb2phyReg 0x0108 10 10 0 1;
          vdm_src_en := Usb2phyReg 0x0108 12 12 0 1;
          vdp_src_en := Usb2phyReg 0x0108 11 11 0 1;
          opmode := Usb2phyReg 0x0100 3 0 5 1 |} |}.

(** [rk3036_phy_cfgs[0]] (lines 1117-1152); the table has no [chg_det]. *)
Definition rk3036_phy_cfg : rockchip_usb2phy_cfg :=
  {| reg := 0x17c;
     num_ports := 2;
     clkout_ctl := Usb2phyReg 0x017c 11 11 1 0;
     port_cfg_otg :=
       {| phy_sus := Usb2phyReg 0x017c 8 0 0 0x1d1;
          bvalid_det_en := Usb2phyReg 0x017c 14 14 0 1;
          bvalid_det_st := Usb2phyReg 0x017c 15 15 0 1;
          bvalid_det_clr := Usb2phyReg 0x017c 15 15 0 1;
          ls_det_en := Usb2phyReg 0x017c 12 12 0 1;
          ls_det_st := Usb2phyReg 0x017c 13 13 0 1;
          ls_det_clr := Usb2phyReg 0x017c 13 13 0 1;
          iddig_output := Usb2phyReg 0x017c 10 10 0 1;
          iddig_en := Usb2phyReg 0x017c 9 9 0 1;
          idfall_det_en := Usb2phyReg 0x01a0 2 2 0 1;
          idfall_det_st := Usb2phyReg 0x01a0 3 3 0 1;
          idfall_det_clr := Usb2phyReg 0x01a0 3 3 0 1;
          idrise_det_en := Usb2phyReg 0x01a0 0 0 0 1;
          idrise_det_st := Usb2phyReg 0x01a0 1 1 0 1;
          idrise_det_clr := Usb2phyReg 0x01a0 1 1 0 1;
          utmi_avalid := absent;
          utmi_bvalid := Usb2phyReg 0x014c 5 5 0 1;
          utmi_iddig := Usb2phyReg 0x014c 8 8 0 1;
          utmi_ls := Usb2phyReg 0x014c 7 6 0 1;
          utmi_hstdet := absent;
          vbus_det_en := absent |};
     port_cfg_host :=
       {| phy_sus := Usb2phyReg 0x0194 8 0 0 0x1d1;
          bvalid_det_en := absent; bvalid_det_st := absent;
          bvalid_det_clr := absent;
          ls_det_en := Usb2phyReg 0x0194 14 14 0 1;
          ls_det_st := Usb2phyReg 0x0194 15 15 0 1;
          ls_det_clr := Usb2phyReg 0x0194 15 15 0 1;
          iddig_output := absent; iddig_en := absent;
          idfall_det_en := absent; idfall_det_st := absent;
          idfall_det_clr := absent; idrise_det_en := absent;
          idrise_det_st := absent; idrise_det_clr := absent;
          utmi_avalid := absent; utmi_bvalid := absent; utmi_iddig := absent;
          utmi_ls := absent; utmi_hstdet := absent; vbus_det_en := absent |};
     chg_det := no_chg_det |}.

(** [rk3588_phy_cfgs[0]] (lines 1933-1963); one port, OTG. *)
Definition rk3588_phy_cfg : rockchip_usb2phy_cfg :=
  {| reg := 0x0000;
     num_ports := 1;
     clkout_ctl := Usb2phyReg 0x0000 0 0 1 0;
     port_cfg_otg :=
       {| phy_sus := Usb2phyReg 0x000c 11 11 0 1;
          bvalid_det_en := absent; bvalid_det_st := absent;
          bvalid_det_clr := absent;
          ls_det_en := Usb2phyReg 0x0080 0 0 0 1;
          ls_det_st := Usb2phyReg 0x0084 0 0 0 1;
          ls_det_clr := Usb2phyReg 0x0088 0 0 0 1;
          iddig_output := absent; iddig_en := absent;
          idfall_det_en := absent; idfall_det_st := absent;
          idfall_det_clr := absent; idrise_det_en := absent;
          idrise_det_st := absent; idrise_det_clr := absent;
          utmi_avalid := Usb2phyReg 0x00c0 7 7 0 1;
          utmi_bvalid := Usb2phyReg 0x00c0 6 6 0 1;
          utmi_iddig := Usb2phyReg 0x00c0 5 5 0 1;
          utmi_ls := Usb2phyReg 0x00c0 10 9 0 1;
          utmi_hstdet := absent;
          vbus_det_en := absent |};
     port_cfg_host := no_port;
     chg_det :=
       {| cp_det := Usb2phyReg 0x00c0 0 0 0 1;
          dcp_det := Usb2phyReg 0x00c0 0 0 0 1;
          dp_det := Usb2phyReg 0x00c0 1 1 1 0;
          idm_sink_en := Usb2phyReg 0x0008 5 5 1 0;
          idp_sink_en := Usb2phyReg 0x0008 5 5 0 1;
          idp_src_en := Usb2phyReg 0x0008 14 14 0 1;
          rdm_pdwn_en := Usb2phyReg 0x0008 14 14 0 1;
          vdm_src_en := Usb2phyReg 0x0008 7 6 0 3;
          vdp_src_en := Usb2phyReg 0x0008 7 6 0 3;
          opmode := Usb2phyReg 0x0008 2 2 1 0 |} |}.

(** [rk3506_phy_cfgs[0]] (lines 1651-1700). *)
Definition rk3506_phy_cfg : rockchip_usb2phy_cfg :=
  {| reg := 0xff2b0000;
     num_ports := 2;
     clkout_ctl := absent;
     port_cfg_otg :=
       {| phy_sus := Usb2phyReg 0x0060 8 0 0 0x1d1;
          bvalid_det_en := Usb2phyReg 0x0150 2 2 0 1;
          bvalid_det_st := Usb2phyReg 0x0154 2 2 0 1;
          bvalid_det_clr := Usb2phyReg 0x0158 2 2 0 1;
          ls_det_en := Usb2phyReg 0x0150 0 0 0 1;
          ls_det_st := Usb2phyReg 0x0154 0 0 0 1;
          ls_det_clr := Usb2phyReg 0x0158 0 0 0 1;
          iddig_output := Usb2phyReg 0x0060 10 10 0 1;
          iddig_en := Usb2phyReg 0x0060 9 9 0 1;
          idfall_det_en := Usb2phyReg 0x0150 5 5 0 1;
          idfall_det_st := Usb2phyReg 0x0154 5 5 0 1;
          idfall_det_clr := Usb2phyReg 0x0158 5 5 0 1;
          idrise_det_en := Usb2phyReg 0x0150 4 4 0 1;
          idrise_det_st := Usb2phyReg 0x0154 4 4 0 1;
          idrise_det_clr := Usb2phyReg 0x0158 4 4 0 1;
          utmi_avalid := Usb2phyReg 0x0118 1 1 0 1;
          utmi_bvalid := Usb2phyReg 0x0118 0 0 0 1;
          utmi_iddig := Usb2phyReg 0x0118 6 6 0 1;
          utmi_ls := Usb2phyReg 0x0118 5 4 0 1;
          utmi_hstdet := absent;
          vbus_det_en := absent |};
     port_cfg_host :=
       {| phy_sus := Usb2phyReg 0x0070 8 0 0x1d2 0x1d1;
          bvalid_det_en := absent; bvalid_det_st := absent;
          bvalid_det_clr := absent;
          ls_det_en := Usb2phyReg 0x0170 0 0 0 1;
          ls_det_st := Usb2phyReg 0x0174 0 0 0 1;
          ls_det_clr := Usb2phyReg 0x0178 0 0 0 1;
          iddig_output := absent; iddig_en := absent;
          idfall_det_en := absent; idfall_det_st := absent;
          idfall_det_clr := absent; idrise_det_en := absent;
          idrise_det_st := absent; idrise_det_clr := absent;
          utmi_avalid := absent; utmi_bvalid := absent; utmi_iddig := absent;
          utmi_ls := Usb2phyReg 0x0118 13 12 0 1;
          utmi_hstdet := Usb2phyReg 0x0118 15 15 0 1;
          vbus_det_en := absent |};
     chg_det :=
       {| cp_det := Usb2phyReg 0x0118 19 19 0 1;
          dcp_det := Usb2phyReg 0x0118 18 18 0 1;
          dp_det := Usb2phyReg 0x0118 20 20 0 1;
          idm_sink_en := Usb2phyReg 0x006c 1 1 0 1;
          idp_sink_en := Usb2phyReg 0x006c 0 0 0 1;
          idp_src_en := Usb2phyReg 0x006c 2 2 0 1;
          rdm_pdwn_en := Usb2phyReg 0x006c 3 3 0 1;
          vdm_src_en := Usb2phyReg 0x006c 5 5 0 1;
          vdp_src_en := Usb2phyReg 0x006c 4 4 0 1;
          opmode := Usb2phyReg 0x0060 3 0 5 1 |} |}.

(** A PHY instance on the GRF bank alone, counters as probe leaves them. *)
Definition phy_of (cfg : rockchip_usb2phy_cfg) : rockchip_usb2phy :=
  {| dcd_retries := 0; primary_retries := 0; grf_base := GRF;
     usbgrf_base := None; vbus_det_gpio := false; phy_cfg := cfg |}.

Definition default_build : build_config :=
  {| CONFIG_ROCKCHIP_RK3036 := false; CONFIG_ROCKCHIP_RK3506 := false |}.

Definition rk3036_build : build_config :=
  {| CONFIG_ROCKCHIP_RK3036 := true; CONFIG_ROCKCHIP_RK3506 := false |}.

Definition rk3506_build : build_config :=
  {| CONFIG_ROCKCHIP_RK3036 := false; CONFIG_ROCKCHIP_RK3506 := true |}.

(** ** Scenarios on the simulated register space *)

(** A PHY fresh from probe on simulated hardware [w], with an empty trace. *)
Definition sim_machine (cfg : rockchip_usb2phy_cfg) (w : sim) : machine sim :=
  Machine w (phy_of cfg) [].

(** rk1808 status register 0x120: [utmi_bvalid] is bit 9 (0x200), [dp_det]
    bit 25 (0x2000000), [cp_det] bit 24 (0x1000000), [dcp_det] bit 23. *)

(** VBUS present, no contact, no charger voltage, at all times. *)
Definition rk1808_idle : Z -> Z -> option Z :=
  status_step 0x120 0 0x200 0x200.

(** VBUS present, [dp_det] asserted from the time of the [n]-th poll on,
    [cp_det] never. *)
Definition rk1808_contact_at (n : Z) : Z -> Z -> option Z :=
  status_step 0x120 (n * CHG_DCD_POLL_TIME) 0x200 0x2000200.

(** VBUS present, no contact, [cp_det] asserted, at all times. *)
Definition rk1808_voltage_only : Z -> Z -> option Z :=
  status_step 0x120 0 0x1000200 0x1000200.

(** VBUS absent. *)
Definition rk1808_unplugged : Z -> Z -> option Z :=
  status_step 0x120 0 0 0.

(** rk3036 status register 0x14c: [utmi_bvalid] is bit 5. *)
Definition rk3036_plugged : Z -> Z -> option Z :=
  status_step 0x14c 0 0x20 0x20.

(** rk3588 status register 0xc0: [utmi_bvalid] is bit 6, [dp_det] bit 1
    (asserted when clear), [cp_det] bit 0. *)
Definition rk3588_idle : Z -> Z -> option Z :=
  status_step 0xc0 0 0x42 0x42.

(** ** The rest of the driver: names, configuration matching, memory-mapped
    tuning and the PHY lifecycle *)

(** *** Charger names (lines 225-239) *)

Definition chg_to_string (chg_type : power_supply_type) : String.string :=
  match chg_type with
  | POWER_SUPPLY_TYPE_USB => "USB_SDP_CHARGER"%string
  | POWER_SUPPLY_TYPE_USB_DCP => "USB_DCP_CHARGER"%string
  | POWER_SUPPLY_TYPE_USB_CDP => "USB_CDP_CHARGER"%string
  | POWER_SUPPLY_TYPE_USB_FLOATING => "USB_FLOATING_CHARGER"%string
  | _ => "INVALID_CHARGER"%string
  end.

(** *** Configuration matching of probe (lines 709-722) *)

(** How the search of [rockchip_usb2phy_probe] ends: a configuration is
    assigned to [rphy->phy_cfg]; none is and probe returns [-EINVAL]; or
    the loop indexes the table past its last element. *)
Inductive probe_match :=
| MatchFound (cfg : rockchip_usb2phy_cfg)
| MatchNone
| MatchPastEnd.

(** The do-while loop of lines 711-717, [cur] being [phy_cfgs[index]] and
    [rest] the elements after it: the element is compared first, and only
    then is the next one tested for a zero [reg]. *)
Fixpoint probe_scan (cur : rockchip_usb2phy_cfg)
  (rest : list rockchip_usb2phy_cfg) (key : Z) : probe_match :=
  if reg cur =? key then MatchFound cur
  else
    match rest with
    | [] => MatchPastEnd
    | next :: rest' =>
        if reg next =? 0 then MatchNone else probe_scan next rest' key
    end.

(** Lines 709-722, [phy_cfgs] being the table of the matched compatible
    and [key] the [reg] read from the device tree. *)
Definition probe_find_cfg (phy_cfgs : list rockchip_usb2phy_cfg) (key : Z)
  : probe_match :=
  match phy_cfgs with
  | [] => MatchPastEnd
  | first :: rest => probe_scan first rest key
  end.

(** The all-zero element that closes most tables. *)
Definition sentinel_cfg : rockchip_usb2phy_cfg :=
  {| reg := 0; num_ports := 0; clkout_ctl := absent;
     port_cfg_otg := no_port; port_cfg_host := no_port;
     chg_det := no_chg_det |}.


Definition rk3036_phy_cfgs : list rockchip_usb2phy_cfg :=
  [rk3036_phy_cfg; sentinel_cfg].

Definition rk3506_phy_cfgs : list rockchip_usb2phy_cfg :=
  [rk3506_phy_cfg].

(** *** Accesses the detection is allowed *)

(** The registers the detection writes and those it reads. *)
Definition chg_write_regs (p : rockchip_usb2phy) : list usb2phy_reg :=
  [phy_sus (port_cfg_otg (phy_cfg p)); opmode (chg_det (phy_cfg p));
   rdm_pdwn_en (chg_det (phy_cfg p)); idp_src_en (chg_det (phy_cfg p));
   vdp_src_en (chg_det (phy_cfg p)); idm_sink_en (chg_det (phy_cfg p));
   vdm_src_en (chg_det (phy_cfg p)); idp_sink_en (chg_det (phy_cfg p))].

Definition chg_read_regs (p : rockchip_usb2phy) : list usb2phy_reg :=
  [utmi_bvalid (port_cfg_otg (phy_cfg p)); dp_det (chg_det (phy_cfg p));
   cp_det (chg_det (phy_cfg p)); dcp_det (chg_det (phy_cfg p))].

(** An access within those bounds: a write is a property write of one of
    the eight control descriptors, a read is at the offset of one of the
    four status descriptors, both on the bank of the PHY; a sleep lasts
    100 or 40 ms. *)
Definition chg_access_ok (p : rockchip_usb2phy) (e : event) : Prop :=
  match e with
  | EvWrite base off val =>
      base = get_reg_base p
      /\ exists r en, In r (chg_write_regs p)
                      /\ off = offset r /\ val = property_enable_val r en
  | EvRead base off _ =>
      base = get_reg_base p
      /\ exists r, In r (chg_read_regs p) /\ off = offset r
  | EvDelay ms => ms = CHG_DCD_POLL_TIME \/ ms = CHG_PRIMARY_DET_TIME
  | EvGpio _ => True
  end.

(** *** The ways a detection run can go *)

Section Shapes.

Context {W : Type} {HW : Hardware W}.

(** What follows the first primary-detect pass of a run started on
    hardware [w0] whose DCD stage stopped at poll [k]: the classification
    [t] and the trace [rest] between that pass and the cleanup writes. *)
Definition detection_rest (p : rockchip_usb2phy) (w0 : W) (k : nat)
  (t : power_supply_type) (rest : list event) : Prop :=
  (cp_det_at p (hw_primary_first p w0 k) = true
   /\ t = secondary_type p (hw_after_primary p w0 k)
   /\ rest = ev_secondary p (hw_after_primary p w0 k))
  \/ (cp_det_at p (hw_primary_first p w0 k) = false
      /\ k = 6%nat
      /\ t = POWER_SUPPLY_TYPE_USB_FLOATING
      /\ rest = [])
  \/ (cp_det_at p (hw_primary_first p w0 k) = false
      /\ (k < 6)%nat
      /\ exists a : nat,
          (1 <= a <= 2)%nat
          /\ (forall j, (1 <= j < a)%nat ->
                cp_det_retry_at p (hw_after_primary p w0 k) j = false)
          /\ cp_det_retry_at p (hw_after_primary p w0 k) a = true
          /\ t = secondary_type p
                   (hw_enable_primary_det p false
                      (hw_retry p (hw_after_primary p w0 k) a))
          /\ rest = ev_retries p (hw_after_primary p w0 k) a
                    ++ ev_enable_primary_det p false
                    ++ ev_secondary p
                         (hw_enable_primary_det p false
                            (hw_retry p (hw_after_primary p w0 k) a)))
  \/ (cp_det_at p (hw_primary_first p w0 k) = false
      /\ (k < 6)%nat
      /\ (forall j, (1 <= j <= 2)%nat ->
            cp_det_retry_at p (hw_after_primary p w0 k) j = false)
      /\ t = POWER_SUPPLY_TYPE_USB
      /\ rest = ev_retries p (hw_after_primary p w0 k) 2
                ++ ev_enable_primary_det p false).

End Shapes.

(** *** The platform around the register bank *)

(** Port identifiers (lines 40-44) and the error code of the lifecycle
    calls. *)
Definition USB2PHY_PORT_OTG : Z := 0.
Definition USB2PHY_PORT_HOST : Z := 1.
Definition USB2PHY_NUM_PORTS : Z := 2.

(** Modelled from the spec: [EINVAL] comes from the C library's errno
    values, not from the driver file. *)
Definition EINVAL : Z := 22.

(** Modelled from the spec: [BIT] comes from linux/bitops.h. *)
Definition BIT (n : Z) : Z := Z.shiftl 1 n.

(** Modelled from the spec: what the lifecycle and tuning code reaches
    beyond the register bank, none of it defined in the driver file: the
    memory-mapped registers of the PHY ([readl]/[writel]), the microsecond
    busy-wait, the reset line and the VBUS regulators, the last two
    answering with a status code, and the status code [regmap_write]
    answers with, which the tuning code tests. *)
Class Platform (W : Type) := {
  hw_readl : W -> Z -> Z;
  hw_writel : W -> Z -> Z -> W;
  hw_udelay : W -> Z -> W;
  hw_reset_assert : W -> Z * W;
  hw_reset_deassert : W -> Z * W;
  hw_regulator_set_enable : W -> Z -> bool -> Z * W;
  hw_regmap_status : W -> regmap -> Z -> Z -> Z
}.

Inductive access :=
| AcBus (e : event)
| AcReadl (addr val : Z)
| AcWritel (addr val : Z)
| AcUdelay (us : Z)
| AcResetAssert (status : Z)
| AcResetDeassert (status : Z)
| AcRegulator (port : Z) (en : bool) (status : Z).


(** The fields of [struct rockchip_usb2phy] the detection leaves out:
    [phy_base] as an address, one flag per port for a non-NULL
    [vbus_supply], one for a reset control that has a device. *)
Record usb2phy_dev := {
  dev_rphy : rockchip_usb2phy;
  phy_base : Z;
  vbus_supply : list bool;
  phy_rst : bool
}.

Section Lifecycle.

Context {W : Type} {HW : Hardware W} {PF : Platform W}.

Record pmachine := PMachine {
  p_hw : W;
  p_dev : usb2phy_dev;
  p_trace : list access
}.

(** State monad of the lifecycle code; [None] is an array indexed out of
    its bounds. *)
Definition PM (A : Type) : Type := pmachine -> option (A * pmachine).

Definition pret {A} (a : A) : PM A := fun m => Some (a, m).

Definition pbind {A B} (c : PM A) (k : A -> PM B) : PM B :=
  fun m => match c m with
           | Some (a, m') => k a m'
           | None => None
           end.

Notation "'let+' x ':=' c 'in' k" := (pbind c (fun x => k))
  (at level 10, x name, c at level 100, k at level 200, only parsing).
Notation "c >>> k" := (pbind c (fun _ => k))
  (at level 100, k at level 200, right associativity, only parsing).

(** An action of the register-bank monad run inside the lifecycle code:
    its accesses are appended to the trace in order. *)
Definition bus {A} (c : M W A) : PM A :=
  fun m =>
    match c (Machine (p_hw m) (dev_rphy (p_dev m)) []) with
    | Some (a, m') =>
        Some (a, PMachine (hw m')
                   {| dev_rphy := rphy m'; phy_base := phy_base (p_dev m);
                      vbus_supply := vbus_supply (p_dev m);
                      phy_rst := phy_rst (p_dev m) |}
                   (p_trace m ++ map AcBus (trace m')))
    | None => None
    end.

Definition get_dev : PM usb2phy_dev := fun m => Some (p_dev m, m).

Definition readl (addr : Z) : PM Z :=
  fun m =>
    let v := hw_readl (p_hw m) addr in
    Some (v, PMachine (p_hw m) (p_dev m) (p_trace m ++ [AcReadl addr v])).

Definition writel (val addr : Z) : PM unit :=
  fun m =>
    Some (tt, PMachine (hw_writel (p_hw m) addr val) (p_dev m)
                (p_trace m ++ [AcWritel addr val])).

Definition udelay (us : Z) : PM unit :=
  fun m =>
    Some (tt, PMachine (hw_udelay (p_hw m) us) (p_dev m)
                (p_trace m ++ [AcUdelay us])).

Definition reset_assert : PM Z :=
  fun m =>
    let (status, w) := hw_reset_assert (p_hw m) in
    Some (status, PMachine w (p_dev m) (p_trace m ++ [AcResetAssert status])).

Definition reset_deassert : PM Z :=
  fun m =>
    let (status, w) := hw_reset_deassert (p_hw m) in
    Some (status,
          PMachine w (p_dev m) (p_trace m ++ [AcResetDeassert status])).

Definition regulator_set_enable (port : Z) (en : bool) : PM Z :=
  fun m =>
    let (status, w) := hw_regulator_set_enable (p_hw m) port en in
    Some (status,
          PMachine w (p_dev m) (p_trace m ++ [AcRegulator port en status])).


(** [rphy->vbus_supply[phy->id]]: the array has [USB2PHY_NUM_PORTS]
    elements and the code does not check the index. *)
Definition get_vbus_supply (id : Z) : PM bool :=
  fun m =>
    if (0 <=? id) && (id <? USB2PHY_NUM_PORTS) then
      match nth_error (vbus_supply (p_dev m)) (Z.to_nat id) with
      | Some v => Some (v, m)
      | None => None
      end
    else None.

(** *** Memory-mapped read-modify-write helpers (lines 200-223) *)

Definition phy_clear_bits (addr bits : Z) : PM unit :=
  let+ tmp := readl addr in
  writel (Z.land tmp (u32 (Z.lnot bits))) addr.

Definition phy_set_bits (addr bits : Z) : PM unit :=
  let+ tmp := readl addr in
  writel (Z.lor tmp bits) addr.

Definition phy_update_bits (addr mask val : Z) : PM unit :=
  let+ tmp := readl addr in
  writel (Z.lor (Z.land tmp (u32 (Z.lnot mask))) (Z.land val mask)) addr.

(** *** Lifecycle (lines 443-579) *)


Definition rockchip_usb2phy_reset : PM Z :=
  let+ d := get_dev in
  if phy_rst d then
    let+ status := reset_assert in
    if status <? 0 then pret status
    else
      udelay 20 >>>
      let+ status := reset_deassert in
      if status <? 0 then pret status
      else udelay 100 >>> pret 0
  else pret 0.

(** The port configuration a [phy->id] selects, if any (lines 507-514 and
    531-538). *)
Definition port_cfg_of (r : rockchip_usb2phy) (id : Z)
  : option rockchip_usb2phy_port_cfg :=
  if id =? USB2PHY_PORT_OTG then Some (port_cfg_otg (phy_cfg r))
  else if id =? USB2PHY_PORT_HOST then Some (port_cfg_host (phy_cfg r))
  else None.

Definition rockchip_usb2phy_init (id : Z) : PM Z :=
  let+ d := get_dev in
  let r := dev_rphy d in
  let base := get_reg_base r in
  match port_cfg_of r id with
  | None => pret (- EINVAL)
  | Some port_cfg =>
      bus (property_enable base (phy_sus port_cfg) false) >>>
      udelay 2000 >>>
      pret 0
  end.

Definition rockchip_usb2phy_exit (id : Z) : PM Z :=
  let+ d := get_dev in
  let r := dev_rphy d in
  let base := get_reg_base r in
  match port_cfg_of r id with
  | None => pret (- EINVAL)
  | Some port_cfg =>
      bus (property_enable base (phy_sus port_cfg) true) >>>
      pret 0
  end.

Definition rockchip_usb2phy_power_on (id : Z) : PM Z :=
  let+ vbus := get_vbus_supply id in
  if vbus then
    let+ status := regulator_set_enable id true in
    if negb (status =? 0) then pret status else pret 0
  else pret 0.

Definition rockchip_usb2phy_power_off (id : Z) : PM Z :=
  let+ vbus := get_vbus_supply id in
  if vbus then
    let+ status := regulator_set_enable id false in
    if negb (status =? 0) then pret status else pret 0
  else pret 0.

(** *** Tuning (lines 907-928 and 1028-1054) *)

Definition rk3506_usb2phy_tuning : PM Z :=
  let+ d := get_dev in
  phy_clear_bits (phy_base d + 0x30) (BIT 2) >>>
  phy_clear_bits (phy_base d + 0x430) (BIT 2) >>>
  phy_update_bits (phy_base d + 0x30) (GENMASK 6 4) (Z.shiftl 0x05 4) >>>
  phy_update_bits (phy_base d + 0x430) (GENMASK 6 4) (Z.shiftl 0x05 4) >>>
  phy_update_bits (phy_base d + 0x94) (GENMASK 6 3) (Z.shiftl 0x03 3) >>>
  phy_update_bits (phy_base d + 0x494) (GENMASK 6 3) (Z.shiftl 0x03 3) >>>
  pret 0.



(** A memory-mapped register that stores what is written to it, and that
    writes to other addresses leave alone. *)
Definition stores (addr : Z) : Prop :=
  forall (w : W) (v : Z), hw_readl (hw_writel w addr v) addr = v.

Definition apart (addr : Z) : Prop :=
  forall (w : W) (addr' v : Z),
    addr' <> addr -> hw_readl (hw_writel w addr' v) addr = hw_readl w addr.

End Lifecycle.

Arguments pmachine W : clear implicits.
Arguments PM W A : clear implicits.

Notation "'let+' x ':=' c 'in' k" := (pbind c (fun x => k))
  (at level 10, x name, c at level 100, k at level 200, only parsing).
Notation "c >>> k" := (pbind c (fun _ => k))
  (at level 100, k at level 200, right associativity, only parsing).

(** *** A simulated platform *)

(** The simulated register space with a memory for the PHY registers, the
    status codes the reset line and the regulators answer with, and a
    microsecond clock. *)
Record psim := PSim {
  ps_sim : sim;
  ps_mem : gmap Z Z;
  ps_us : Z;
  ps_reset_status : Z;
  ps_regulator_status : Z
}.

Definition psim_hw (script : Z -> Z -> option Z) : Hardware psim :=
  {| hw_read := fun w => sim_read script (ps_sim w);
     hw_write := fun w base off val =>
       PSim (sim_write (ps_sim w) base off val) (ps_mem w) (ps_us w)
         (ps_reset_status w) (ps_regulator_status w);
     hw_delay := fun w ms =>
       PSim (sim_delay (ps_sim w) ms) (ps_mem w) (ps_us w + 1000 * ms)
         (ps_reset_status w) (ps_regulator_status w);
     hw_gpio_bound := fun w => bool_decide (is_Some (sim_gpio (ps_sim w)));
     hw_gpio_value := fun w => default false (sim_gpio (ps_sim w)) |}.

Definition psim_platform : Platform psim :=
  {| hw_readl := fun w addr => default 0 (ps_mem w !! addr);
     hw_writel := fun w addr val =>
       PSim (ps_sim w) (<[addr := val]> (ps_mem w)) (ps_us w)
         (ps_reset_status w) (ps_regulator_status w);
     hw_udelay := fun w us =>
       PSim (ps_sim w) (ps_mem w) (ps_us w + us)
         (ps_reset_status w) (ps_regulator_status w);
     hw_reset_assert := fun w => (ps_reset_status w, w);
     hw_reset_deassert := fun w => (ps_reset_status w, w);
     hw_regulator_set_enable := fun w _ _ => (ps_regulator_status w, w);
     hw_regmap_status := fun _ _ _ _ => 0 |}.

Definition psim_reset : psim := PSim sim_reset ∅ 0 0 0.

(** A probed device: no reset control, no regulator on either port. *)
Definition dev_of (cfg : rockchip_usb2phy_cfg) : usb2phy_dev :=
  {| dev_rphy := phy_of cfg; phy_base := 0xff2b0000;
     vbus_supply := [false; false]; phy_rst := false |}.

Definition psim_machine (cfg : rockchip_usb2phy_cfg) (w : psim)
  : pmachine psim :=
  PMachine w (dev_of cfg) [].

(** *** Port lookup (lines 581-605) *)

(** Modelled from the spec: [strcasecmp] comes from the C library, not
    from the driver file: the difference of the first two characters that
    differ once upper-case letters are folded to lower case, and 0 when
    there is none. *)
Definition tolower (c : Ascii.ascii) : Z :=
  let n := Z.of_nat (Ascii.nat_of_ascii c) in
  if (65 <=? n) && (n <=? 90) then n + 32 else n.

Fixpoint strcasecmp (s1 s2 : String.string) : Z :=
  match s1, s2 with
  | String.EmptyString, String.EmptyString => 0
  | String.EmptyString, String.String c2 _ => - tolower c2
  | String.String c1 _, String.EmptyString => tolower c1
  | String.String c1 r1, String.String c2 r2 =>
      if tolower c1 - tolower c2 =? 0 then strcasecmp r1 r2
      else tolower c1 - tolower c2
  end.

Section Xlate.

Context {W : Type} {HW : Hardware W} {PF : Platform W}.

(** Which supply properties of the port node name a regulator. *)
Variable supplies : String.string -> bool.

(** Modelled from the spec: [device_get_supply_regulator] is not in the
    driver file; it stores in the slot it is given the regulator the
    named property refers to, and NULL when the node has none. *)
Definition device_get_supply_regulator (supply_name : String.string)
  (port : Z) : PM W unit :=
  fun m =>
    Some (tt,
          PMachine (p_hw m)
            {| dev_rphy := dev_rphy (p_dev m);
               phy_base := phy_base (p_dev m);
               vbus_supply :=
                 <[Z.to_nat port := supplies supply_name]>
                   (vbus_supply (p_dev m));
               phy_rst := phy_rst (p_dev m) |}
            (p_trace m)).

(** [phy_id] is [phy->id] on entry; the call yields its status and
    [phy->id] on return. *)
Definition rockchip_usb2phy_of_xlate (dev_name : String.string) (phy_id : Z)
  : PM W (Z * Z) :=
  if strcasecmp dev_name "host-port"%string =? 0 then
    device_get_supply_regulator "phy-supply"%string USB2PHY_PORT_HOST >>>
    pret (0, USB2PHY_PORT_HOST)
  else if strcasecmp dev_name "otg-port"%string =? 0 then
    device_get_supply_regulator "phy-supply"%string USB2PHY_PORT_OTG >>>
    let+ vbus := get_vbus_supply USB2PHY_PORT_OTG in
    (if negb vbus
     then device_get_supply_regulator "vbus-supply"%string USB2PHY_PORT_OTG
     else pret tt) >>>
    pret (0, USB2PHY_PORT_OTG)
  else pret (- EINVAL, phy_id).

End Xlate.

(** * Properties *)

Arguments property_test : simpl never.
Arguments property_enable_val : simpl never.
Arguments ev_dcd_polls : simpl never.
Arguments hw_dcd_poll : simpl never.
Arguments ev_retries : simpl never.
Arguments hw_retry : simpl never.
Arguments chg_dcd_stage : simpl never.
Arguments chg_primary_stage : simpl never.
Arguments chg_secondary_stage : simpl never.
Arguments chg_cleanup : simpl never.

(** ** Bit-level facts *)

Ltac cmp_cases :=
  repeat match goal with
         | |- context [?a <? ?b] => destruct (Z.ltb_spec a b)
         | |- context [?a <=? ?b] => destruct (Z.leb_spec a b)
         end.

Lemma testbit_ones_nonneg (n i : Z) :
  0 <= n -> 0 <= i -> Z.testbit (Z.ones n) i = (i <? n).
Proof.
  intros Hn Hi. destruct (Z.ltb_spec i n).
  - apply Z.ones_spec_low. lia.
  - apply Z.ones_spec_high. lia.
Qed.

Lemma testbit_u32 (x i : Z) :
  0 <= i -> Z.testbit (u32 x) i = Z.testbit x i && (i <? 32).
Proof.
  intros Hi. unfold u32. rewrite Z.land_spec, testbit_ones_nonneg by lia.
  reflexivity.
Qed.

Lemma testbit_GENMASK (h l i : Z) :
  0 <= l -> 0 <= h <= 31 -> 0 <= i ->
  Z.testbit (GENMASK h l) i = (l <=? i) && (i <=? h).
Proof.
  intros Hl Hh Hi. unfold GENMASK.
  rewrite Z.land_spec, testbit_u32, Z.shiftr_spec, Z.shiftl_spec by lia.
  rewrite (testbit_ones_nonneg 32 (i + (31 - h))) by lia.
  destruct (Z.leb_spec l i) as [Hli|Hli].
  - rewrite testbit_ones_nonneg by lia.
    cmp_cases; try reflexivity; lia.
  - rewrite (Z.testbit_neg_r _ (i - l)) by lia. reflexivity.
Qed.

Lemma testbit_fits_high (r : usb2phy_reg) (x j : Z) :
  fits r x -> bitend r - bitstart r + 1 <= j -> Z.testbit x j = false.
Proof.
  unfold fits. intros [H0 Hlt] Hj.
  destruct (Z.eq_dec x 0) as [->|Hne]; [apply Z.testbit_0_l|].
  apply Z.bits_above_log2; [assumption|].
  destruct (Z.ltb_spec (bitend r - bitstart r + 1) 0) as [Hneg|Hpos].
  - rewrite Z.pow_neg_r in Hlt by assumption. lia.
  - apply Z.log2_lt_pow2 in Hlt; lia.
Qed.

Lemma testbit_property_field (r : usb2phy_reg) (orig i : Z) :
  0 <= bitstart r -> 0 <= bitend r <= 31 -> 0 <= i ->
  Z.testbit (property_field r orig) i
  = Z.testbit orig (i + bitstart r) && (i + bitstart r <=? bitend r).
Proof.
  intros Hl Hh Hi. unfold property_field.
  rewrite Z.shiftr_spec, Z.land_spec, testbit_GENMASK by lia.
  cmp_cases; try reflexivity; lia.
Qed.

Lemma testbit_wmask_write (old val i : Z) :
  0 <= i ->
  Z.testbit (wmask_write old val) i
  = if (i <? 16) && Z.testbit val (i + 16) then Z.testbit val i
    else Z.testbit old i.
Proof.
  intros Hi. unfold wmask_write.
  rewrite Z.lor_spec, !Z.land_spec, Z.lnot_spec, Z.land_spec by lia.
  rewrite Z.shiftr_spec, testbit_ones_nonneg by lia.
  destruct (Z.testbit val (i + 16)), (i <? 16), (Z.testbit val i),
    (Z.testbit old i); reflexivity.
Qed.

(** The bits of the word [property_enable] writes, for a descriptor in the
    lower half-word: data in the field, write-enable sixteen bits up. *)
Lemma testbit_property_enable_val (r : usb2phy_reg) (en : bool) (i : Z) :
  low_half r -> fits r (if en then enable r else disable r) -> 0 <= i ->
  Z.testbit (property_enable_val r en) i
  = if i <? 16
    then Z.testbit (if en then enable r else disable r) (i - bitstart r)
    else (bitstart r + 16 <=? i) && (i <=? bitend r + 16).
Proof.
  intros [Hr Hh] Hx Hi. unfold property_enable_val, U2PHY_BIT_WRITEABLE_SHIFT.
  set (tmp := if en then enable r else disable r) in *.
  rewrite testbit_u32, Z.lor_spec, !testbit_u32, !Z.shiftl_spec by lia.
  destruct (Z.ltb_spec i 16) as [Hlo|Hhi].
  - rewrite (Z.testbit_neg_r _ (i - 16)) by lia.
    replace (i <? 32) with true by (symmetry; apply Z.ltb_lt; lia).
    rewrite !andb_true_r, orb_false_r. reflexivity.
  - rewrite (testbit_fits_high r tmp (i - bitstart r)) by (assumption || lia).
    rewrite testbit_GENMASK by lia.
    cmp_cases; try reflexivity; lia.
Qed.

(** What a field reads after its own write, on a register that honours the
    convention. *)
Lemma property_field_wmask_write (r : usb2phy_reg) (en : bool) (old : Z) :
  low_half r -> fits r (if en then enable r else disable r) ->
  property_field r (wmask_write old (property_enable_val r en))
  = (if en then enable r else disable r).
Proof.
  intros Hr Hx. pose proof Hr as [Hl Hh].
  apply Z.bits_inj'. intros i Hi.
  rewrite testbit_property_field, testbit_wmask_write by lia.
  rewrite !testbit_property_enable_val by (assumption || lia).
  destruct (Z.leb_spec (i + bitstart r) (bitend r)) as [Hin|Hout].
  - replace (i + bitstart r <? 16) with true by (symmetry; apply Z.ltb_lt; lia).
    replace (i + bitstart r + 16 <? 16) with false
      by (symmetry; apply Z.ltb_ge; lia).
    replace (bitstart r + 16 <=? i + bitstart r + 16) with true
      by (symmetry; apply Z.leb_le; lia).
    replace (i + bitstart r + 16 <=? bitend r + 16) with true
      by (symmetry; apply Z.leb_le; lia).
    cbn. rewrite andb_true_r. f_equal. lia.
  - rewrite andb_false_r. symmetry.
    apply (testbit_fits_high r); [assumption | lia].
Qed.

(** A write to a descriptor leaves the bits of a disjoint range alone. *)
Lemma property_field_wmask_write_other (r r' : usb2phy_reg) (en : bool)
  (old : Z) :
  low_half r -> low_half r' ->
  fits r (if en then enable r else disable r) ->
  bitend r < bitstart r' \/ bitend r' < bitstart r ->
  property_field r' (wmask_write old (property_enable_val r en))
  = property_field r' old.
Proof.
  intros Hr Hr' Hx Hdis. pose proof Hr as [Hl Hh]. pose proof Hr' as [Hl' Hh'].
  apply Z.bits_inj'. intros i Hi.
  rewrite !testbit_property_field, testbit_wmask_write by lia.
  destruct (Z.leb_spec (i + bitstart r') (bitend r')) as [Hin|Hout];
    [|rewrite !andb_false_r; reflexivity].
  rewrite !andb_true_r.
  rewrite (testbit_property_enable_val r en (i + bitstart r' + 16))
    by (assumption || lia).
  replace (i + bitstart r' + 16 <? 16) with false
    by (symmetry; apply Z.ltb_ge; lia).
  replace ((bitstart r + 16 <=? i + bitstart r' + 16)
           && (i + bitstart r' + 16 <=? bitend r + 16)) with false.
  - rewrite andb_false_r. reflexivity.
  - symmetry. apply andb_false_iff. rewrite Z.leb_gt, Z.leb_gt. lia.
Qed.

(** ** The simulated register space honours the convention *)

Lemma sim_honours_wmask (script : Z -> Z -> option Z) (base : regmap)
  (off : Z) :
  (forall now, script now off = None) ->
  @honours_wmask sim (sim_hw script) base off.
Proof.
  intros Hfree w v. cbn. unfold sim_read, sim_write.
  destruct base; cbn; rewrite !Hfree; rewrite lookup_insert_eq; reflexivity.
Qed.

Lemma sim_unaffected_by_others (script : Z -> Z -> option Z) (base : regmap)
  (off : Z) :
  @unaffected_by_others sim (sim_hw script) base off.
Proof.
  intros w base' off' v Hne. cbn. unfold sim_read, sim_write.
  destruct base, base'; cbn; destruct (script (sim_now w) off);
    try reflexivity; rewrite lookup_insert_ne; congruence.
Qed.

(** ** The property accessor *)

Section Accessor.

Context {W : Type} {HW : Hardware W}.

Lemma property_enable_run (base : regmap) (r : usb2phy_reg) (en : bool)
  (m : machine W) :
  property_enable base r en m
  = Some (tt, Machine (hw_property_enable base r en (hw m)) (rphy m)
                      (trace m ++ [ev_property_enable base r en])).
Proof. reflexivity. Qed.

Lemma property_enabled_run (base : regmap) (r : usb2phy_reg) (m : machine W) :
  property_enabled base r m
  = Some (hw_property_enabled base r (hw m),
          Machine (hw m) (rphy m) (trace m ++ [ev_property_enabled base r (hw m)])).
Proof. reflexivity. Qed.

(** Reading a field back after its own write. *)
Lemma read_after_write (base : regmap) (r : usb2phy_reg) (en : bool) (w : W) :
  honours_wmask base (offset r) -> low_half r ->
  fits r (if en then enable r else disable r) ->
  property_field r (hw_read (hw_property_enable base r en w) base (offset r))
  = (if en then enable r else disable r).
Proof.
  intros Hhon Hr Hx. unfold hw_property_enable. rewrite Hhon.
  apply property_field_wmask_write; assumption.
Qed.

(** C5, as amended: for every descriptor whose bit range lies in the lower
    half-word and whose two encodings are distinct and fit in the range,
    on a register that honours the write-enable convention, writing the
    field enabled and reading it back gives true, and writing it disabled
    and reading it back gives false. *)
Theorem property_roundtrip (base : regmap) (r : usb2phy_reg) (m : machine W) :
  honours_wmask base (offset r) ->
  low_half r -> fits r (enable r) -> fits r (disable r) ->
  enable r <> disable r ->
  (property_enable base r true >> property_enabled base r) m
  = Some (true,
          Machine (hw_property_enable base r true (hw m)) (rphy m)
            (trace m ++ [ev_property_enable base r true;
                         ev_property_enabled base r
                           (hw_property_enable base r true (hw m))]))
  /\ (property_enable base r false >> property_enabled base r) m
     = Some (false,
             Machine (hw_property_enable base r false (hw m)) (rphy m)
               (trace m ++ [ev_property_enable base r false;
                            ev_property_enabled base r
                              (hw_property_enable base r false (hw m))])).
Proof.
  intros Hhon Hr Hen Hdis Hne.
  unfold bind. rewrite !property_enable_run, !property_enabled_run.
  cbn [hw rphy trace]. rewrite <- !app_assoc. cbn [app].
  unfold hw_property_enabled, property_test.
  rewrite (read_after_write base r true), (read_after_write base r false)
    by assumption.
  rewrite Z.eqb_refl.
  replace (disable r =? enable r) with false
    by (symmetry; apply Z.eqb_neq; congruence).
  split; reflexivity.
Qed.

(** C6, as amended: [property_enabled] answers true exactly when the value
    extracted from the bit range equals the enable encoding (a non-zero
    value that differs from it reads false); for a descriptor with equal
    encodings the answer after a property write does not depend on the
    intent written, and it is true when the bit range lies in the lower
    half-word of a register that honours the convention and the encoding
    fits in the range. *)
Theorem property_enabled_exact_match :
  (forall (base : regmap) (r : usb2phy_reg) (m : machine W),
      exists b,
        property_enabled base r m
        = Some (b, Machine (hw m) (rphy m)
                     (trace m ++ [ev_property_enabled base r (hw m)]))
        /\ (b = true
            <-> property_field r (hw_read (hw m) base (offset r)) = enable r))
  /\ (forall (base : regmap) (r : usb2phy_reg) (m : machine W),
         enable r = disable r ->
         (property_enable base r true >> property_enabled base r) m
         = (property_enable base r false >> property_enabled base r) m)
  /\ (forall (base : regmap) (r : usb2phy_reg) (en : bool) (m : machine W),
         enable r = disable r ->
         honours_wmask base (offset r) -> low_half r -> fits r (enable r) ->
         (property_enable base r en >> property_enabled base r) m
         = Some (true,
                 Machine (hw_property_enable base r en (hw m)) (rphy m)
                   (trace m ++ [ev_property_enable base r en;
                                ev_property_enabled base r
                                  (hw_property_enable base r en (hw m))]))).
Proof.
  split; [|split].
  - intros base r m. eexists. split; [apply property_enabled_run|].
    unfold hw_property_enabled, property_test. apply Z.eqb_eq.
  - intros base r m Heq.
    unfold bind, property_enable, property_enable_val. rewrite Heq.
    reflexivity.
  - intros base r en m Heq Hhon Hr Hfit.
    unfold bind. rewrite property_enable_run, property_enabled_run.
    cbn [hw rphy trace]. rewrite <- !app_assoc. cbn [app].
    unfold hw_property_enabled, property_test.
    rewrite read_after_write; try assumption.
    + destruct en; [|rewrite <- Heq]; rewrite Z.eqb_refl; reflexivity.
    + destruct en; [|rewrite <- Heq]; assumption.
Qed.

End Accessor.

(** Witness of C5: the [opmode] field of the rk1808 table on the simulated
    register file. *)
Lemma property_roundtrip_witness :
  (@property_enable sim (sim_hw no_status) GRF
     (opmode (chg_det rk1808_phy_cfg)) true
   >> @property_enabled sim (sim_hw no_status) GRF
        (opmode (chg_det rk1808_phy_cfg)))
    (Machine sim_reset (phy_of rk1808_phy_cfg) [])
  = Some (true,
          Machine (Sim {[ 0x100 := 1 ]} ∅ 0 None) (phy_of rk1808_phy_cfg)
            [EvWrite GRF 0x100 0x000f0001; EvRead GRF 0x100 1])
  /\ (@property_enable sim (sim_hw no_status) GRF
        (opmode (chg_det rk1808_phy_cfg)) false
      >> @property_enabled sim (sim_hw no_status) GRF
           (opmode (chg_det rk1808_phy_cfg)))
       (Machine sim_reset (phy_of rk1808_phy_cfg) [])
     = Some (false,
             Machine (Sim {[ 0x100 := 5 ]} ∅ 0 None) (phy_of rk1808_phy_cfg)
               [EvWrite GRF 0x100 0x000f0005; EvRead GRF 0x100 5]).
Proof.
  apply (@property_roundtrip sim (sim_hw no_status) GRF
           (opmode (chg_det rk1808_phy_cfg))
           (Machine sim_reset (phy_of rk1808_phy_cfg) [])).
  - apply sim_honours_wmask. reflexivity.
  - unfold low_half. cbn. lia.
  - unfold fits. cbn. lia.
  - unfold fits. cbn. lia.
  - cbn. lia.
Defined.

(** Counterexample to C5 as stated: on the simulated register file, which
    honours the convention, the [cp_det] descriptor of the rk1808 table
    (bit 24, encodings 0 and 1) reads false after being written enabled,
    and a one-bit descriptor with encodings 3 and 1 reads true after being
    written disabled. *)
Lemma property_roundtrip_counterexample :
  enable (cp_det (chg_det rk1808_phy_cfg))
    <> disable (cp_det (chg_det rk1808_phy_cfg))
  /\ @honours_wmask sim (sim_hw no_status) GRF
       (offset (cp_det (chg_det rk1808_phy_cfg)))
  /\ (@property_enable sim (sim_hw no_status) GRF
        (cp_det (chg_det rk1808_phy_cfg)) true
      >> @property_enabled sim (sim_hw no_status) GRF
           (cp_det (chg_det rk1808_phy_cfg)))
       (Machine sim_reset (phy_of rk1808_phy_cfg) [])
     = Some (false,
             Machine (Sim {[ 0x120 := 0 ]} ∅ 0 None) (phy_of rk1808_phy_cfg)
               [EvWrite GRF 0x120 0x01000000; EvRead GRF 0x120 0])
  /\ (@property_enable sim (sim_hw no_status) GRF (Usb2phyReg 0 0 0 3 1) false
      >> @property_enabled sim (sim_hw no_status) GRF (Usb2phyReg 0 0 0 3 1))
       (Machine sim_reset (phy_of rk1808_phy_cfg) [])
     = Some (true,
             Machine (Sim {[ 0 := 1 ]} ∅ 0 None) (phy_of rk1808_phy_cfg)
               [EvWrite GRF 0 0x00010003; EvRead GRF 0 1]).
Proof.
  split; [cbn; lia|]. split; [apply sim_honours_wmask; reflexivity|].
  split; vm_compute; reflexivity.
Qed.

(** Witness of C6: the OTG [phy_sus] descriptor of the second rk3588
    configuration (line 1972: bit 11, both encodings 0). *)
Lemma property_enabled_exact_match_witness :
  (@property_enable sim (sim_hw no_status) GRF (Usb2phyReg 0x000c 11 11 0 0)
     true
   >> @property_enabled sim (sim_hw no_status) GRF
        (Usb2phyReg 0x000c 11 11 0 0))
    (Machine (Sim {[ 0x000c := 0x0800 ]} ∅ 0 None) (phy_of rk3588_phy_cfg) [])
  = Some (true,
          Machine (Sim {[ 0x000c := 0 ]} ∅ 0 None) (phy_of rk3588_phy_cfg)
            [EvWrite GRF 0x000c 0x08000000; EvRead GRF 0x000c 0]).
Proof.
  etransitivity.
  - apply (proj2 (proj2 (@property_enabled_exact_match sim (sim_hw no_status)))
             GRF (Usb2phyReg 0x000c 11 11 0 0) true
             (Machine (Sim {[ 0x000c := 0x0800 ]} ∅ 0 None)
                (phy_of rk3588_phy_cfg) [])).
    + reflexivity.
    + apply sim_honours_wmask. reflexivity.
    + unfold low_half. cbn. lia.
    + unfold fits. cbn. lia.
  - vm_compute. reflexivity.
Defined.

(** Counterexample to C6 as stated: a descriptor at bit 24 with both
    encodings 1, and a one-bit descriptor with both encodings 2, read
    false after a property write on the simulated register file. *)
Lemma property_enabled_exact_match_counterexample :
  (@property_enable sim (sim_hw no_status) GRF (Usb2phyReg 0x120 24 24 1 1)
     true
   >> @property_enabled sim (sim_hw no_status) GRF
        (Usb2phyReg 0x120 24 24 1 1))
    (Machine sim_reset (phy_of rk1808_phy_cfg) [])
  = Some (false,
          Machine (Sim {[ 0x120 := 0 ]} ∅ 0 None) (phy_of rk1808_phy_cfg)
            [EvWrite GRF 0x120 0x01000000; EvRead GRF 0x120 0])
  /\ (@property_enable sim (sim_hw no_status) GRF (Usb2phyReg 0 0 0 2 2) true
      >> @property_enabled sim (sim_hw no_status) GRF (Usb2phyReg 0 0 0 2 2))
       (Machine sim_reset (phy_of rk1808_phy_cfg) [])
     = Some (false,
             Machine (Sim {[ 0 := 0 ]} ∅ 0 None) (phy_of rk1808_phy_cfg)
               [EvWrite GRF 0 0x00010002; EvRead GRF 0 0]).
Proof. split; vm_compute; reflexivity. Qed.

(** ** Running the detection stages *)

Ltac unfold_driver :=
  unfold rockchip_chg_primary_det_retry, rockchip_chg_enable_dcd,
    rockchip_chg_enable_primary_det, rockchip_chg_enable_secondary_det,
    property_enable, property_enabled, regmap_write, regmap_read, mdelay,
    dm_gpio_get_value, post_dec_dcd_retries, post_dec_primary_retries,
    get_rphy, set_rphy, bind, ret,
    with_dcd_retries, with_primary_retries, with_vbus_det_gpio.

Ltac unfold_obs :=
  unfold hw_after_secondary, hw_after_primary, hw_primary_first,
    secondary_type, ev_secondary, ev_until_primary, phy_after,
    hw_secondary_first, cp_det_at, dcp_det_at, dp_det_at,
    hw_dcd_start, hw_dcd_done, hw_cleanup, hw_suspend,
    hw_enable_secondary_det, hw_enable_primary_det, hw_enable_dcd,
    hw_primary_sample, hw_secondary_sample,
    ev_cleanup, ev_suspend, ev_primary_sample, ev_secondary_sample,
    ev_enable_secondary_det, ev_enable_primary_det, ev_enable_dcd,
    hw_property_enable, hw_property_enabled,
    ev_property_enable, ev_property_enabled,
    with_dcd_retries, with_primary_retries, with_vbus_det_gpio,
    chg, otg, get_reg_base.

Tactic Notation "unfold_obs" "in" hyp(H) :=
  unfold hw_after_secondary, hw_after_primary, hw_primary_first,
    secondary_type, hw_secondary_first, cp_det_at, dcp_det_at, dp_det_at,
    hw_dcd_start, hw_dcd_done, hw_cleanup, hw_suspend,
    hw_enable_secondary_det, hw_enable_primary_det, hw_enable_dcd,
    hw_primary_sample, hw_secondary_sample,
    hw_property_enable, hw_property_enabled,
    with_dcd_retries, with_primary_retries, with_vbus_det_gpio,
    chg, otg, get_reg_base in H.

Ltac norm_trace :=
  repeat first [rewrite <- !app_assoc | progress cbn [app]].

Section Runs.
Context {W : Type} {HW : Hardware W}.

Lemma bind_Some {A B} (c : M W A) (k : A -> M W B) (m m' : machine W) (a : A) :
  c m = Some (a, m') -> bind c k m = k a m'.
Proof. unfold bind. intros ->. reflexivity. Qed.

Lemma u8_small (x : Z) : 0 <= x < 256 -> u8 x = x.
Proof. intros H. unfold u8. apply Z.mod_small. exact H. Qed.

Lemma hw_dcd_poll_shift (w : W) (j : nat) :
  hw_dcd_poll (hw_delay w CHG_DCD_POLL_TIME) j = hw_dcd_poll w (S j).
Proof. unfold hw_dcd_poll. rewrite Nat.iter_succ_r. reflexivity. Qed.

Lemma ev_dcd_polls_shift (p : rockchip_usb2phy) (w : W) (k : nat) :
  ev_dcd_polls p w (S k)
  = [EvDelay CHG_DCD_POLL_TIME;
     ev_property_enabled (get_reg_base p) (dp_det (chg p)) (hw_dcd_poll w 1)]
    ++ ev_dcd_polls p (hw_delay w CHG_DCD_POLL_TIME) k.
Proof.
  unfold ev_dcd_polls. cbn [seq flat_map]. f_equal.
  rewrite <- seq_shift, flat_map_concat_map, map_map, <- flat_map_concat_map.
  apply flat_map_ext. intros j. rewrite hw_dcd_poll_shift. reflexivity.
Qed.

(** The polling loop, entered with counter [dcd_retries p], when the
    [k]-th poll is the first to see [dp_det] or to exhaust the counter. *)
Lemma chg_dcd_loop_run (k : nat) :
  forall (fuel : nat) (w : W) (p : rockchip_usb2phy) (tr : list event),
    (1 <= k)%nat -> (k <= fuel)%nat ->
    Z.of_nat k <= dcd_retries p <= 255 ->
    (forall j, (1 <= j < k)%nat -> dp_det_at p w j = false) ->
    dp_det_at p w k = true \/ dcd_retries p = Z.of_nat k ->
    chg_dcd_loop fuel (Machine w p tr)
    = Some (tt, Machine (hw_dcd_done p w k)
                        (with_dcd_retries (dcd_retries p - Z.of_nat k) p)
                        (tr ++ ev_dcd_polls p w k ++ ev_enable_dcd p false
                            ++ ev_enable_primary_det p true)).
Proof.
  induction k as [|k IH]; intros fuel w p tr Hk Hfuel Hc Hidle Hstop; [lia|].
  destruct fuel as [|fuel]; [lia|].
  destruct p as [dcd pri grf usb gpio cfg]. cbn [dcd_retries] in *.
  cbn [chg_dcd_loop].
  unfold bind at 1, post_dec_dcd_retries, bind, get_rphy, set_rphy, ret,
    with_dcd_retries; cbn.
  replace (dcd =? 0) with false by (symmetry; apply Z.eqb_neq; lia).
  rewrite u8_small by lia.
  destruct (Nat.eq_dec k 0%nat) as [->|Hk0].
  - (* the poll that stops the loop *)
    unfold_driver; unfold get_reg_base; cbn.
    unfold dp_det_at, hw_property_enabled, hw_dcd_poll, chg, get_reg_base
      in Hstop; cbn in Hstop.
    match goal with
    | |- context [if ?b || ?c then _ else _] => replace (b || c) with true
    end.
    + unfold ev_dcd_polls, hw_dcd_poll. unfold_obs. cbn. norm_trace.
      reflexivity.
    + destruct Hstop as [->| ->]; [reflexivity|]. symmetry; apply orb_true_r.
  - (* an idle poll *)
    unfold_driver; cbn.
    pose proof (Hidle 1%nat ltac:(lia)) as H1.
    unfold dp_det_at, hw_property_enabled, hw_dcd_poll, chg, get_reg_base
      in H1; cbn in H1.
    unfold get_reg_base; cbn. rewrite H1.
    replace (dcd - 1 =? 0) with false by (symmetry; apply Z.eqb_neq; lia).
    cbn [orb].
    rewrite (IH fuel); cbn [dcd_retries]; try lia.
    + unfold hw_dcd_done. rewrite hw_dcd_poll_shift, ev_dcd_polls_shift.
      norm_trace. unfold with_dcd_retries. cbn.
      do 3 f_equal. f_equal. lia.
    + intros j Hj. unfold dp_det_at. rewrite hw_dcd_poll_shift.
      apply (Hidle (S j)). lia.
    + unfold dp_det_at. rewrite hw_dcd_poll_shift.
      destruct Hstop as [Hs|Hs]; [left; exact Hs | right; lia].
Qed.

(** Some poll among the first six stops the loop. *)
Lemma dcd_stop_exists (p : rockchip_usb2phy) (w : W) :
  exists k : nat,
    (1 <= k <= 6)%nat
    /\ (forall j, (1 <= j < k)%nat -> dp_det_at p w j = false)
    /\ (dp_det_at p w k = true \/ k = 6%nat).
Proof.
  assert (Hsearch : forall n : nat,
             (exists k, (1 <= k <= n)%nat
                        /\ (forall j, (1 <= j < k)%nat -> dp_det_at p w j = false)
                        /\ dp_det_at p w k = true)
             \/ (forall j, (1 <= j <= n)%nat -> dp_det_at p w j = false)).
  { induction n as [|n [[k (Hk & Hidle & Hdp)]|Hnone]].
    - right. intros j Hj. lia.
    - left. exists k. split; [lia|]. split; assumption.
    - destruct (dp_det_at p w (S n)) eqn:Hdp.
      + left. exists (S n). split; [lia|]. split; [|assumption].
        intros j Hj. apply Hnone. lia.
      + right. intros j Hj. destruct (Nat.eq_dec j (S n)) as [->|Hne];
          [assumption | apply Hnone; lia]. }
  destruct (Hsearch 5%nat) as [[k (Hk & Hidle & Hdp)]|Hnone].
  - exists k. split; [lia|]. split; [assumption | left; assumption].
  - exists 6%nat. split; [lia|]. split; [|right; reflexivity].
    intros j Hj. apply Hnone. lia.
Qed.

(** The DCD stage when poll [k] stops it. *)
Lemma chg_dcd_stage_run (k : nat) (m : machine W) :
  (1 <= k <= 6)%nat ->
  (forall j, (1 <= j < k)%nat ->
             dp_det_at (rphy m) (hw_enable_dcd (rphy m) true (hw m)) j = false) ->
  dp_det_at (rphy m) (hw_enable_dcd (rphy m) true (hw m)) k = true
  \/ k = 6%nat ->
  chg_dcd_stage m
  = Some (tt,
          Machine (hw_dcd_done (rphy m) (hw_enable_dcd (rphy m) true (hw m)) k)
            (with_dcd_retries (CHG_DCD_MAX_RETRIES - Z.of_nat k)
               (with_primary_retries CHG_PRI_MAX_RETRIES (rphy m)))
            (trace m ++ ev_enable_dcd (rphy m) true
               ++ ev_dcd_polls (rphy m) (hw_enable_dcd (rphy m) true (hw m)) k
               ++ ev_enable_dcd (rphy m) false
               ++ ev_enable_primary_det (rphy m) true)).
Proof.
  intros Hk Hidle Hstop.
  destruct m as [w [dcd pri grf usb gpio cfg] tr]. cbn [hw rphy trace] in *.
  unfold chg_dcd_stage.
  assert (Hfuel : (6 <= u8_fuel)%nat) by (unfold u8_fuel; lia).
  generalize dependent u8_fuel. intros fuel Hfuel.
  unfold_driver; cbn.
  rewrite (chg_dcd_loop_run k); cbn [dcd_retries];
    unfold CHG_DCD_MAX_RETRIES; try lia.
  - unfold ev_dcd_polls, hw_dcd_poll. unfold_obs. cbn. norm_trace. reflexivity.
  - exact Hidle.
  - destruct Hstop as [Hs|Hs]; [left; exact Hs | right; lia].
Qed.

Lemma hw_retry_shift (p : rockchip_usb2phy) (w : W) (j : nat) :
  hw_retry p (hw_primary_sample (hw_enable_primary_det p true w)) j
  = hw_retry p w (S j).
Proof. unfold hw_retry. rewrite Nat.iter_succ_r. reflexivity. Qed.

Lemma ev_retries_shift (p : rockchip_usb2phy) (w : W) (a : nat) :
  ev_retries p w (S a)
  = ev_enable_primary_det p true
    ++ [EvDelay CHG_PRIMARY_DET_TIME;
        ev_property_enabled (get_reg_base p) (cp_det (chg p)) (hw_retry p w 1)]
    ++ ev_retries p (hw_primary_sample (hw_enable_primary_det p true w)) a.
Proof.
  unfold ev_retries. cbn [seq flat_map]. rewrite <- app_assoc. do 2 f_equal.
  rewrite <- seq_shift, flat_map_concat_map, map_map, <- flat_map_concat_map.
  apply flat_map_ext. intros j. rewrite hw_retry_shift. reflexivity.
Qed.

(** The retry loop when retry [a] is the first to see [cp_det]. *)
Lemma primary_det_retry_loop_hit (a : nat) :
  forall (fuel : nat) (w : W) (p : rockchip_usb2phy) (tr : list event),
    (1 <= a)%nat -> (a <= fuel)%nat ->
    Z.of_nat a <= primary_retries p <= 255 ->
    (forall j, (1 <= j < a)%nat -> cp_det_retry_at p w j = false) ->
    cp_det_retry_at p w a = true ->
    primary_det_retry_loop fuel false (Machine w p tr)
    = Some (true,
            Machine (hw_retry p w a)
              (with_primary_retries (primary_retries p - Z.of_nat a) p)
              (tr ++ ev_retries p w a)).
Proof.
  induction a as [|a IH]; intros fuel w p tr Ha Hfuel Hc Hidle Hhit; [lia|].
  destruct fuel as [|fuel]; [lia|].
  destruct p as [dcd pri grf usb gpio cfg]. cbn [primary_retries] in *.
  cbn [primary_det_retry_loop].
  unfold_driver; unfold get_reg_base; cbn.
  replace (pri =? 0) with false by (symmetry; apply Z.eqb_neq; lia).
  rewrite u8_small by lia. cbn.
  destruct (Nat.eq_dec a 0%nat) as [->|Ha0].
  - unfold cp_det_retry_at, hw_retry in Hhit. unfold_obs in Hhit.
    cbn in Hhit. rewrite Hhit.
    unfold ev_retries, hw_retry. unfold_obs. cbn. norm_trace. reflexivity.
  - pose proof (Hidle 1%nat ltac:(lia)) as H1.
    unfold cp_det_retry_at, hw_retry in H1. unfold_obs in H1. cbn in H1.
    rewrite H1.
    rewrite (IH fuel); cbn [primary_retries]; try lia.
    + rewrite (ev_retries_shift _ w a). rewrite <- (hw_retry_shift _ w a).
      unfold_obs. cbn. norm_trace.
      do 3 f_equal. f_equal. lia.
    + intros j Hj. unfold cp_det_retry_at.
      pose proof (Hidle (S j) ltac:(lia)) as Hj'.
      unfold cp_det_retry_at in Hj'. rewrite <- hw_retry_shift in Hj'.
      exact Hj'.
    + unfold cp_det_retry_at in *. rewrite <- hw_retry_shift in Hhit.
      exact Hhit.
Qed.

(** The retry loop when no retry sees [cp_det]: the counter runs out and
    wraps. *)
Lemma primary_det_retry_loop_miss (c : nat) :
  forall (fuel : nat) (w : W) (p : rockchip_usb2phy) (tr : list event),
    (c < fuel)%nat -> primary_retries p = Z.of_nat c -> (c <= 255)%nat ->
    (forall j, (1 <= j <= c)%nat -> cp_det_retry_at p w j = false) ->
    primary_det_retry_loop fuel false (Machine w p tr)
    = Some (false,
            Machine (hw_retry p w c) (with_primary_retries 255 p)
              (tr ++ ev_retries p w c)).
Proof.
  induction c as [|c IH]; intros fuel w p tr Hfuel Hc Hmax Hidle;
    (destruct fuel as [|fuel]; [lia|]);
    destruct p as [dcd pri grf usb gpio cfg]; cbn [primary_retries] in *;
    cbn [primary_det_retry_loop]; unfold_driver; unfold get_reg_base; cbn.
  - subst pri. cbn. rewrite app_nil_r. reflexivity.
  - replace (pri =? 0) with false by (symmetry; apply Z.eqb_neq; lia).
    rewrite u8_small by lia. cbn.
    pose proof (Hidle 1%nat ltac:(lia)) as H1.
    unfold cp_det_retry_at, hw_retry in H1. unfold_obs in H1. cbn in H1.
    rewrite H1.
    rewrite (IH fuel); cbn [primary_retries]; try lia.
    + rewrite (ev_retries_shift _ w c). rewrite <- (hw_retry_shift _ w c).
      unfold_obs. cbn. norm_trace. reflexivity.
    + intros j Hj. unfold cp_det_retry_at.
      pose proof (Hidle (S j) ltac:(lia)) as Hj'.
      unfold cp_det_retry_at in Hj'. rewrite <- hw_retry_shift in Hj'.
      exact Hj'.
Qed.

Lemma chg_secondary_stage_run (m : machine W) :
  chg_secondary_stage m
  = Some (if dcp_det_at (rphy m) (hw m)
          then POWER_SUPPLY_TYPE_USB_DCP else POWER_SUPPLY_TYPE_USB_CDP,
          Machine (hw_enable_secondary_det (rphy m) false
                     (hw_secondary_sample (hw m)))
            (rphy m)
            (trace m ++ ev_secondary_sample (rphy m) (hw m)
               ++ ev_enable_secondary_det (rphy m) false)).
Proof.
  destruct m as [w [dcd pri grf usb gpio cfg] tr].
  unfold chg_secondary_stage. unfold_driver. unfold_obs. cbn. norm_trace.
  reflexivity.
Qed.

Lemma chg_cleanup_run (m : machine W) :
  chg_cleanup m
  = Some (tt, Machine (hw_cleanup (rphy m) (hw m)) (rphy m)
                (trace m ++ ev_cleanup (rphy m))).
Proof.
  destruct m as [w [dcd pri grf usb gpio cfg] tr].
  unfold chg_cleanup. unfold_driver. unfold_obs. cbn. norm_trace.
  reflexivity.
Qed.

(** Lines 335-352: gpio setup and VBUS check. *)
Lemma chg_check_vbus_run (b : build_config) (m : machine W) :
  (chg_setup_vbus_gpio b >> chg_check_vbus) m
  = Some (vbus_present b m,
          Machine (hw m)
            (with_vbus_det_gpio (gpio_valid b (hw m)) (rphy m))
            (trace m ++ [ev_check_vbus b m])).
Proof.
  destruct m as [w [dcd pri grf usb gpio cfg] tr].
  unfold chg_setup_vbus_gpio, chg_check_vbus, rockchip_u2phy_get_vbus_gpio,
    vbus_present, ev_check_vbus, gpio_valid.
  destruct (CONFIG_ROCKCHIP_RK3506 b); unfold_driver; unfold_obs; cbn;
    [destruct (hw_gpio_bound w)|]; reflexivity.
Qed.

End Runs.

(** ** Paths through the detection *)

Section Paths.
Context {W : Type} {HW : Hardware W}.

(** Primary stage, [cp_det] seen on the first pass. *)
Lemma chg_primary_stage_charger (m : machine W) :
  cp_det_at (rphy m) (hw m) = true ->
  chg_primary_stage m
  = Some (None,
          Machine (hw_secondary_first (rphy m)
                     (hw_enable_primary_det (rphy m) false
                        (hw_primary_sample (hw m))))
            (rphy m)
            (trace m ++ ev_primary_sample (rphy m) (hw m)
               ++ ev_enable_primary_det (rphy m) false
               ++ ev_enable_secondary_det (rphy m) true)).
Proof.
  intros Hcp. destruct m as [w [dcd pri grf usb gpio cfg] tr].
  unfold_obs in Hcp. cbn in Hcp.
  unfold chg_primary_stage. unfold_driver. unfold get_reg_base. cbn.
  rewrite Hcp. unfold hw_secondary_first. unfold_obs. cbn. norm_trace.
  reflexivity.
Qed.

(** Primary stage, no [cp_det] and the DCD counter at zero. *)
Lemma chg_primary_stage_floating (m : machine W) :
  dcd_retries (rphy m) = 0 ->
  cp_det_at (rphy m) (hw m) = false ->
  chg_primary_stage m
  = Some (Some POWER_SUPPLY_TYPE_USB_FLOATING,
          Machine (hw_enable_primary_det (rphy m) false
                     (hw_primary_sample (hw m)))
            (rphy m)
            (trace m ++ ev_primary_sample (rphy m) (hw m)
               ++ ev_enable_primary_det (rphy m) false)).
Proof.
  intros Hdcd Hcp. destruct m as [w [dcd pri grf usb gpio cfg] tr].
  cbn in Hdcd. subst dcd.
  unfold_obs in Hcp. cbn in Hcp.
  unfold chg_primary_stage. unfold_driver. unfold get_reg_base. cbn.
  rewrite Hcp. unfold_obs. cbn. norm_trace. reflexivity.
Qed.

(** Primary stage, no [cp_det] on the first pass, DCD counter not zero,
    and retry [a] the first to see [cp_det]. *)
Lemma chg_primary_stage_retry_hit (a : nat) (m : machine W) :
  dcd_retries (rphy m) <> 0 ->
  cp_det_at (rphy m) (hw m) = false ->
  (1 <= a)%nat -> Z.of_nat a <= primary_retries (rphy m) <= 255 ->
  (forall j, (1 <= j < a)%nat ->
     cp_det_retry_at (rphy m)
       (hw_enable_primary_det (rphy m) false (hw_primary_sample (hw m))) j
     = false) ->
  cp_det_retry_at (rphy m)
    (hw_enable_primary_det (rphy m) false (hw_primary_sample (hw m))) a
  = true ->
  chg_primary_stage m
  = Some (None,
          Machine (hw_secondary_first (rphy m)
                     (hw_enable_primary_det (rphy m) false
                        (hw_retry (rphy m)
                           (hw_enable_primary_det (rphy m) false
                              (hw_primary_sample (hw m))) a)))
            (with_primary_retries
               (primary_retries (rphy m) - Z.of_nat a) (rphy m))
            (trace m ++ ev_primary_sample (rphy m) (hw m)
               ++ ev_enable_primary_det (rphy m) false
               ++ ev_retries (rphy m)
                    (hw_enable_primary_det (rphy m) false
                       (hw_primary_sample (hw m))) a
               ++ ev_enable_primary_det (rphy m) false
               ++ ev_enable_secondary_det (rphy m) true)).
Proof.
  intros Hdcd Hcp Ha Hpri Hidle Hhit.
  destruct m as [w [dcd pri grf usb gpio cfg] tr]. cbn [hw rphy trace] in *.
  cbn in Hdcd, Hpri.
  unfold_obs in Hcp. cbn in Hcp.
  unfold chg_primary_stage, rockchip_chg_primary_det_retry.
  assert (Hfuel : (a <= u8_fuel)%nat) by (unfold u8_fuel; lia).
  generalize dependent u8_fuel. intros fuel Hfuel.
  unfold_driver. unfold get_reg_base. cbn.
  rewrite Hcp. cbn.
  replace (dcd =? 0) with false by (symmetry; apply Z.eqb_neq; assumption).
  cbn.
  rewrite (primary_det_retry_loop_hit a); cbn [primary_retries];
    try assumption.
  unfold hw_secondary_first. unfold_obs. cbn. norm_trace. reflexivity.
Qed.

(** Primary stage, no [cp_det] on the first pass nor on any retry. *)
Lemma chg_primary_stage_retry_miss (c : nat) (m : machine W) :
  dcd_retries (rphy m) <> 0 ->
  cp_det_at (rphy m) (hw m) = false ->
  primary_retries (rphy m) = Z.of_nat c -> (c <= 255)%nat ->
  (forall j, (1 <= j <= c)%nat ->
     cp_det_retry_at (rphy m)
       (hw_enable_primary_det (rphy m) false (hw_primary_sample (hw m))) j
     = false) ->
  chg_primary_stage m
  = Some (Some POWER_SUPPLY_TYPE_USB,
          Machine (hw_enable_primary_det (rphy m) false
                     (hw_retry (rphy m)
                        (hw_enable_primary_det (rphy m) false
                           (hw_primary_sample (hw m))) c))
            (with_primary_retries 255 (rphy m))
            (trace m ++ ev_primary_sample (rphy m) (hw m)
               ++ ev_enable_primary_det (rphy m) false
               ++ ev_retries (rphy m)
                    (hw_enable_primary_det (rphy m) false
                       (hw_primary_sample (hw m))) c
               ++ ev_enable_primary_det (rphy m) false)).
Proof.
  intros Hdcd Hcp Hpri Hc Hidle.
  destruct m as [w [dcd pri grf usb gpio cfg] tr]. cbn [hw rphy trace] in *.
  cbn in Hdcd, Hpri.
  unfold_obs in Hcp. cbn in Hcp.
  unfold chg_primary_stage, rockchip_chg_primary_det_retry.
  assert (Hfuel : (c < u8_fuel)%nat) by (unfold u8_fuel; lia).
  generalize dependent u8_fuel. intros fuel Hfuel.
  unfold_driver. unfold get_reg_base. cbn.
  rewrite Hcp. cbn.
  replace (dcd =? 0) with false by (symmetry; apply Z.eqb_neq; assumption).
  cbn.
  rewrite (primary_det_retry_loop_miss c); cbn [primary_retries];
    try assumption.
  unfold_obs. cbn. norm_trace. reflexivity.
Qed.

End Paths.

(** ** Complete runs *)

Section Complete.
Context {W : Type} {HW : Hardware W}.

Lemma bind_assoc {A B C} (c : M W A) (f : A -> M W B) (g : B -> M W C)
  (m : machine W) :
  bind (bind c f) g m = bind c (fun a => bind (f a) g) m.
Proof. unfold bind. destruct (c m) as [[a m']|]; reflexivity. Qed.

Lemma run_get_rphy {A} (k : rockchip_usb2phy -> M W A) (m : machine W) :
  bind get_rphy k m = k (rphy m) m.
Proof. reflexivity. Qed.

Lemma run_property_enable {A} (base : regmap) (r : usb2phy_reg) (en : bool)
  (k : unit -> M W A) (m : machine W) :
  bind (property_enable base r en) k m
  = k tt (Machine (hw_property_enable base r en (hw m)) (rphy m)
            (trace m ++ [ev_property_enable base r en])).
Proof. reflexivity. Qed.

Lemma run_ret {A B} (a : A) (k : A -> M W B) (m : machine W) :
  bind (ret a) k m = k a m.
Proof. reflexivity. Qed.

Ltac run_steps :=
  repeat first
    [ rewrite bind_assoc
    | rewrite run_get_rphy; cbv beta
    | rewrite run_property_enable; cbv beta
    | rewrite run_ret; cbv beta ];
  cbn [hw rphy trace].

(** A call that passes the VBUS check, up to the end of the DCD stage. *)
Lemma rockchip_chg_get_type_dcd (b : build_config) (m : machine W) (k : nat) :
  CONFIG_ROCKCHIP_RK3036 b = false ->
  vbus_present b m = true ->
  dcd_stops_at (rphy m) (hw_dcd_start (rphy m) (hw m)) k ->
  rockchip_chg_get_type b m
  = chg_from_primary
      (Machine (hw_primary_first (rphy m) (hw m) k)
         (phy_after b m (CHG_DCD_MAX_RETRIES - Z.of_nat k) CHG_PRI_MAX_RETRIES)
         (trace m ++ [ev_check_vbus b m] ++ ev_suspend (rphy m)
            ++ ev_enable_dcd (rphy m) true
            ++ ev_dcd_polls (rphy m) (hw_dcd_start (rphy m) (hw m)) k
            ++ ev_enable_dcd (rphy m) false
            ++ ev_enable_primary_det (rphy m) true)).
Proof.
  intros Hcfg Hvbus (Hk & Hidle & Hstop).
  unfold rockchip_chg_get_type.
  rewrite <- (bind_assoc (chg_setup_vbus_gpio b) (fun _ => chg_check_vbus)).
  rewrite (bind_Some _ _ _ _ _ (chg_check_vbus_run b m)).
  rewrite Hvbus, Hcfg. cbn [negb]. cbv beta iota.
  destruct m as [w [dcd pri grf usb gpio cfg] tr]. cbn [hw rphy trace] in *.
  unfold chg_from_primary, chg_detect.
  run_steps.
  erewrite bind_Some;
    [|apply (chg_dcd_stage_run k); [exact Hk|exact Hidle|exact Hstop]].
  cbv beta. rewrite ?bind_assoc.
  unfold_obs. cbn. norm_trace. reflexivity.
Qed.


Ltac finish_run m :=
  cbv beta iota; unfold ret;
  unfold ev_until_primary, ev_secondary;
  cbn [hw rphy trace];
  rewrite <- ?app_assoc;
  destruct m as [? [? ? ? ? ? ?] ?];
  reflexivity.

(** The DCD budget runs out and the first pass sees no [cp_det]. *)
Lemma run_floating (b : build_config) (m : machine W) :
  CONFIG_ROCKCHIP_RK3036 b = false ->
  vbus_present b m = true ->
  (forall j, (1 <= j < 6)%nat ->
     dp_det_at (rphy m) (hw_dcd_start (rphy m) (hw m)) j = false) ->
  cp_det_at (rphy m) (hw_primary_first (rphy m) (hw m) 6) = false ->
  rockchip_chg_get_type b m
  = Some (POWER_SUPPLY_TYPE_USB_FLOATING,
          Machine (hw_cleanup (rphy m) (hw_after_primary (rphy m) (hw m) 6))
            (phy_after b m 0 CHG_PRI_MAX_RETRIES)
            (trace m ++ ev_until_primary b m 6 ++ ev_cleanup (rphy m))).
Proof.
  intros Hcfg Hvbus Hidle Hcp.
  rewrite (rockchip_chg_get_type_dcd b m 6 Hcfg Hvbus)
    by (split; [lia|]; split; [exact Hidle|right; reflexivity]).
  unfold chg_from_primary. rewrite bind_assoc.
  erewrite bind_Some;
    [|apply chg_primary_stage_floating; [reflexivity|exact Hcp]].
  cbv beta iota. rewrite run_ret.
  erewrite bind_Some; [|apply chg_cleanup_run].
  finish_run m.
Qed.

(** The first pass sees [cp_det]: secondary detection decides. *)
Lemma run_secondary (b : build_config) (m : machine W) (k : nat) :
  CONFIG_ROCKCHIP_RK3036 b = false ->
  vbus_present b m = true ->
  dcd_stops_at (rphy m) (hw_dcd_start (rphy m) (hw m)) k ->
  cp_det_at (rphy m) (hw_primary_first (rphy m) (hw m) k) = true ->
  rockchip_chg_get_type b m
  = Some (secondary_type (rphy m) (hw_after_primary (rphy m) (hw m) k),
          Machine
            (hw_cleanup (rphy m)
               (hw_after_secondary (rphy m)
                  (hw_after_primary (rphy m) (hw m) k)))
            (phy_after b m (CHG_DCD_MAX_RETRIES - Z.of_nat k)
               CHG_PRI_MAX_RETRIES)
            (trace m ++ ev_until_primary b m k
               ++ ev_secondary (rphy m) (hw_after_primary (rphy m) (hw m) k)
               ++ ev_cleanup (rphy m))).
Proof.
  intros Hcfg Hvbus Hstop Hcp.
  rewrite (rockchip_chg_get_type_dcd b m k Hcfg Hvbus Hstop).
  unfold chg_from_primary. rewrite bind_assoc.
  erewrite bind_Some; [|apply chg_primary_stage_charger; exact Hcp].
  cbv beta iota.
  erewrite bind_Some; [|apply chg_secondary_stage_run].
  erewrite bind_Some; [|apply chg_cleanup_run].
  finish_run m.
Qed.

(** Contact found with budget left, no [cp_det] on the first pass, and
    retry [a] the first to see it: secondary detection decides. *)
Lemma run_retry_hit (b : build_config) (m : machine W) (k a : nat) :
  CONFIG_ROCKCHIP_RK3036 b = false ->
  vbus_present b m = true ->
  dcd_stops_at (rphy m) (hw_dcd_start (rphy m) (hw m)) k -> (k < 6)%nat ->
  cp_det_at (rphy m) (hw_primary_first (rphy m) (hw m) k) = false ->
  (1 <= a <= 2)%nat ->
  (forall j, (1 <= j < a)%nat ->
     cp_det_retry_at (rphy m) (hw_after_primary (rphy m) (hw m) k) j = false) ->
  cp_det_retry_at (rphy m) (hw_after_primary (rphy m) (hw m) k) a = true ->
  rockchip_chg_get_type b m
  = Some (secondary_type (rphy m)
            (hw_enable_primary_det (rphy m) false
               (hw_retry (rphy m) (hw_after_primary (rphy m) (hw m) k) a)),
          Machine
            (hw_cleanup (rphy m)
               (hw_after_secondary (rphy m)
                  (hw_enable_primary_det (rphy m) false
                     (hw_retry (rphy m)
                        (hw_after_primary (rphy m) (hw m) k) a))))
            (phy_after b m (CHG_DCD_MAX_RETRIES - Z.of_nat k)
               (CHG_PRI_MAX_RETRIES - Z.of_nat a))
            (trace m ++ ev_until_primary b m k
               ++ ev_retries (rphy m) (hw_after_primary (rphy m) (hw m) k) a
               ++ ev_enable_primary_det (rphy m) false
               ++ ev_secondary (rphy m)
                    (hw_enable_primary_det (rphy m) false
                       (hw_retry (rphy m)
                          (hw_after_primary (rphy m) (hw m) k) a))
               ++ ev_cleanup (rphy m))).
Proof.
  intros Hcfg Hvbus Hstop Hk Hcp Ha Hidle Hhit.
  rewrite (rockchip_chg_get_type_dcd b m k Hcfg Hvbus Hstop).
  unfold chg_from_primary. rewrite bind_assoc.
  erewrite bind_Some;
    [|apply (chg_primary_stage_retry_hit a);
      [cbn; unfold CHG_DCD_MAX_RETRIES; lia | exact Hcp | lia
      | cbn; unfold CHG_PRI_MAX_RETRIES; lia | exact Hidle | exact Hhit]].
  cbv beta iota.
  erewrite bind_Some; [|apply chg_secondary_stage_run].
  erewrite bind_Some; [|apply chg_cleanup_run].
  finish_run m.
Qed.

(** Contact found with budget left, and no [cp_det] on the first pass nor
    on the two retries. *)
Lemma run_sdp (b : build_config) (m : machine W) (k : nat) :
  CONFIG_ROCKCHIP_RK3036 b = false ->
  vbus_present b m = true ->
  dcd_stops_at (rphy m) (hw_dcd_start (rphy m) (hw m)) k -> (k < 6)%nat ->
  cp_det_at (rphy m) (hw_primary_first (rphy m) (hw m) k) = false ->
  (forall j, (1 <= j <= 2)%nat ->
     cp_det_retry_at (rphy m) (hw_after_primary (rphy m) (hw m) k) j = false) ->
  rockchip_chg_get_type b m
  = Some (POWER_SUPPLY_TYPE_USB,
          Machine
            (hw_cleanup (rphy m)
               (hw_enable_primary_det (rphy m) false
                  (hw_retry (rphy m) (hw_after_primary (rphy m) (hw m) k) 2)))
            (phy_after b m (CHG_DCD_MAX_RETRIES - Z.of_nat k) 255)
            (trace m ++ ev_until_primary b m k
               ++ ev_retries (rphy m) (hw_after_primary (rphy m) (hw m) k) 2
               ++ ev_enable_primary_det (rphy m) false
               ++ ev_cleanup (rphy m))).
Proof.
  intros Hcfg Hvbus Hstop Hk Hcp Hidle.
  rewrite (rockchip_chg_get_type_dcd b m k Hcfg Hvbus Hstop).
  unfold chg_from_primary. rewrite bind_assoc.
  erewrite bind_Some;
    [|apply (chg_primary_stage_retry_miss 2);
      [cbn; unfold CHG_DCD_MAX_RETRIES; lia | exact Hcp | reflexivity | lia
      | exact Hidle]].
  cbv beta iota. rewrite run_ret.
  erewrite bind_Some; [|apply chg_cleanup_run].
  finish_run m.
Qed.

(** The always-SDP build, VBUS present. *)
Lemma run_rk3036 (b : build_config) (m : machine W) :
  CONFIG_ROCKCHIP_RK3036 b = true ->
  vbus_present b m = true ->
  rockchip_chg_get_type b m
  = Some (POWER_SUPPLY_TYPE_USB,
          Machine (hw_cleanup (rphy m) (hw m))
            (with_vbus_det_gpio (gpio_valid b (hw m)) (rphy m))
            (trace m ++ [ev_check_vbus b m] ++ ev_cleanup (rphy m))).
Proof.
  intros Hcfg Hvbus.
  unfold rockchip_chg_get_type.
  rewrite <- (bind_assoc (chg_setup_vbus_gpio b) (fun _ => chg_check_vbus)).
  rewrite (bind_Some _ _ _ _ _ (chg_check_vbus_run b m)).
  rewrite Hvbus, Hcfg. cbn [negb]. cbv beta iota. rewrite run_ret.
  erewrite bind_Some; [|apply chg_cleanup_run].
  finish_run m.
Qed.

(** VBUS absent. *)
Lemma run_unknown (b : build_config) (m : machine W) :
  vbus_present b m = false ->
  rockchip_chg_get_type b m
  = Some (POWER_SUPPLY_TYPE_UNKNOWN,
          Machine (hw m)
            (with_vbus_det_gpio (gpio_valid b (hw m)) (rphy m))
            (trace m ++ [ev_check_vbus b m])).
Proof.
  intros Hvbus.
  unfold rockchip_chg_get_type.
  rewrite <- (bind_assoc (chg_setup_vbus_gpio b) (fun _ => chg_check_vbus)).
  rewrite (bind_Some _ _ _ _ _ (chg_check_vbus_run b m)).
  rewrite Hvbus. reflexivity.
Qed.

End Complete.

(** ** Properties of the detection *)

(** Splits a conjunction of closed facts and evaluates each. *)
Ltac eval_conj :=
  repeat match goal with
         | |- _ /\ _ => split
         end;
  vm_compute; reflexivity.

Ltac small_nat j :=
  do 8 (destruct j as [|j]; [first [lia | vm_compute; reflexivity]|]); lia.

Section Detection.
Context {W : Type} {HW : Hardware W}.

(** C2: the DCD stage polls at most six times, each poll a 100 ms sleep
    followed by one read of [dp_det]; it stops at the first poll [k] that
    reads [dp_det] asserted, or at the sixth; the counter is decremented
    once per poll, the stopping one included, so it ends at [6 - k]; on
    stopping the DCD bundle is written disabled and the primary-detect
    bundle enabled. *)
Theorem dcd_stage_polls (m : machine W) :
  exists k : nat,
    dcd_stops_at (rphy m) (hw_enable_dcd (rphy m) true (hw m)) k
    /\ chg_dcd_stage m
       = Some (tt,
               Machine
                 (hw_dcd_done (rphy m) (hw_enable_dcd (rphy m) true (hw m)) k)
                 (with_dcd_retries (CHG_DCD_MAX_RETRIES - Z.of_nat k)
                    (with_primary_retries CHG_PRI_MAX_RETRIES (rphy m)))
                 (trace m ++ ev_enable_dcd (rphy m) true
                    ++ ev_dcd_polls (rphy m)
                         (hw_enable_dcd (rphy m) true (hw m)) k
                    ++ ev_enable_dcd (rphy m) false
                    ++ ev_enable_primary_det (rphy m) true)).
Proof.
  destruct (dcd_stop_exists (rphy m) (hw_enable_dcd (rphy m) true (hw m)))
    as (k & Hk & Hidle & Hstop).
  exists k. split; [split; [exact Hk|split; assumption]|].
  apply chg_dcd_stage_run; assumption.
Qed.

(** C3: when the first primary-detect read of [cp_det], taken after the
    40 ms sleep, is false and the DCD counter is zero, the primary stage
    classifies FLOATING right after switching the primary bundle off: no
    retry, no secondary detection; and a call in which none of the six DCD
    polls reads [dp_det] and that read of [cp_det] is false returns
    FLOATING, the cleanup writes following the primary pass directly. *)
Theorem floating_on_dcd_timeout :
  (forall m : machine W,
      dcd_retries (rphy m) = 0 ->
      cp_det_at (rphy m) (hw m) = false ->
      chg_primary_stage m
      = Some (Some POWER_SUPPLY_TYPE_USB_FLOATING,
              Machine (hw_enable_primary_det (rphy m) false
                         (hw_primary_sample (hw m)))
                (rphy m)
                (trace m ++ ev_primary_sample (rphy m) (hw m)
                   ++ ev_enable_primary_det (rphy m) false)))
  /\ (forall (b : build_config) (m : machine W),
         CONFIG_ROCKCHIP_RK3036 b = false ->
         vbus_present b m = true ->
         (forall j, (1 <= j <= 6)%nat ->
            dp_det_at (rphy m) (hw_dcd_start (rphy m) (hw m)) j = false) ->
         cp_det_at (rphy m) (hw_primary_first (rphy m) (hw m) 6) = false ->
         rockchip_chg_get_type b m
         = Some (POWER_SUPPLY_TYPE_USB_FLOATING,
                 Machine
                   (hw_cleanup (rphy m) (hw_after_primary (rphy m) (hw m) 6))
                   (phy_after b m 0 CHG_PRI_MAX_RETRIES)
                   (trace m ++ ev_until_primary b m 6 ++ ev_cleanup (rphy m)))).
Proof.
  split.
  - intros m Hdcd Hcp. apply chg_primary_stage_floating; assumption.
  - intros b m Hcfg Hvbus Hidle Hcp.
    apply run_floating; try assumption.
    intros j Hj. apply Hidle. lia.
Qed.

(** C10: when [dp_det] is first read asserted on the sixth poll, the one
    that brings the counter to zero, and the following read of [cp_det] is
    false, the call returns FLOATING without any primary-detect retry,
    although data contact was seen. *)
Theorem floating_when_contact_on_last_poll (b : build_config) (m : machine W) :
  CONFIG_ROCKCHIP_RK3036 b = false ->
  vbus_present b m = true ->
  (forall j, (1 <= j <= 5)%nat ->
     dp_det_at (rphy m) (hw_dcd_start (rphy m) (hw m)) j = false) ->
  dp_det_at (rphy m) (hw_dcd_start (rphy m) (hw m)) 6 = true ->
  cp_det_at (rphy m) (hw_primary_first (rphy m) (hw m) 6) = false ->
  rockchip_chg_get_type b m
  = Some (POWER_SUPPLY_TYPE_USB_FLOATING,
          Machine (hw_cleanup (rphy m) (hw_after_primary (rphy m) (hw m) 6))
            (phy_after b m 0 CHG_PRI_MAX_RETRIES)
            (trace m ++ ev_until_primary b m 6 ++ ev_cleanup (rphy m))).
Proof.
  intros Hcfg Hvbus Hidle _ Hcp.
  apply run_floating; try assumption.
  intros j Hj. apply Hidle. lia.
Qed.

(** C7: when the VBUS gpio is valid and reads low, or when it is not valid
    and [utmi_bvalid] of the OTG port is not asserted, the call returns
    UNKNOWN at once: the hardware is as before, the one access made is the
    gpio or register read of the check (no write, no sleep), and both
    retry counters are as before. *)
Theorem no_vbus_returns_unknown (b : build_config) (m : machine W) :
  (gpio_valid b (hw m) = true /\ hw_gpio_value (hw m) = false)
  \/ (gpio_valid b (hw m) = false
      /\ hw_property_enabled (get_reg_base (rphy m))
           (utmi_bvalid (otg (rphy m))) (hw m) = false) ->
  exists m' : machine W,
    rockchip_chg_get_type b m = Some (POWER_SUPPLY_TYPE_UNKNOWN, m')
    /\ hw m' = hw m
    /\ trace m' = trace m ++ [ev_check_vbus b m]
    /\ is_write (ev_check_vbus b m) = false
    /\ delay_of (ev_check_vbus b m) = 0
    /\ dcd_retries (rphy m') = dcd_retries (rphy m)
    /\ primary_retries (rphy m') = primary_retries (rphy m).
Proof.
  intros Habsent.
  assert (Hvbus : vbus_present b m = false).
  { unfold vbus_present.
    destruct Habsent as [[-> Hlow]|[-> Hbvalid]]; assumption. }
  eexists. split; [apply run_unknown; exact Hvbus|].
  cbn [hw rphy trace].
  repeat split.
  - unfold ev_check_vbus. destruct (gpio_valid b (hw m)); reflexivity.
  - unfold ev_check_vbus. destruct (gpio_valid b (hw m)); reflexivity.
Qed.

(** C9, as amended: on the always-SDP build, once VBUS is present, the
    call classifies SDP before stage 1: no suspend or opmode-disable
    write, no sleep, no counter reset; but it leaves through the common
    exit, so the two cleanup writes (opmode enabled, suspend cleared) are
    performed, and they are its only writes. *)
Theorem rk3036_shortcut_runs_cleanup (b : build_config) (m : machine W) :
  CONFIG_ROCKCHIP_RK3036 b = true ->
  vbus_present b m = true ->
  exists m' : machine W,
    rockchip_chg_get_type b m = Some (POWER_SUPPLY_TYPE_USB, m')
    /\ hw m' = hw_cleanup (rphy m) (hw m)
    /\ trace m' = trace m ++ [ev_check_vbus b m] ++ ev_cleanup (rphy m)
    /\ filter is_write ([ev_check_vbus b m] ++ ev_cleanup (rphy m))
       = ev_cleanup (rphy m)
    /\ total_delay ([ev_check_vbus b m] ++ ev_cleanup (rphy m)) = 0
    /\ dcd_retries (rphy m') = dcd_retries (rphy m)
    /\ primary_retries (rphy m') = primary_retries (rphy m).
Proof.
  intros Hcfg Hvbus.
  eexists. split; [apply run_rk3036; assumption|].
  cbn [hw rphy trace].
  repeat split.
  - unfold ev_check_vbus. destruct (gpio_valid b (hw m)); reflexivity.
  - unfold ev_check_vbus. destruct (gpio_valid b (hw m)); reflexivity.
Qed.

(** C4, as amended: when the DCD stage found contact with budget left
    (it stopped at a poll [k] before the sixth) and the first read of
    [cp_det] is false, primary detection is retried at most twice; a retry
    enables the primary bundle, sleeps 40 ms and reads [cp_det], and the
    bundle is written disabled once, when the retries are over, not after
    each of them.  If both retries read false the call returns SDP, having
    read [cp_det] 1 + 2 = 3 times, the retry counter wrapping to 255; if
    retry [a] is the first to read true, the retries stop there and
    secondary detection decides. *)
Theorem primary_retries_then_sdp (b : build_config) (m : machine W) (k : nat) :
  CONFIG_ROCKCHIP_RK3036 b = false ->
  vbus_present b m = true ->
  dcd_stops_at (rphy m) (hw_dcd_start (rphy m) (hw m)) k -> (k < 6)%nat ->
  cp_det_at (rphy m) (hw_primary_first (rphy m) (hw m) k) = false ->
  ((forall j, (1 <= j <= 2)%nat ->
      cp_det_retry_at (rphy m) (hw_after_primary (rphy m) (hw m) k) j = false) ->
   rockchip_chg_get_type b m
   = Some (POWER_SUPPLY_TYPE_USB,
           Machine
             (hw_cleanup (rphy m)
                (hw_enable_primary_det (rphy m) false
                   (hw_retry (rphy m) (hw_after_primary (rphy m) (hw m) k) 2)))
             (phy_after b m (CHG_DCD_MAX_RETRIES - Z.of_nat k) 255)
             (trace m ++ ev_until_primary b m k
                ++ ev_retries (rphy m) (hw_after_primary (rphy m) (hw m) k) 2
                ++ ev_enable_primary_det (rphy m) false
                ++ ev_cleanup (rphy m))))
  /\ (forall a : nat,
         (1 <= a <= 2)%nat ->
         (forall j, (1 <= j < a)%nat ->
            cp_det_retry_at (rphy m) (hw_after_primary (rphy m) (hw m) k) j
            = false) ->
         cp_det_retry_at (rphy m) (hw_after_primary (rphy m) (hw m) k) a
         = true ->
         rockchip_chg_get_type b m
         = Some (secondary_type (rphy m)
                   (hw_enable_primary_det (rphy m) false
                      (hw_retry (rphy m)
                         (hw_after_primary (rphy m) (hw m) k) a)),
                 Machine
                   (hw_cleanup (rphy m)
                      (hw_after_secondary (rphy m)
                         (hw_enable_primary_det (rphy m) false
                            (hw_retry (rphy m)
                               (hw_after_primary (rphy m) (hw m) k) a))))
                   (phy_after b m (CHG_DCD_MAX_RETRIES - Z.of_nat k)
                      (CHG_PRI_MAX_RETRIES - Z.of_nat a))
                   (trace m ++ ev_until_primary b m k
                      ++ ev_retries (rphy m)
                           (hw_after_primary (rphy m) (hw m) k) a
                      ++ ev_enable_primary_det (rphy m) false
                      ++ ev_secondary (rphy m)
                           (hw_enable_primary_det (rphy m) false
                              (hw_retry (rphy m)
                                 (hw_after_primary (rphy m) (hw m) k) a))
                      ++ ev_cleanup (rphy m)))).
Proof.
  intros Hcfg Hvbus Hstop Hk Hcp. split.
  - intros Hidle. apply run_sdp; assumption.
  - intros a Ha Hidle Hhit. apply run_retry_hit; assumption.
Qed.

Lemma total_delay_app (tr1 tr2 : list event) :
  total_delay (tr1 ++ tr2) = total_delay tr1 + total_delay tr2.
Proof.
  induction tr1 as [|e tr1 IH]; [reflexivity|].
  change (total_delay ((e :: tr1) ++ tr2))
    with (delay_of e + total_delay (tr1 ++ tr2)).
  change (total_delay (e :: tr1)) with (delay_of e + total_delay tr1).
  rewrite IH. lia.
Qed.

Lemma total_delay_dcd_polls (p : rockchip_usb2phy) (w : W) (k : nat) :
  total_delay (ev_dcd_polls p w k) = CHG_DCD_POLL_TIME * Z.of_nat k.
Proof.
  revert w. induction k as [|k IH]; intros w; [reflexivity|].
  rewrite ev_dcd_polls_shift, total_delay_app, IH.
  unfold CHG_DCD_POLL_TIME. cbn [total_delay fold_right delay_of
    ev_property_enabled]. lia.
Qed.

Lemma total_delay_check_vbus (b : build_config) (m : machine W) :
  total_delay [ev_check_vbus b m] = 0.
Proof. unfold ev_check_vbus. destruct (gpio_valid b (hw m)); reflexivity. Qed.

Lemma total_delay_writes (p : rockchip_usb2phy) (en : bool) :
  total_delay (ev_suspend p) = 0
  /\ total_delay (ev_cleanup p) = 0
  /\ total_delay (ev_enable_dcd p en) = 0
  /\ total_delay (ev_enable_primary_det p en) = 0
  /\ total_delay (ev_enable_secondary_det p en) = 0.
Proof. repeat split. Qed.

Lemma total_delay_primary_sample (p : rockchip_usb2phy) (w : W) :
  total_delay (ev_primary_sample p w) = CHG_PRIMARY_DET_TIME.
Proof. reflexivity. Qed.

Lemma total_delay_secondary_sample (p : rockchip_usb2phy) (w : W) :
  total_delay (ev_secondary_sample p w) = CHG_SECONDARY_DET_TIME.
Proof. reflexivity. Qed.

Lemma total_delay_secondary (p : rockchip_usb2phy) (w : W) :
  total_delay (ev_secondary p w) = CHG_SECONDARY_DET_TIME.
Proof.
  unfold ev_secondary. rewrite !total_delay_app.
  rewrite total_delay_secondary_sample.
  destruct (total_delay_writes p true) as (_ & _ & _ & _ & ->).
  destruct (total_delay_writes p false) as (_ & _ & _ & _ & ->).
  lia.
Qed.

Lemma total_delay_until_primary (b : build_config) (m : machine W) (k : nat) :
  total_delay (ev_until_primary b m k)
  = CHG_DCD_POLL_TIME * Z.of_nat k + CHG_PRIMARY_DET_TIME.
Proof.
  unfold ev_until_primary.
  rewrite !total_delay_app, total_delay_check_vbus, total_delay_dcd_polls.
  rewrite total_delay_primary_sample.
  destruct (total_delay_writes (rphy m) true) as (-> & _ & -> & -> & _).
  destruct (total_delay_writes (rphy m) false) as (_ & _ & -> & -> & _).
  lia.
Qed.

(** C8, as amended: when none of the six DCD polls reads [dp_det], the
    sleeps of the call add up to 6 x 100 + 40 = 640 ms if the following
    read of [cp_det] is false (FLOATING), and to 680 ms if it is true,
    secondary detection then sleeping another 40 ms (DCP or CDP). *)
Theorem dcd_exhaustion_delay (b : build_config) (m : machine W) :
  CONFIG_ROCKCHIP_RK3036 b = false ->
  vbus_present b m = true ->
  (forall j, (1 <= j <= 6)%nat ->
     dp_det_at (rphy m) (hw_dcd_start (rphy m) (hw m)) j = false) ->
  exists (m' : machine W) (evs : list event),
    rockchip_chg_get_type b m
    = Some (if cp_det_at (rphy m) (hw_primary_first (rphy m) (hw m) 6)
            then secondary_type (rphy m) (hw_after_primary (rphy m) (hw m) 6)
            else POWER_SUPPLY_TYPE_USB_FLOATING, m')
    /\ trace m' = trace m ++ evs
    /\ total_delay evs
       = if cp_det_at (rphy m) (hw_primary_first (rphy m) (hw m) 6)
         then 680 else 640.
Proof.
  intros Hcfg Hvbus Hidle.
  destruct (cp_det_at (rphy m) (hw_primary_first (rphy m) (hw m) 6)) eqn:Hcp.
  - eexists _, _. split; [|split].
    + apply (run_secondary b m 6); try assumption.
      split; [lia|]. split; [|right; reflexivity].
      intros j Hj. apply Hidle. lia.
    + cbn [trace]. reflexivity.
    + rewrite !total_delay_app, total_delay_until_primary,
        total_delay_secondary.
      destruct (total_delay_writes (rphy m) true) as (_ & -> & _).
      unfold CHG_DCD_POLL_TIME, CHG_PRIMARY_DET_TIME, CHG_SECONDARY_DET_TIME.
      lia.
  - eexists _, _. split; [|split].
    + apply run_floating; try assumption. intros j Hj. apply Hidle. lia.
    + cbn [trace]. reflexivity.
    + rewrite !total_delay_app, total_delay_until_primary.
      destruct (total_delay_writes (rphy m) true) as (_ & -> & _).
      unfold CHG_DCD_POLL_TIME, CHG_PRIMARY_DET_TIME. lia.
Qed.

(** What the two fields read once the cleanup writes are done. *)
Lemma cleanup_reads_suspend (p : rockchip_usb2phy) (w : W) :
  honours_wmask (get_reg_base p) (offset (phy_sus (otg p))) ->
  low_half (phy_sus (otg p)) ->
  fits (phy_sus (otg p)) (disable (phy_sus (otg p))) ->
  enable (phy_sus (otg p)) <> disable (phy_sus (otg p)) ->
  hw_property_enabled (get_reg_base p) (phy_sus (otg p)) (hw_cleanup p w)
  = false.
Proof.
  intros Hhon Hlow Hfit Hne.
  unfold hw_cleanup, hw_property_enabled, property_test.
  rewrite (read_after_write _ _ false) by assumption.
  apply Z.eqb_neq. congruence.
Qed.

Lemma cleanup_reads_opmode (p : rockchip_usb2phy) (w : W) :
  honours_wmask (get_reg_base p) (offset (phy_sus (otg p))) ->
  honours_wmask (get_reg_base p) (offset (opmode (chg p))) ->
  unaffected_by_others (get_reg_base p) (offset (opmode (chg p))) ->
  low_half (phy_sus (otg p)) -> low_half (opmode (chg p)) ->
  fits (phy_sus (otg p)) (disable (phy_sus (otg p))) ->
  fits (opmode (chg p)) (enable (opmode (chg p))) ->
  disjoint_fields (phy_sus (otg p)) (opmode (chg p)) ->
  hw_property_enabled (get_reg_base p) (opmode (chg p)) (hw_cleanup p w)
  = true.
Proof.
  intros Hsus Hop Hothers Hlsus Hlop Hfsus Hfop Hdis.
  unfold hw_cleanup, hw_property_enabled, property_test.
  apply Z.eqb_eq.
  destruct (Z.eq_dec (offset (phy_sus (otg p))) (offset (opmode (chg p))))
    as [Heq|Hne].
  - unfold hw_property_enable at 1. rewrite <- Heq at 1. rewrite Hsus.
    rewrite property_field_wmask_write_other; try assumption.
    + rewrite Heq. apply (read_after_write _ _ true); assumption.
    + destruct Hdis as [Hoff|Hbits]; [contradiction|exact Hbits].
  - unfold hw_property_enable at 1. rewrite Hothers by congruence.
    apply (read_after_write _ _ true); assumption.
Qed.

(** C1, as amended: every call that passes the VBUS check, the always-SDP
    shortcut included, ends with the two cleanup writes, opmode enabled
    then OTG suspend cleared, as its last accesses.  On a register that
    honours the write-enable convention the suspend field then reads false
    (its range in the lower half-word, encodings distinct, the disable one
    fitting), and opmode reads enabled when the two descriptors share no
    register bit.  The early UNKNOWN returns are not covered: they write
    nothing. *)
Theorem cleanup_after_detection (b : build_config) (m : machine W) :
  vbus_present b m = true ->
  exists (chg_type : power_supply_type) (m' : machine W),
    rockchip_chg_get_type b m = Some (chg_type, m')
    /\ (exists w', hw m' = hw_cleanup (rphy m) w')
    /\ (exists evs, trace m' = trace m ++ evs ++ ev_cleanup (rphy m))
    /\ (honours_wmask (get_reg_base (rphy m))
          (offset (phy_sus (otg (rphy m)))) ->
        low_half (phy_sus (otg (rphy m))) ->
        fits (phy_sus (otg (rphy m))) (disable (phy_sus (otg (rphy m)))) ->
        enable (phy_sus (otg (rphy m))) <> disable (phy_sus (otg (rphy m))) ->
        hw_property_enabled (get_reg_base (rphy m)) (phy_sus (otg (rphy m)))
          (hw m') = false)
    /\ (honours_wmask (get_reg_base (rphy m))
          (offset (phy_sus (otg (rphy m)))) ->
        honours_wmask (get_reg_base (rphy m))
          (offset (opmode (chg (rphy m)))) ->
        unaffected_by_others (get_reg_base (rphy m))
          (offset (opmode (chg (rphy m)))) ->
        low_half (phy_sus (otg (rphy m))) ->
        low_half (opmode (chg (rphy m))) ->
        fits (phy_sus (otg (rphy m))) (disable (phy_sus (otg (rphy m)))) ->
        fits (opmode (chg (rphy m))) (enable (opmode (chg (rphy m)))) ->
        disjoint_fields (phy_sus (otg (rphy m))) (opmode (chg (rphy m))) ->
        hw_property_enabled (get_reg_base (rphy m)) (opmode (chg (rphy m)))
          (hw m') = true).
Proof.
  intros Hvbus.
  assert (Hrun : exists chg_type w' p' evs,
             rockchip_chg_get_type b m
             = Some (chg_type,
                     Machine (hw_cleanup (rphy m) w') p'
                       (trace m ++ evs ++ ev_cleanup (rphy m)))).
  { destruct (CONFIG_ROCKCHIP_RK3036 b) eqn:Hcfg.
    { eexists _, _, _, _. apply run_rk3036; assumption. }
    destruct (dcd_stop_exists (rphy m) (hw_dcd_start (rphy m) (hw m)))
      as (k & Hk & Hidle & Hstop).
    assert (Hat : dcd_stops_at (rphy m) (hw_dcd_start (rphy m) (hw m)) k)
      by (split; [exact Hk|split; assumption]).
    destruct (cp_det_at (rphy m) (hw_primary_first (rphy m) (hw m) k))
      eqn:Hcp.
    { eexists _, _, _, _. rewrite (run_secondary b m k) by assumption.
      rewrite (app_assoc (ev_until_primary b m k)). reflexivity. }
    destruct (Nat.eq_dec k 6%nat) as [->|Hk6].
    { eexists _, _, _, _. apply run_floating; assumption. }
    destruct (cp_det_retry_at (rphy m) (hw_after_primary (rphy m) (hw m) k) 1)
      eqn:Hr1.
    { eexists _, _, _, _.
      rewrite (run_retry_hit b m k 1) by (try assumption; lia).
      rewrite !(app_assoc _ _ (ev_cleanup (rphy m))). reflexivity. }
    destruct (cp_det_retry_at (rphy m) (hw_after_primary (rphy m) (hw m) k) 2)
      eqn:Hr2.
    { eexists _, _, _, _.
      rewrite (run_retry_hit b m k 2); try assumption; try lia.
      - rewrite !(app_assoc _ _ (ev_cleanup (rphy m))). reflexivity.
      - intros j Hj. assert (j = 1%nat) as -> by lia. exact Hr1. }
    eexists _, _, _, _.
    rewrite (run_sdp b m k); try assumption; try lia.
    - rewrite !(app_assoc _ _ (ev_cleanup (rphy m))). reflexivity.
    - intros j Hj. assert (j = 1%nat \/ j = 2%nat) as [-> | ->] by lia;
        assumption. }
  destruct Hrun as (chg_type & w' & p' & evs & Hrun).
  exists chg_type. eexists. split; [exact Hrun|]. cbn [hw trace].
  split; [exists w'; reflexivity|].
  split; [exists evs; reflexivity|].
  split.
  - apply cleanup_reads_suspend.
  - apply cleanup_reads_opmode.
Qed.

End Detection.

(** ** Witnesses and counterexamples on the simulated register space *)

(** Witness of C3, rk1808 table: the primary stage entered with the DCD
    counter at zero and no charger voltage, and a whole call with VBUS
    present and neither contact nor charger voltage. *)
Lemma floating_on_dcd_timeout_witness :
  (exists m',
      @chg_primary_stage sim (sim_hw rk1808_idle)
        (sim_machine rk1808_phy_cfg sim_reset)
      = Some (Some POWER_SUPPLY_TYPE_USB_FLOATING, m')
      /\ trace m'
         = [EvDelay 40; EvRead GRF 0x120 0x200;
            EvWrite GRF 0x108 0x08000000; EvWrite GRF 0x108 0x01000000])
  /\ (exists m',
         @rockchip_chg_get_type sim (sim_hw rk1808_idle) default_build
           (sim_machine rk1808_phy_cfg sim_reset)
         = Some (POWER_SUPPLY_TYPE_USB_FLOATING, m')
         /\ length (trace m') = 27%nat
         /\ total_delay (trace m') = 640).
Proof.
  split.
  - eexists. split.
    + apply (proj1 (@floating_on_dcd_timeout sim (sim_hw rk1808_idle))).
      * reflexivity.
      * vm_compute. reflexivity.
    + vm_compute. reflexivity.
  - eexists. split.
    + apply (proj2 (@floating_on_dcd_timeout sim (sim_hw rk1808_idle))).
      * reflexivity.
      * vm_compute. reflexivity.
      * intros j Hj. small_nat j.
      * vm_compute. reflexivity.
    + split; vm_compute; reflexivity.
Defined.

(** Witness of C10, rk1808 table: [dp_det] rises at the time of the sixth
    poll, [cp_det] stays low. *)
Lemma floating_when_contact_on_last_poll_witness :
  exists m',
    @rockchip_chg_get_type sim (sim_hw (rk1808_contact_at 6)) default_build
      (sim_machine rk1808_phy_cfg sim_reset)
    = Some (POWER_SUPPLY_TYPE_USB_FLOATING, m')
    /\ dcd_retries (rphy m') = 0
    /\ primary_retries (rphy m') = 2
    /\ trace m'
       = [EvRead GRF 0x120 0x200;
          EvWrite GRF 0x100 0x01ff01d1; EvWrite GRF 0x100 0x000f0005;
          EvWrite GRF 0x108 0x04000400; EvWrite GRF 0x108 0x02000200;
          EvDelay 100; EvRead GRF 0x120 0x200;
          EvDelay 100; EvRead GRF 0x120 0x200;
          EvDelay 100; EvRead GRF 0x120 0x200;
          EvDelay 100; EvRead GRF 0x120 0x200;
          EvDelay 100; EvRead GRF 0x120 0x200;
          EvDelay 100; EvRead GRF 0x120 0x2000200;
          EvWrite GRF 0x108 0x04000000; EvWrite GRF 0x108 0x02000000;
          EvWrite GRF 0x108 0x08000800; EvWrite GRF 0x108 0x01000100;
          EvDelay 40; EvRead GRF 0x120 0x2000200;
          EvWrite GRF 0x108 0x08000000; EvWrite GRF 0x108 0x01000000;
          EvWrite GRF 0x100 0x000f0001; EvWrite GRF 0x100 0x01ff0000].
Proof.
  eexists. split.
  - apply (@floating_when_contact_on_last_poll sim
             (sim_hw (rk1808_contact_at 6)) default_build
             (sim_machine rk1808_phy_cfg sim_reset)).
    + reflexivity.
    + vm_compute. reflexivity.
    + intros j Hj. small_nat j.
    + vm_compute. reflexivity.
    + vm_compute. reflexivity.
  - eval_conj.
Defined.

(** Witness of C7: no gpio and [utmi_bvalid] low on the rk1808 table; and
    a bound gpio reading low on an RK3506 build. *)
Lemma no_vbus_returns_unknown_witness :
  (exists m',
      @rockchip_chg_get_type sim (sim_hw rk1808_unplugged) default_build
        (sim_machine rk1808_phy_cfg sim_reset)
      = Some (POWER_SUPPLY_TYPE_UNKNOWN, m')
      /\ hw m' = sim_reset
      /\ trace m' = [EvRead GRF 0x120 0])
  /\ (exists m',
         @rockchip_chg_get_type sim (sim_hw no_status) rk3506_build
           (sim_machine rk3506_phy_cfg (Sim ∅ ∅ 0 (Some false)))
         = Some (POWER_SUPPLY_TYPE_UNKNOWN, m')
         /\ hw m' = Sim ∅ ∅ 0 (Some false)
         /\ trace m' = [EvGpio false]).
Proof.
  split.
  - destruct (@no_vbus_returns_unknown sim (sim_hw rk1808_unplugged)
                default_build (sim_machine rk1808_phy_cfg sim_reset))
      as (m' & Hrun & Hhw & Htrace & _).
    + right. split; vm_compute; reflexivity.
    + exists m'. split; [exact Hrun|]. split; [exact Hhw|]. exact Htrace.
  - destruct (@no_vbus_returns_unknown sim (sim_hw no_status)
                rk3506_build
                (sim_machine rk3506_phy_cfg (Sim ∅ ∅ 0 (Some false))))
      as (m' & Hrun & Hhw & Htrace & _).
    + left. split; vm_compute; reflexivity.
    + exists m'. split; [exact Hrun|]. split; [exact Hhw|]. exact Htrace.
Defined.

(** Witness of C9: the rk3036 table on an RK3036 build, VBUS present. *)
Lemma rk3036_shortcut_runs_cleanup_witness :
  exists m',
    @rockchip_chg_get_type sim (sim_hw rk3036_plugged) rk3036_build
      (sim_machine rk3036_phy_cfg sim_reset)
    = Some (POWER_SUPPLY_TYPE_USB, m')
    /\ trace m'
       = [EvRead GRF 0x14c 0x20;
          EvWrite GRF 0 0x00010000; EvWrite GRF 0x17c 0x01ff0000].
Proof.
  destruct (@rk3036_shortcut_runs_cleanup sim (sim_hw rk3036_plugged)
              rk3036_build (sim_machine rk3036_phy_cfg sim_reset))
    as (m' & Hrun & _ & Htrace & _).
  - reflexivity.
  - vm_compute. reflexivity.
  - exists m'. split; [exact Hrun|]. rewrite Htrace. vm_compute. reflexivity.
Defined.

(** Counterexample to C9 as stated: on the always-SDP build the call does
    perform the two cleanup writes. *)
Lemma rk3036_shortcut_counterexample :
  exists m',
    @rockchip_chg_get_type sim (sim_hw rk3036_plugged) rk3036_build
      (sim_machine rk3036_phy_cfg sim_reset)
    = Some (POWER_SUPPLY_TYPE_USB, m')
    /\ filter is_write (trace m')
       = [EvWrite GRF 0 0x00010000; EvWrite GRF 0x17c 0x01ff0000]
    /\ filter is_write (trace m') = ev_cleanup (phy_of rk3036_phy_cfg).
Proof. eexists. eval_conj. Qed.

(** Witness of C4, rk1808 table: contact on the third poll, [cp_det] never
    asserted; three reads of [cp_det], the bundle written disabled twice. *)
Lemma primary_retries_then_sdp_witness :
  exists m',
    @rockchip_chg_get_type sim (sim_hw (rk1808_contact_at 3)) default_build
      (sim_machine rk1808_phy_cfg sim_reset)
    = Some (POWER_SUPPLY_TYPE_USB, m')
    /\ dcd_retries (rphy m') = 3
    /\ primary_retries (rphy m') = 255
    /\ trace m'
       = [EvRead GRF 0x120 0x200;
          EvWrite GRF 0x100 0x01ff01d1; EvWrite GRF 0x100 0x000f0005;
          EvWrite GRF 0x108 0x04000400; EvWrite GRF 0x108 0x02000200;
          EvDelay 100; EvRead GRF 0x120 0x200;
          EvDelay 100; EvRead GRF 0x120 0x200;
          EvDelay 100; EvRead GRF 0x120 0x2000200;
          EvWrite GRF 0x108 0x04000000; EvWrite GRF 0x108 0x02000000;
          EvWrite GRF 0x108 0x08000800; EvWrite GRF 0x108 0x01000100;
          EvDelay 40; EvRead GRF 0x120 0x2000200;
          EvWrite GRF 0x108 0x08000000; EvWrite GRF 0x108 0x01000000;
          EvWrite GRF 0x108 0x08000800; EvWrite GRF 0x108 0x01000100;
          EvDelay 40; EvRead GRF 0x120 0x2000200;
          EvWrite GRF 0x108 0x08000800; EvWrite GRF 0x108 0x01000100;
          EvDelay 40; EvRead GRF 0x120 0x2000200;
          EvWrite GRF 0x108 0x08000000; EvWrite GRF 0x108 0x01000000;
          EvWrite GRF 0x100 0x000f0001; EvWrite GRF 0x100 0x01ff0000].
Proof.
  eexists. split.
  - refine (proj1 (@primary_retries_then_sdp sim
                     (sim_hw (rk1808_contact_at 3)) default_build
                     (sim_machine rk1808_phy_cfg sim_reset) 3%nat
                     _ _ _ _ _) _).
    + reflexivity.
    + vm_compute. reflexivity.
    + split; [lia|]. split.
      * intros j Hj. small_nat j.
      * left. vm_compute. reflexivity.
    + lia.
    + vm_compute. reflexivity.
    + intros j Hj. small_nat j.
  - eval_conj.
Defined.

(** Counterexample to C4 as stated: two failed retries on the rk1808
    table.  The code leaves the bundle enabled between the retries and
    disables it once at the end, so its trace is not two attempts of the
    shape enable, sleep, read, disable. *)
Lemma primary_retry_counterexample :
  exists m',
    @rockchip_chg_primary_det_retry sim (sim_hw (rk1808_contact_at 3))
      (Machine sim_reset
         (with_primary_retries 2 (with_dcd_retries 3 (phy_of rk1808_phy_cfg)))
         [])
    = Some (false, m')
    /\ trace m'
       = [EvWrite GRF 0x108 0x08000800; EvWrite GRF 0x108 0x01000100;
          EvDelay 40; EvRead GRF 0x120 0x200;
          EvWrite GRF 0x108 0x08000800; EvWrite GRF 0x108 0x01000100;
          EvDelay 40; EvRead GRF 0x120 0x200;
          EvWrite GRF 0x108 0x08000000; EvWrite GRF 0x108 0x01000000]
    /\ @spec_primary_attempt sim (sim_hw (rk1808_contact_at 3))
         (phy_of rk1808_phy_cfg) sim_reset
       = [EvWrite GRF 0x108 0x08000800; EvWrite GRF 0x108 0x01000100;
          EvDelay 40; EvRead GRF 0x120 0x200;
          EvWrite GRF 0x108 0x08000000; EvWrite GRF 0x108 0x01000000]
    /\ trace m'
       <> @spec_primary_attempt sim (sim_hw (rk1808_contact_at 3))
            (phy_of rk1808_phy_cfg) sim_reset
          ++ @spec_primary_attempt sim (sim_hw (rk1808_contact_at 3))
               (phy_of rk1808_phy_cfg) (hw m').
Proof.
  eexists. split; [vm_compute; reflexivity|].
  split; [vm_compute; reflexivity|].
  split; [vm_compute; reflexivity|].
  vm_compute. discriminate.
Qed.

(** Witness of C8, rk1808 table: no contact and no charger voltage. *)
Lemma dcd_exhaustion_delay_witness :
  exists m' evs,
    @rockchip_chg_get_type sim (sim_hw rk1808_idle) default_build
      (sim_machine rk1808_phy_cfg sim_reset)
    = Some (POWER_SUPPLY_TYPE_USB_FLOATING, m')
    /\ trace m' = evs
    /\ total_delay evs = 640.
Proof.
  destruct (@dcd_exhaustion_delay sim (sim_hw rk1808_idle) default_build
              (sim_machine rk1808_phy_cfg sim_reset))
    as (m' & evs & Hrun & Htrace & Hdelay).
  - reflexivity.
  - vm_compute. reflexivity.
  - intros j Hj. small_nat j.
  - match type of Hdelay with
    | context [if ?c then _ else _] =>
        assert (Hcp : c = false) by (vm_compute; reflexivity);
        rewrite Hcp in Hrun, Hdelay
    end.
    exists m', evs. split; [exact Hrun|]. split; [|exact Hdelay].
    rewrite Htrace. reflexivity.
Defined.

(** Counterexample to C8 as stated: on the rk1808 table with no contact
    on any of the six polls but [cp_det] asserted, the call sleeps 680 ms
    in all and returns CDP. *)
Lemma dcd_exhaustion_delay_counterexample :
  forallb
    (fun j =>
       negb (@dp_det_at sim (sim_hw rk1808_voltage_only)
               (phy_of rk1808_phy_cfg)
               (@hw_dcd_start sim (sim_hw rk1808_voltage_only)
                  (phy_of rk1808_phy_cfg) sim_reset) j))
    (seq 1 6) = true
  /\ exists m',
      @rockchip_chg_get_type sim (sim_hw rk1808_voltage_only) default_build
        (sim_machine rk1808_phy_cfg sim_reset)
      = Some (POWER_SUPPLY_TYPE_USB_CDP, m')
      /\ dcd_retries (rphy m') = 0
      /\ total_delay (trace m') = 680.
Proof.
  split; [vm_compute; reflexivity|].
  eexists. eval_conj.
Qed.

(** Witness of C1, rk3588 table, whose [phy_sus] and [opmode] descriptors
    lie in different registers. *)
Lemma cleanup_after_detection_witness :
  exists chg_type m',
    @rockchip_chg_get_type sim (sim_hw rk3588_idle) default_build
      (sim_machine rk3588_phy_cfg sim_reset)
    = Some (chg_type, m')
    /\ @hw_property_enabled sim (sim_hw rk3588_idle) GRF
         (phy_sus (port_cfg_otg rk3588_phy_cfg)) (hw m') = false
    /\ @hw_property_enabled sim (sim_hw rk3588_idle) GRF
         (opmode (chg_det rk3588_phy_cfg)) (hw m') = true.
Proof.
  destruct (@cleanup_after_detection sim (sim_hw rk3588_idle) default_build
              (sim_machine rk3588_phy_cfg sim_reset))
    as (chg_type & m' & Hrun & _ & _ & Hsus & Hop).
  - vm_compute. reflexivity.
  - exists chg_type, m'. split; [exact Hrun|]. split.
    + apply Hsus.
      * apply sim_honours_wmask. reflexivity.
      * unfold low_half. cbn. lia.
      * unfold fits. cbn. lia.
      * cbn. lia.
    + apply Hop.
      * apply sim_honours_wmask. reflexivity.
      * apply sim_honours_wmask. reflexivity.
      * apply sim_unaffected_by_others.
      * unfold low_half. cbn. lia.
      * unfold low_half. cbn. lia.
      * unfold fits. cbn. lia.
      * unfold fits. cbn. lia.
      * left. cbn. lia.
Defined.

(** Counterexample to C1 as stated, rk1808 table.  With VBUS absent and
    the PHY suspended, the call returns UNKNOWN without a write and the
    suspend field still reads true.  And after a complete run, here one
    that ends FLOATING, opmode does not read enabled: the suspend
    descriptor (bits 8..0) covers the opmode one (bits 3..0) of the same
    register, and the write that clears suspend zeroes them. *)
Lemma cleanup_after_detection_counterexample :
  (exists m',
      @rockchip_chg_get_type sim (sim_hw rk1808_unplugged) default_build
        (sim_machine rk1808_phy_cfg (Sim {[ 0x100 := 0x1d1 ]} ∅ 0 None))
      = Some (POWER_SUPPLY_TYPE_UNKNOWN, m')
      /\ trace m' = [EvRead GRF 0x120 0]
      /\ @hw_property_enabled sim (sim_hw rk1808_unplugged) GRF
           (phy_sus (port_cfg_otg rk1808_phy_cfg)) (hw m') = true)
  /\ (exists m',
         @rockchip_chg_get_type sim (sim_hw rk1808_idle) default_build
           (sim_machine rk1808_phy_cfg sim_reset)
         = Some (POWER_SUPPLY_TYPE_USB_FLOATING, m')
         /\ @hw_read sim (sim_hw rk1808_idle) (hw m') GRF 0x100 = 0
         /\ @hw_property_enabled sim (sim_hw rk1808_idle) GRF
              (opmode (chg_det rk1808_phy_cfg)) (hw m') = false).
Proof.
  split; eexists; eval_conj.
Qed.

(** * Further properties of the driver *)

(** ** All runs of the detection *)

Section AllRuns.
Context {W : Type} {HW : Hardware W}.

(** Every run that passes the VBUS check on a build without the always-SDP
    shortcut goes one of four ways. *)
Lemma detection_shapes (b : build_config) (m : machine W) :
  CONFIG_ROCKCHIP_RK3036 b = false ->
  vbus_present b m = true ->
  exists (k : nat) (t : power_supply_type) (m' : machine W)
         (rest : list event),
    dcd_stops_at (rphy m) (hw_dcd_start (rphy m) (hw m)) k
    /\ rockchip_chg_get_type b m = Some (t, m')
    /\ trace m'
       = trace m ++ ev_until_primary b m k ++ rest ++ ev_cleanup (rphy m)
    /\ dcd_retries (rphy m') = CHG_DCD_MAX_RETRIES - Z.of_nat k
    /\ phy_cfg (rphy m') = phy_cfg (rphy m)
    /\ detection_rest (rphy m) (hw m) k t rest.
Proof.
  intros Hcfg Hvbus.
  destruct (dcd_stop_exists (rphy m) (hw_dcd_start (rphy m) (hw m)))
    as (k & Hk & Hidle & Hstop).
  assert (Hat : dcd_stops_at (rphy m) (hw_dcd_start (rphy m) (hw m)) k)
    by (split; [exact Hk|split; assumption]).
  exists k.
  destruct (cp_det_at (rphy m) (hw_primary_first (rphy m) (hw m) k)) eqn:Hcp.
  { eexists _, _, (ev_secondary (rphy m) (hw_after_primary (rphy m) (hw m) k)).
    split; [exact Hat|].
    split; [apply (run_secondary b m k); assumption|].
    cbn [trace rphy]. split; [reflexivity|].
    split; [reflexivity|]. split; [reflexivity|].
    left. split; [exact Hcp|]. split; reflexivity. }
  destruct (Nat.eq_dec k 6%nat) as [->|Hk6].
  { eexists _, _, []. split; [exact Hat|].
    split; [apply run_floating; assumption|].
    cbn [trace rphy app]. split; [reflexivity|].
    split; [reflexivity|]. split; [reflexivity|].
    right. left.
    split; [exact Hcp|]. split; [reflexivity|]. split; reflexivity. }
  destruct (cp_det_retry_at (rphy m) (hw_after_primary (rphy m) (hw m) k) 1)
    eqn:Hr1.
  { eexists _, _,
      (ev_retries (rphy m) (hw_after_primary (rphy m) (hw m) k) 1
       ++ ev_enable_primary_det (rphy m) false
       ++ ev_secondary (rphy m)
            (hw_enable_primary_det (rphy m) false
               (hw_retry (rphy m) (hw_after_primary (rphy m) (hw m) k) 1))).
    split; [exact Hat|].
    split; [apply (run_retry_hit b m k 1); try assumption; lia|].
    cbn [trace rphy]. split; [rewrite <- !app_assoc; reflexivity|].
    split; [reflexivity|]. split; [reflexivity|].
    right. right. left.
    split; [exact Hcp|]. split; [lia|].
    exists 1%nat. split; [lia|]. split; [intros j Hj; lia|].
    split; [exact Hr1|]. split; reflexivity. }
  destruct (cp_det_retry_at (rphy m) (hw_after_primary (rphy m) (hw m) k) 2)
    eqn:Hr2.
  { assert (Hidle2 : forall j, (1 <= j < 2)%nat ->
               cp_det_retry_at (rphy m)
                 (hw_after_primary (rphy m) (hw m) k) j = false).
    { intros j Hj. assert (j = 1%nat) as -> by lia. exact Hr1. }
    eexists _, _,
      (ev_retries (rphy m) (hw_after_primary (rphy m) (hw m) k) 2
       ++ ev_enable_primary_det (rphy m) false
       ++ ev_secondary (rphy m)
            (hw_enable_primary_det (rphy m) false
               (hw_retry (rphy m) (hw_after_primary (rphy m) (hw m) k) 2))).
    split; [exact Hat|].
    split; [apply (run_retry_hit b m k 2); try assumption; lia|].
    cbn [trace rphy]. split; [rewrite <- !app_assoc; reflexivity|].
    split; [reflexivity|]. split; [reflexivity|].
    right. right. left.
    split; [exact Hcp|]. split; [lia|].
    exists 2%nat. split; [lia|]. split; [exact Hidle2|].
    split; [exact Hr2|]. split; reflexivity. }
  assert (Hidle2 : forall j, (1 <= j <= 2)%nat ->
             cp_det_retry_at (rphy m)
               (hw_after_primary (rphy m) (hw m) k) j = false).
  { intros j Hj. assert (j = 1%nat \/ j = 2%nat) as [-> | ->] by lia;
      assumption. }
  eexists _, _,
    (ev_retries (rphy m) (hw_after_primary (rphy m) (hw m) k) 2
     ++ ev_enable_primary_det (rphy m) false).
  split; [exact Hat|].
  split; [apply (run_sdp b m k); try assumption; lia|].
  cbn [trace rphy]. split; [rewrite <- !app_assoc; reflexivity|].
  split; [reflexivity|]. split; [reflexivity|].
  right. right. right.
  split; [exact Hcp|]. split; [lia|]. split; [exact Hidle2|].
  split; reflexivity.
Qed.




(** X1: a run that passes the VBUS check, on a build without the
    always-SDP shortcut, has a stopping poll [k] of the DCD stage and goes
    one of four ways after the first primary-detect pass: secondary
    detection at once; FLOATING when [k] is 6; one or two retries, the
    last successful, then secondary detection; or two failed retries and
    SDP.  Its trace is the common prefix, the part of that way, and the
    two cleanup writes, and the DCD counter is left at [6 - k]. *)
Theorem detection_paths (b : build_config) (m : machine W) :
  CONFIG_ROCKCHIP_RK3036 b = false ->
  vbus_present b m = true ->
  exists (k : nat) (t : power_supply_type) (m' : machine W)
         (rest : list event),
    dcd_stops_at (rphy m) (hw_dcd_start (rphy m) (hw m)) k
    /\ rockchip_chg_get_type b m = Some (t, m')
    /\ trace m'
       = trace m ++ ev_until_primary b m k ++ rest ++ ev_cleanup (rphy m)
    /\ dcd_retries (rphy m') = CHG_DCD_MAX_RETRIES - Z.of_nat k
    /\ phy_cfg (rphy m') = phy_cfg (rphy m)
    /\ detection_rest (rphy m) (hw m) k t rest.
Proof. exact (detection_shapes b m). Qed.



(** The accesses of a call: the VBUS check alone, the check and the two
    cleanup writes, or a run of the detection stages. *)
Lemma run_events (b : build_config) (m : machine W) :
  exists (t : power_supply_type) (m' : machine W) (evs : list event),
    rockchip_chg_get_type b m = Some (t, m')
    /\ trace m' = trace m ++ evs
    /\ ((vbus_present b m = false /\ evs = [ev_check_vbus b m])
        \/ (CONFIG_ROCKCHIP_RK3036 b = true
            /\ evs = [ev_check_vbus b m] ++ ev_cleanup (rphy m))
        \/ (vbus_present b m = true /\ CONFIG_ROCKCHIP_RK3036 b = false
            /\ exists (k : nat) (rest : list event),
                (1 <= k <= 6)%nat
                /\ detection_rest (rphy m) (hw m) k t rest
                /\ evs = ev_until_primary b m k ++ rest
                         ++ ev_cleanup (rphy m))).
Proof.
  destruct (vbus_present b m) eqn:Hvbus.
  - destruct (CONFIG_ROCKCHIP_RK3036 b) eqn:Hcfg.
    + eexists _, _, _. split; [apply run_rk3036; assumption|].
      split; [reflexivity|]. right. left. split; reflexivity.
    + destruct (detection_shapes b m Hcfg Hvbus)
        as (k & t & m' & rest & (Hk & _) & Hrun & Htr & _ & _ & Hrest).
      exists t, m', (ev_until_primary b m k ++ rest ++ ev_cleanup (rphy m)).
      split; [exact Hrun|]. split; [exact Htr|].
      right. right. split; [reflexivity|]. split; [reflexivity|].
      exists k, rest. split; [exact Hk|]. split; [exact Hrest|reflexivity].
  - eexists _, _, _. split; [apply run_unknown; assumption|].
    split; [reflexivity|]. left. split; reflexivity.
Qed.

Lemma total_delay_retries (p : rockchip_usb2phy) (w : W) (a : nat) :
  total_delay (ev_retries p w a) = CHG_PRIMARY_DET_TIME * Z.of_nat a.
Proof.
  revert w. induction a as [|a IH]; intros w; [reflexivity|].
  rewrite ev_retries_shift, !total_delay_app, IH.
  destruct (total_delay_writes p true) as (_ & _ & _ & -> & _).
  unfold CHG_PRIMARY_DET_TIME. cbn [total_delay fold_right delay_of
    ev_property_enabled]. lia.
Qed.

Lemma total_delay_rest (p : rockchip_usb2phy) (w0 : W) (k : nat)
  (t : power_supply_type) (rest : list event) :
  (k <= 6)%nat -> detection_rest p w0 k t rest ->
  0 <= total_delay rest
  /\ CHG_DCD_POLL_TIME * Z.of_nat k + total_delay rest <= 640.
Proof.
  intros Hk [(_ & _ & ->)|[(_ & _ & _ & ->)|[(_ & Hk6 & a & Ha & _ & _ & _ & ->)
                                            |(_ & Hk6 & _ & _ & ->)]]];
    rewrite ?total_delay_app, ?total_delay_retries, ?total_delay_secondary;
    try (destruct (total_delay_writes p false) as (_ & _ & _ & -> & _));
    unfold CHG_DCD_POLL_TIME, CHG_PRIMARY_DET_TIME, CHG_SECONDARY_DET_TIME;
    cbn [total_delay fold_right]; lia.
Qed.

(** X4: a call always returns, and the sleeps of a call add up to at most
    680 ms; to at least 140 ms when the detection stages run, and to
    nothing when they do not. *)
Theorem detection_delay_bounds (b : build_config) (m : machine W) :
  exists (t : power_supply_type) (m' : machine W) (evs : list event),
    rockchip_chg_get_type b m = Some (t, m')
    /\ trace m' = trace m ++ evs
    /\ 0 <= total_delay evs <= 680
    /\ (if vbus_present b m && negb (CONFIG_ROCKCHIP_RK3036 b)
        then 140 <= total_delay evs else total_delay evs = 0).
Proof.
  destruct (run_events b m) as (t & m' & evs & Hrun & Htr & Hcase).
  exists t, m', evs. split; [exact Hrun|]. split; [exact Htr|].
  destruct Hcase as [(Hv & ->)|[(Hc & ->)
                                |(Hv & Hc & k & rest & Hk & Hrest & ->)]].
  - rewrite Hv, total_delay_check_vbus. cbn [andb]. lia.
  - rewrite Hc, andb_false_r, total_delay_app, total_delay_check_vbus.
    destruct (total_delay_writes (rphy m) true) as (_ & -> & _). lia.
  - rewrite Hv, Hc. cbn [andb negb].
    rewrite !total_delay_app, total_delay_until_primary.
    destruct (total_delay_writes (rphy m) true) as (_ & -> & _).
    destruct (total_delay_rest _ _ _ _ _ (proj2 Hk) Hrest) as [H0 H1].
    unfold CHG_DCD_POLL_TIME, CHG_PRIMARY_DET_TIME in *. lia.
Qed.

Lemma access_write_ok (p : rockchip_usb2phy) (r : usb2phy_reg) (en : bool) :
  In r (chg_write_regs p) ->
  chg_access_ok p (ev_property_enable (get_reg_base p) r en).
Proof.
  intros Hin. split; [reflexivity|]. exists r, en.
  split; [exact Hin|]. split; reflexivity.
Qed.

Lemma access_read_ok (p : rockchip_usb2phy) (r : usb2phy_reg) (w : W) :
  In r (chg_read_regs p) ->
  chg_access_ok p (ev_property_enabled (get_reg_base p) r w).
Proof.
  intros Hin. split; [reflexivity|]. exists r. split; [exact Hin|reflexivity].
Qed.

Ltac pick_member := repeat first [left; reflexivity | right].

Ltac access_ok :=
  repeat match goal with
         | |- Forall _ [] => constructor
         | |- Forall _ (_ :: _) => constructor
         | |- chg_access_ok _ (ev_property_enable _ _ _) =>
             apply access_write_ok; unfold chg_write_regs, chg, otg;
             cbn [In]; pick_member
         | |- chg_access_ok _ (ev_property_enabled _ _ _) =>
             apply access_read_ok; unfold chg_read_regs, chg, otg;
             cbn [In]; pick_member
         | |- chg_access_ok _ (EvDelay _) =>
             first [left; reflexivity | right; reflexivity]
         end.

Lemma access_writes_ok (p : rockchip_usb2phy) (en : bool) :
  Forall (chg_access_ok p) (ev_suspend p)
  /\ Forall (chg_access_ok p) (ev_cleanup p)
  /\ Forall (chg_access_ok p) (ev_enable_dcd p en)
  /\ Forall (chg_access_ok p) (ev_enable_primary_det p en)
  /\ Forall (chg_access_ok p) (ev_enable_secondary_det p en).
Proof.
  unfold ev_suspend, ev_cleanup, ev_enable_dcd, ev_enable_primary_det,
    ev_enable_secondary_det.
  split; [|split; [|split; [|split]]]; access_ok.
Qed.

Lemma access_check_vbus_ok (b : build_config) (m : machine W) :
  chg_access_ok (rphy m) (ev_check_vbus b m).
Proof.
  unfold ev_check_vbus. destruct (gpio_valid b (hw m)); [exact I|].
  access_ok.
Qed.

Lemma access_dcd_polls_ok (p : rockchip_usb2phy) (w : W) (k : nat) :
  Forall (chg_access_ok p) (ev_dcd_polls p w k).
Proof.
  unfold ev_dcd_polls. apply Forall_flat_map, Forall_forall. intros j _.
  access_ok.
Qed.

Lemma access_retries_ok (p : rockchip_usb2phy) (w : W) (a : nat) :
  Forall (chg_access_ok p) (ev_retries p w a).
Proof.
  unfold ev_retries. apply Forall_flat_map, Forall_forall. intros j _.
  apply Forall_app. split; [apply (access_writes_ok p true)|]. access_ok.
Qed.

Lemma access_secondary_ok (p : rockchip_usb2phy) (w : W) :
  Forall (chg_access_ok p) (ev_secondary p w).
Proof.
  unfold ev_secondary, ev_secondary_sample.
  apply Forall_app. split; [apply (access_writes_ok p true)|].
  apply Forall_app. split; [|apply (access_writes_ok p false)].
  unfold CHG_SECONDARY_DET_TIME. access_ok.
Qed.

Lemma access_until_primary_ok (b : build_config) (m : machine W) (k : nat) :
  Forall (chg_access_ok (rphy m)) (ev_until_primary b m k).
Proof.
  unfold ev_until_primary, ev_primary_sample.
  destruct (access_writes_ok (rphy m) true) as (Hs & _ & Hd & Hp & _).
  destruct (access_writes_ok (rphy m) false) as (_ & _ & Hd' & Hp' & _).
  repeat (apply Forall_app; split); try assumption.
  - constructor; [apply access_check_vbus_ok|constructor].
  - apply access_dcd_polls_ok.
  - access_ok.
Qed.

Lemma access_rest_ok (p : rockchip_usb2phy) (w0 : W) (k : nat)
  (t : power_supply_type) (rest : list event) :
  detection_rest p w0 k t rest -> Forall (chg_access_ok p) rest.
Proof.
  destruct (access_writes_ok p false) as (_ & _ & _ & Hp & _).
  intros [(_ & _ & ->)|[(_ & _ & _ & ->)|[(_ & _ & a & _ & _ & _ & _ & ->)
                                         |(_ & _ & _ & _ & ->)]]].
  - apply access_secondary_ok.
  - constructor.
  - apply Forall_app. split; [apply access_retries_ok|].
    apply Forall_app. split; [exact Hp|apply access_secondary_ok].
  - apply Forall_app. split; [apply access_retries_ok|exact Hp].
Qed.

(** X5: whatever the hardware answers, a call stays within its registers:
    every write is a property write of one of the eight control
    descriptors of the PHY's tables (port suspend, opmode, and the six
    bundle fields), every read is at the offset of one of the four status
    descriptors ([utmi_bvalid], [dp_det], [cp_det], [dcp_det]), all on the
    bank of the PHY, and every sleep lasts 100 or 40 ms. *)
Theorem detection_accesses_in_bounds (b : build_config) (m : machine W) :
  exists (t : power_supply_type) (m' : machine W) (evs : list event),
    rockchip_chg_get_type b m = Some (t, m')
    /\ trace m' = trace m ++ evs
    /\ Forall (chg_access_ok (rphy m)) evs.
Proof.
  destruct (run_events b m) as (t & m' & evs & Hrun & Htr & Hcase).
  exists t, m', evs. split; [exact Hrun|]. split; [exact Htr|].
  destruct (access_writes_ok (rphy m) true) as (_ & Hc & _).
  destruct Hcase as [(_ & ->)|[(_ & ->)|(_ & _ & k & rest & _ & Hrest & ->)]].
  - constructor; [apply access_check_vbus_ok|constructor].
  - apply Forall_app. split; [|exact Hc].
    constructor; [apply access_check_vbus_ok|constructor].
  - apply Forall_app. split; [apply access_until_primary_ok|].
    apply Forall_app. split; [|exact Hc].
    exact (access_rest_ok _ _ _ _ _ Hrest).
Qed.

(** X6: [rockchip_chg_primary_det_retry] with any budget [c] left in the
    [u8] counter, zero included: when none of [c] retries reads [cp_det]
    it returns false after exactly [c] retries (bundle on, 40 ms, read)
    and one bundle-off, and the counter has wrapped to 255. *)
Theorem primary_det_retry_exhausts_budget (c : nat) (m : machine W) :
  primary_retries (rphy m) = Z.of_nat c -> (c <= 255)%nat ->
  (forall j, (1 <= j <= c)%nat ->
     cp_det_retry_at (rphy m) (hw m) j = false) ->
  rockchip_chg_primary_det_retry m
  = Some (false,
          Machine (hw_enable_primary_det (rphy m) false
                     (hw_retry (rphy m) (hw m) c))
            (with_primary_retries 255 (rphy m))
            (trace m ++ ev_retries (rphy m) (hw m) c
               ++ ev_enable_primary_det (rphy m) false)).
Proof.
  intros Hc Hmax Hidle. destruct m as [w p tr]. cbn [hw rphy trace] in *.
  unfold rockchip_chg_primary_det_retry.
  erewrite bind_Some;
    [|apply (primary_det_retry_loop_miss c);
      [unfold u8_fuel; lia|exact Hc|exact Hmax|exact Hidle]].
  destruct p as [dcd pri grf usb gpio cfg].
  unfold_driver. unfold_obs. cbn. norm_trace. reflexivity.
Qed.

(** X7: [rockchip_chg_primary_det_retry] stops at the first retry [a],
    within the budget, that reads [cp_det]: it returns true after exactly
    [a] retries and one bundle-off, and [a] has been taken off the
    counter. *)
Theorem primary_det_retry_stops_at_first_hit (a : nat) (m : machine W) :
  (1 <= a)%nat ->
  Z.of_nat a <= primary_retries (rphy m) <= 255 ->
  (forall j, (1 <= j < a)%nat ->
     cp_det_retry_at (rphy m) (hw m) j = false) ->
  cp_det_retry_at (rphy m) (hw m) a = true ->
  rockchip_chg_primary_det_retry m
  = Some (true,
          Machine (hw_enable_primary_det (rphy m) false
                     (hw_retry (rphy m) (hw m) a))
            (with_primary_retries (primary_retries (rphy m) - Z.of_nat a)
               (rphy m))
            (trace m ++ ev_retries (rphy m) (hw m) a
               ++ ev_enable_primary_det (rphy m) false)).
Proof.
  intros Ha Hc Hidle Hhit. destruct m as [w p tr]. cbn [hw rphy trace] in *.
  unfold rockchip_chg_primary_det_retry.
  erewrite bind_Some;
    [|apply (primary_det_retry_loop_hit a);
      [exact Ha|unfold u8_fuel; lia|exact Hc|exact Hidle|exact Hhit]].
  destruct p as [dcd pri grf usb gpio cfg].
  unfold_driver. unfold_obs. cbn. norm_trace. reflexivity.
Qed.

End AllRuns.

(** X8: the five charger types have five different names. *)
Theorem chg_to_string_injective (t1 t2 : power_supply_type) :
  chg_to_string t1 = chg_to_string t2 -> t1 = t2.
Proof. destruct t1, t2; cbn; intros H; (reflexivity || discriminate H). Qed.

(** ** The property accessor and the other fields of a register *)

(** A write to a descriptor gives a descriptor it contains the matching
    slice of the encoding. *)
Lemma property_field_wmask_write_inner (r r' : usb2phy_reg) (en : bool)
  (old : Z) :
  low_half r -> fits r (if en then enable r else disable r) ->
  bitstart r <= bitstart r' -> bitstart r' <= bitend r' <= bitend r ->
  property_field r' (wmask_write old (property_enable_val r en))
  = Z.land (Z.shiftr (if en then enable r else disable r)
              (bitstart r' - bitstart r))
      (Z.ones (bitend r' - bitstart r' + 1)).
Proof.
  intros Hr Hx Hlo Hhi. pose proof Hr as [Hl Hh].
  apply Z.bits_inj'. intros i Hi.
  rewrite testbit_property_field, testbit_wmask_write by lia.
  rewrite Z.land_spec, Z.shiftr_spec, testbit_ones_nonneg by lia.
  destruct (Z.leb_spec (i + bitstart r') (bitend r')) as [Hin|Hout].
  - rewrite !testbit_property_enable_val by (assumption || lia).
    replace (i + bitstart r' <? 16) with true
      by (symmetry; apply Z.ltb_lt; lia).
    replace (i + bitstart r' + 16 <? 16) with false
      by (symmetry; apply Z.ltb_ge; lia).
    replace (bitstart r + 16 <=? i + bitstart r' + 16) with true
      by (symmetry; apply Z.leb_le; lia).
    replace (i + bitstart r' + 16 <=? bitend r + 16) with true
      by (symmetry; apply Z.leb_le; lia).
    replace (i <? bitend r' - bitstart r' + 1) with true
      by (symmetry; apply Z.ltb_lt; lia).
    cbn. rewrite !andb_true_r. f_equal. lia.
  - replace (i <? bitend r' - bitstart r' + 1) with false
      by (symmetry; apply Z.ltb_ge; lia).
    rewrite !andb_false_r. reflexivity.
Qed.

Section AccessorFrames.

Context {W : Type} {HW : Hardware W}.

(** X9: a property write leaves every other field as it read before: a
    field of another register or bank, when writes elsewhere leave that
    register alone, and a field of the same register whose bit range is
    disjoint from the written one, when the register honours the
    write-enable convention. *)
Theorem property_write_frame (base base' : regmap) (r r' : usb2phy_reg)
  (en : bool) (m : machine W) :
  honours_wmask base (offset r) ->
  unaffected_by_others base' (offset r') ->
  low_half r -> low_half r' ->
  fits r (if en then enable r else disable r) ->
  base' <> base \/ disjoint_fields r r' ->
  (property_enable base r en >> property_enabled base' r') m
  = Some (hw_property_enabled base' r' (hw m),
          Machine (hw_property_enable base r en (hw m)) (rphy m)
            (trace m ++ [ev_property_enable base r en;
                         ev_property_enabled base' r'
                           (hw_property_enable base r en (hw m))])).
Proof.
  intros Hhon Hun Hr Hr' Hx Hsep.
  unfold bind. rewrite property_enable_run, property_enabled_run.
  cbn [hw rphy trace]. rewrite <- !app_assoc. cbn [app].
  do 2 f_equal.
  unfold hw_property_enabled, property_test, hw_property_enable.
  f_equal.
  assert (Hcase : (base, offset r) <> (base', offset r')
                  \/ (base = base' /\ offset r = offset r'
                      /\ (bitend r < bitstart r' \/ bitend r' < bitstart r))).
  { destruct Hsep as [Hb|[Ho|Hbits]].
    - left. congruence.
    - left. congruence.
    - destruct base, base'; try (left; congruence);
        (destruct (Z.eq_dec (offset r) (offset r')) as [He|Hne];
         [right; split; [reflexivity|split; assumption] | left; congruence]). }
  destruct Hcase as [Hne|(<- & Ho & Hbits)].
  - rewrite Hun by exact Hne. reflexivity.
  - rewrite <- Ho, Hhon.
    apply property_field_wmask_write_other; assumption.
Qed.

(** X10: a property write to a descriptor also decides every descriptor of
    the same register whose bit range it contains: the inner field then
    reads as enabled exactly when the matching slice of the encoding
    written is its enable encoding, whatever the register held. *)
Theorem property_write_decides_contained_field (base : regmap)
  (r r' : usb2phy_reg) (en : bool) (m : machine W) :
  honours_wmask base (offset r) ->
  low_half r -> fits r (if en then enable r else disable r) ->
  offset r' = offset r ->
  bitstart r <= bitstart r' -> bitstart r' <= bitend r' <= bitend r ->
  (property_enable base r en >> property_enabled base r') m
  = Some (Z.land (Z.shiftr (if en then enable r else disable r)
                    (bitstart r' - bitstart r))
            (Z.ones (bitend r' - bitstart r' + 1)) =? enable r',
          Machine (hw_property_enable base r en (hw m)) (rphy m)
            (trace m ++ [ev_property_enable base r en;
                         ev_property_enabled base r'
                           (hw_property_enable base r en (hw m))])).
Proof.
  intros Hhon Hr Hx Ho Hlo Hhi.
  unfold bind. rewrite property_enable_run, property_enabled_run.
  cbn [hw rphy trace]. rewrite <- !app_assoc. cbn [app].
  do 2 f_equal.
  unfold hw_property_enabled, property_test, hw_property_enable.
  f_equal. rewrite Ho, Hhon.
  apply property_field_wmask_write_inner; assumption.
Qed.

End AccessorFrames.

(** Witness: on the rk1808 table, writing the [idp_src_en] bit leaves the
    [rdm_pdwn_en] bit of the same register as it was, here set. *)
Lemma property_write_frame_witness :
  (@property_enable sim (sim_hw no_status) GRF
     (idp_src_en (chg_det rk1808_phy_cfg)) false
   >> @property_enabled sim (sim_hw no_status) GRF
        (rdm_pdwn_en (chg_det rk1808_phy_cfg)))
    (Machine (Sim {[ 0x108 := 0x600 ]} ∅ 0 None) (phy_of rk1808_phy_cfg) [])
  = Some (true,
          Machine (Sim {[ 0x108 := 0x400 ]} ∅ 0 None) (phy_of rk1808_phy_cfg)
            [EvWrite GRF 0x108 0x02000000; EvRead GRF 0x108 0x400]).
Proof.
  etransitivity.
  - apply (@property_write_frame sim (sim_hw no_status) GRF GRF
             (idp_src_en (chg_det rk1808_phy_cfg))
             (rdm_pdwn_en (chg_det rk1808_phy_cfg)) false
             (Machine (Sim {[ 0x108 := 0x600 ]} ∅ 0 None)
                (phy_of rk1808_phy_cfg) [])).
    + apply sim_honours_wmask. reflexivity.
    + apply sim_unaffected_by_others.
    + unfold low_half. cbn. lia.
    + unfold low_half. cbn. lia.
    + unfold fits. cbn. lia.
    + right. right. left. cbn. lia.
  - vm_compute. reflexivity.
Defined.

(** Witness: on the rk1808 table the OTG [phy_sus] descriptor (bits 8..0
    of register 0x100) contains the [opmode] one (bits 3..0): asserting
    suspend (0x1d1) makes opmode read enabled (1), and clearing suspend
    makes it read disabled. *)
Lemma property_write_decides_contained_field_witness :
  (@property_enable sim (sim_hw no_status) GRF
     (phy_sus (port_cfg_otg rk1808_phy_cfg)) true
   >> @property_enabled sim (sim_hw no_status) GRF
        (opmode (chg_det rk1808_phy_cfg)))
    (Machine (Sim {[ 0x100 := 5 ]} ∅ 0 None) (phy_of rk1808_phy_cfg) [])
  = Some (true,
          Machine (Sim {[ 0x100 := 0x1d1 ]} ∅ 0 None) (phy_of rk1808_phy_cfg)
            [EvWrite GRF 0x100 0x01ff01d1; EvRead GRF 0x100 0x1d1])
  /\ (@property_enable sim (sim_hw no_status) GRF
        (phy_sus (port_cfg_otg rk1808_phy_cfg)) false
      >> @property_enabled sim (sim_hw no_status) GRF
           (opmode (chg_det rk1808_phy_cfg)))
       (Machine (Sim {[ 0x100 := 1 ]} ∅ 0 None) (phy_of rk1808_phy_cfg) [])
     = Some (false,
             Machine (Sim {[ 0x100 := 0 ]} ∅ 0 None) (phy_of rk1808_phy_cfg)
               [EvWrite GRF 0x100 0x01ff0000; EvRead GRF 0x100 0]).
Proof.
  split.
  - etransitivity.
    + apply (@property_write_decides_contained_field sim (sim_hw no_status)
               GRF (phy_sus (port_cfg_otg rk1808_phy_cfg))
               (opmode (chg_det rk1808_phy_cfg)) true
               (Machine (Sim {[ 0x100 := 5 ]} ∅ 0 None)
                  (phy_of rk1808_phy_cfg) [])).
      * apply sim_honours_wmask. reflexivity.
      * unfold low_half. cbn. lia.
      * unfold fits. cbn. lia.
      * reflexivity.
      * cbn. lia.
      * cbn. lia.
    + vm_compute. reflexivity.
  - etransitivity.
    + apply (@property_write_decides_contained_field sim (sim_hw no_status)
               GRF (phy_sus (port_cfg_otg rk1808_phy_cfg))
               (opmode (chg_det rk1808_phy_cfg)) false
               (Machine (Sim {[ 0x100 := 1 ]} ∅ 0 None)
                  (phy_of rk1808_phy_cfg) [])).
      * apply sim_honours_wmask. reflexivity.
      * unfold low_half. cbn. lia.
      * unfold fits. cbn. lia.
      * reflexivity.
      * cbn. lia.
      * cbn. lia.
    + vm_compute. reflexivity.
Defined.

(** ** Configuration matching of probe *)



Lemma probe_scan_sentinel (more : list rockchip_usb2phy_cfg) :
  forall (cur s : rockchip_usb2phy_cfg) (tail : list rockchip_usb2phy_cfg)
         (key : Z),
    Forall (fun c => reg c <> 0) more -> reg s = 0 ->
    probe_scan cur (more ++ s :: tail) key
    = match find (fun c => reg c =? key) (cur :: more) with
      | Some c => MatchFound c
      | None => MatchNone
      end.
Proof.
  induction more as [|next more IH]; intros cur s tail key Hmore Hs;
    cbn [probe_scan app find]; destruct (reg cur =? key); try reflexivity.
  - rewrite Hs. reflexivity.
  - apply Forall_cons_1 in Hmore as [Hnz Hmore].
    replace (reg next =? 0) with false
      by (symmetry; apply Z.eqb_neq; exact Hnz).
    rewrite (IH next s tail key Hmore Hs). reflexivity.
Qed.

(** X12: on a table closed by a sentinel (a zero [reg] after a non-empty
    body whose elements after the first have non-zero [reg]) the search
    never leaves the table, whatever follows the sentinel: it assigns the
    first element of the body with the [reg] looked for, and none (probe
    then fails with [-EINVAL]) when the body has no such element. *)
Theorem probe_on_sentinel_table (first s : rockchip_usb2phy_cfg)
  (more tail : list rockchip_usb2phy_cfg) (key : Z) :
  Forall (fun c => reg c <> 0) more -> reg s = 0 ->
  probe_find_cfg (first :: more ++ s :: tail) key
  = match find (fun c => reg c =? key) (first :: more) with
    | Some c => MatchFound c
    | None => MatchNone
    end.
Proof. intros Hmore Hs. apply probe_scan_sentinel; assumption. Qed.

Lemma probe_scan_overrun (rest : list rockchip_usb2phy_cfg) :
  forall (cur : rockchip_usb2phy_cfg) (key : Z),
    Forall (fun c => reg c <> key) (cur :: rest) ->
    Forall (fun c => reg c <> 0) rest ->
    probe_scan cur rest key = MatchPastEnd.
Proof.
  induction rest as [|next rest IH]; intros cur key Hkey Hnz;
    apply Forall_cons_1 in Hkey as [Hcur Hkey]; cbn [probe_scan];
    (replace (reg cur =? key) with false
       by (symmetry; apply Z.eqb_neq; exact Hcur)); [reflexivity|].
  apply Forall_cons_1 in Hnz as [Hnext Hnz].
  replace (reg next =? 0) with false
    by (symmetry; apply Z.eqb_neq; exact Hnext).
  apply IH; assumption.
Qed.

(** X13: on a table without a sentinel (no zero [reg] after index 0) a
    [reg] that no element has takes the search past the last element of
    the table: the loop condition reads [phy_cfgs[index].reg] beyond the
    array. *)
Theorem probe_overruns_unterminated_table
  (phy_cfgs : list rockchip_usb2phy_cfg) (key : Z) :
  Forall (fun c => reg c <> key) phy_cfgs ->
  Forall (fun c => reg c <> 0) (tl phy_cfgs) ->
  probe_find_cfg phy_cfgs key = MatchPastEnd.
Proof.
  destruct phy_cfgs as [|first rest]; [reflexivity|].
  intros Hkey Hnz. apply probe_scan_overrun; assumption.
Qed.


(** Witness: the rk3036 table, closed by its sentinel, and a [reg] it
    does not hold. *)
Lemma probe_on_sentinel_table_witness :
  probe_find_cfg rk3036_phy_cfgs 0x100 = MatchNone.
Proof.
  apply (probe_on_sentinel_table rk3036_phy_cfg sentinel_cfg [] [] 0x100).
  - constructor.
  - reflexivity.
Defined.

(** Witness: the rk3506 table (lines 1651-1700) has one element and no
    sentinel; a node whose [reg] is not 0xff2b0000 takes probe past it. *)
Lemma probe_overruns_unterminated_table_witness :
  probe_find_cfg rk3506_phy_cfgs 0xff2c0000 = MatchPastEnd.
Proof.
  apply (probe_overruns_unterminated_table rk3506_phy_cfgs 0xff2c0000).
  - constructor; [|constructor]. cbn. lia.
  - constructor.
Defined.

(** ** Memory-mapped helpers and tuning *)

Lemma testbit_update_word (old mask val i : Z) :
  0 <= i ->
  Z.testbit (Z.lor (Z.land old (u32 (Z.lnot mask))) (Z.land val mask)) i
  = if i <? 32
    then (if Z.testbit mask i then Z.testbit val i else Z.testbit old i)
    else Z.testbit val i && Z.testbit mask i.
Proof.
  intros Hi.
  rewrite Z.lor_spec, !Z.land_spec, testbit_u32, Z.lnot_spec by lia.
  destruct (i <? 32), (Z.testbit mask i), (Z.testbit val i),
    (Z.testbit old i); reflexivity.
Qed.

Section Mmio.

Context {W : Type} {HW : Hardware W} {PF : Platform W}.

Lemma phy_update_bits_run (addr mask val : Z) (m : pmachine W) :
  phy_update_bits addr mask val m
  = Some (tt,
          PMachine
            (hw_writel (p_hw m) addr
               (Z.lor (Z.land (hw_readl (p_hw m) addr) (u32 (Z.lnot mask)))
                  (Z.land val mask)))
            (p_dev m)
            (p_trace m
               ++ [AcReadl addr (hw_readl (p_hw m) addr);
                   AcWritel addr
                     (Z.lor (Z.land (hw_readl (p_hw m) addr)
                               (u32 (Z.lnot mask)))
                        (Z.land val mask))])).
Proof.
  unfold phy_update_bits, pbind, readl, writel. cbn.
  rewrite <- app_assoc. reflexivity.
Qed.

(** X14: [phy_update_bits] reads the register once and writes it once, and
    in the word written every bit of the mask is the bit of [val] and
    every other bit of the 32 is the bit read; above them a bit is set
    only if it is set in both [val] and the mask. *)
Theorem phy_update_bits_word (addr mask val : Z) (m : pmachine W) :
  exists v : Z,
    phy_update_bits addr mask val m
    = Some (tt,
            PMachine (hw_writel (p_hw m) addr v) (p_dev m)
              (p_trace m ++ [AcReadl addr (hw_readl (p_hw m) addr);
                             AcWritel addr v]))
    /\ forall i, 0 <= i ->
         Z.testbit v i
         = if i <? 32
           then (if Z.testbit mask i then Z.testbit val i
                 else Z.testbit (hw_readl (p_hw m) addr) i)
           else Z.testbit val i && Z.testbit mask i.
Proof.
  eexists. split; [apply phy_update_bits_run|].
  intros i Hi. apply testbit_update_word. exact Hi.
Qed.

(** X15: the two other helpers are instances of [phy_update_bits]:
    clearing bits is updating them to zero, and, the word read being a
    [u32], setting bits is updating them to themselves. *)
Theorem phy_clear_set_as_update (addr bits : Z) (m : pmachine W) :
  0 <= hw_readl (p_hw m) addr < 2 ^ 32 ->
  phy_clear_bits addr bits m = phy_update_bits addr bits 0 m
  /\ phy_set_bits addr bits m = phy_update_bits addr bits bits m.
Proof.
  intros Hold. split.
  - unfold phy_clear_bits, phy_update_bits, pbind, readl, writel. cbn.
    rewrite Z.land_0_l, Z.lor_0_r. reflexivity.
  - unfold phy_set_bits, phy_update_bits, pbind, readl, writel. cbn.
    assert (Hword : Z.lor (hw_readl (p_hw m) addr) bits
                    = Z.lor (Z.land (hw_readl (p_hw m) addr)
                               (u32 (Z.lnot bits)))
                        (Z.land bits bits)).
    { apply Z.bits_inj'. intros i Hi.
      rewrite testbit_update_word, Z.lor_spec by exact Hi.
      destruct (Z.ltb_spec i 32) as [Hlo|Hhi].
      - destruct (Z.testbit bits i), (Z.testbit (hw_readl (p_hw m) addr) i);
          reflexivity.
      - replace (Z.testbit (hw_readl (p_hw m) addr) i) with false.
        + destruct (Z.testbit bits i); reflexivity.
        + symmetry.
          destruct (Z.eq_dec (hw_readl (p_hw m) addr) 0) as [->|Hne];
            [apply Z.testbit_0_l|].
          apply Z.bits_above_log2; [lia|].
          assert (Z.log2 (hw_readl (p_hw m) addr) < 32)
            by (apply Z.log2_lt_pow2; lia).
          lia. }
    rewrite <- Hword. reflexivity.
Qed.

Lemma phy_clear_bits_run (addr bits : Z) (m : pmachine W) :
  phy_clear_bits addr bits m
  = Some (tt,
          PMachine
            (hw_writel (p_hw m) addr
               (Z.land (hw_readl (p_hw m) addr) (u32 (Z.lnot bits))))
            (p_dev m)
            (p_trace m
               ++ [AcReadl addr (hw_readl (p_hw m) addr);
                   AcWritel addr
                     (Z.land (hw_readl (p_hw m) addr)
                        (u32 (Z.lnot bits)))])).
Proof.
  unfold phy_clear_bits, pbind, readl, writel. cbn.
  rewrite <- app_assoc. reflexivity.
Qed.

Lemma phy_set_bits_run (addr bits : Z) (m : pmachine W) :
  phy_set_bits addr bits m
  = Some (tt,
          PMachine
            (hw_writel (p_hw m) addr (Z.lor (hw_readl (p_hw m) addr) bits))
            (p_dev m)
            (p_trace m
               ++ [AcReadl addr (hw_readl (p_hw m) addr);
                   AcWritel addr (Z.lor (hw_readl (p_hw m) addr) bits)])).
Proof.
  unfold phy_set_bits, pbind, readl, writel. cbn.
  rewrite <- app_assoc. reflexivity.
Qed.

Lemma pbind_Some {A B} (c : PM W A) (k : A -> PM W B) (m m' : pmachine W)
  (a : A) :
  c m = Some (a, m') -> pbind c k m = k a m'.
Proof. intros H. unfold pbind. rewrite H. reflexivity. Qed.

Lemma readl_writel (a a' v : Z) (w : W) :
  stores a -> apart a ->
  hw_readl (hw_writel w a' v) a = if a' =? a then v else hw_readl w a.
Proof.
  intros Hst Hap. destruct (Z.eqb_spec a' a) as [->|Hne].
  - apply Hst.
  - apply Hap. exact Hne.
Qed.

Ltac decide_eqb :=
  repeat match goal with
         | |- context [?x =? ?y] =>
             first [ replace (x =? y) with true
                       by (symmetry; apply Z.eqb_eq; lia)
                   | replace (x =? y) with false
                       by (symmetry; apply Z.eqb_neq; lia) ]
         end.

Lemma tuning_word_otg (old : Z) :
  Z.lor (Z.land (Z.land old (u32 (Z.lnot (BIT 2))))
           (u32 (Z.lnot (GENMASK 6 4))))
    (Z.land (Z.shiftl 5 4) (GENMASK 6 4))
  = Z.lor (Z.land old 0xFFFFFF8B) 0x50.
Proof. rewrite <- Z.land_assoc. reflexivity. Qed.

Lemma tuning_word_linestate (old : Z) :
  Z.lor (Z.land old (u32 (Z.lnot (GENMASK 6 3))))
    (Z.land (Z.shiftl 3 3) (GENMASK 6 3))
  = Z.lor (Z.land old 0xFFFFFF87) 0x18.
Proof. reflexivity. Qed.

(** X16: the net effect of [rk3506_usb2phy_tuning] on PHY registers that
    store what is written: six read-modify-write pairs, after which the
    registers at 0x30 and 0x430 hold the word they held with bit 2 clear
    and bits 6..4 equal to 5, those at 0x94 and 0x494 the word they held
    with bits 6..3 equal to 3 (all above bit 31 cleared); the second
    helper on a register works on the word the first one wrote.  The call
    returns 0 and leaves the PHY instance alone. *)
Theorem rk3506_tuning_net_effect (b : Z) (m : pmachine W) :
  phy_base (p_dev m) = b ->
  (forall a, In a [b + 0x30; b + 0x430; b + 0x94; b + 0x494] ->
     stores a /\ apart a) ->
  exists m' : pmachine W,
    rk3506_usb2phy_tuning m = Some (0, m')
    /\ p_dev m' = p_dev m
    /\ length (p_trace m') = (length (p_trace m) + 12)%nat
    /\ hw_readl (p_hw m') (b + 0x30)
       = Z.lor (Z.land (hw_readl (p_hw m) (b + 0x30)) 0xFFFFFF8B) 0x50
    /\ hw_readl (p_hw m') (b + 0x430)
       = Z.lor (Z.land (hw_readl (p_hw m) (b + 0x430)) 0xFFFFFF8B) 0x50
    /\ hw_readl (p_hw m') (b + 0x94)
       = Z.lor (Z.land (hw_readl (p_hw m) (b + 0x94)) 0xFFFFFF87) 0x18
    /\ hw_readl (p_hw m') (b + 0x494)
       = Z.lor (Z.land (hw_readl (p_hw m) (b + 0x494)) 0xFFFFFF87) 0x18.
Proof.
  intros Hb Hregs.
  destruct (Hregs (b + 0x30)) as [Hs1 Ha1]; [cbn [In]; tauto|].
  destruct (Hregs (b + 0x430)) as [Hs2 Ha2]; [cbn [In]; tauto|].
  destruct (Hregs (b + 0x94)) as [Hs3 Ha3]; [cbn [In]; tauto|].
  destruct (Hregs (b + 0x494)) as [Hs4 Ha4]; [cbn [In]; tauto|].
  destruct m as [w d tr]. cbn [p_hw p_dev p_trace] in *.
  unfold rk3506_usb2phy_tuning.
  unfold pbind at 1. unfold get_dev. cbn [p_dev]. rewrite Hb.
  erewrite pbind_Some; [|apply phy_clear_bits_run].
  erewrite pbind_Some; [|apply phy_clear_bits_run].
  erewrite pbind_Some; [|apply phy_update_bits_run].
  erewrite pbind_Some; [|apply phy_update_bits_run].
  erewrite pbind_Some; [|apply phy_update_bits_run].
  erewrite pbind_Some; [|apply phy_update_bits_run].
  cbn [p_hw p_dev p_trace pret].
  eexists. split; [reflexivity|]. cbn [p_hw p_dev p_trace].
  split; [reflexivity|].
  split; [rewrite !length_app; cbn [length]; lia|].
  rewrite !(readl_writel (b + 0x30)), !(readl_writel (b + 0x430)),
    !(readl_writel (b + 0x94)), !(readl_writel (b + 0x494)) by assumption.
  decide_eqb.
  rewrite !tuning_word_otg, !tuning_word_linestate.
  split; [reflexivity|]. split; [reflexivity|]. split; reflexivity.
Qed.

End Mmio.

(** The simulated PHY memory stores what is written, address by address. *)
Lemma psim_stores (addr : Z) : @stores psim psim_platform addr.
Proof. intros w v. cbn. rewrite lookup_insert_eq. reflexivity. Qed.

Lemma psim_apart (addr : Z) : @apart psim psim_platform addr.
Proof.
  intros w addr' v Hne. cbn. rewrite lookup_insert_ne by exact Hne.
  reflexivity.
Qed.

(** Witness: a register read as 0xffff is a [u32]. *)
Lemma phy_clear_set_as_update_witness :
  @phy_clear_bits psim psim_platform 0xff2b0030 4
    (psim_machine rk3506_phy_cfg
       (PSim sim_reset {[ 0xff2b0030 := 0xffff ]} 0 0 0))
  = @phy_update_bits psim psim_platform 0xff2b0030 4 0
      (psim_machine rk3506_phy_cfg
         (PSim sim_reset {[ 0xff2b0030 := 0xffff ]} 0 0 0))
  /\ @phy_set_bits psim psim_platform 0xff2b0030 4
       (psim_machine rk3506_phy_cfg
          (PSim sim_reset {[ 0xff2b0030 := 0xffff ]} 0 0 0))
     = @phy_update_bits psim psim_platform 0xff2b0030 4 4
         (psim_machine rk3506_phy_cfg
            (PSim sim_reset {[ 0xff2b0030 := 0xffff ]} 0 0 0)).
Proof.
  apply (@phy_clear_set_as_update psim psim_platform).
  vm_compute. split; [discriminate|reflexivity].
Defined.

(** Witness: the tuning on a simulated PHY whose registers hold 0xff. *)
Lemma rk3506_tuning_net_effect_witness :
  exists m' : pmachine psim,
    @rk3506_usb2phy_tuning psim psim_platform
      (psim_machine rk3506_phy_cfg
         (PSim sim_reset
            {[ 0xff2b0030 := 0xff; 0xff2b0430 := 0xff;
               0xff2b0094 := 0xff; 0xff2b0494 := 0xff ]} 0 0 0))
    = Some (0, m')
    /\ @hw_readl psim psim_platform (p_hw m') 0xff2b0030 = 0xdb
    /\ @hw_readl psim psim_platform (p_hw m') 0xff2b0094 = 0x9f.
Proof.
  destruct (@rk3506_tuning_net_effect psim psim_platform 0xff2b0000
              (psim_machine rk3506_phy_cfg
                 (PSim sim_reset
                    {[ 0xff2b0030 := 0xff; 0xff2b0430 := 0xff;
                       0xff2b0094 := 0xff; 0xff2b0494 := 0xff ]} 0 0 0)))
    as (m' & Hrun & _ & _ & H30 & _ & H94 & _).
  - reflexivity.
  - intros a _. split; [apply psim_stores|apply psim_apart].
  - exists m'. split; [exact Hrun|].
    split; (etransitivity; [first [exact H30|exact H94]|]);
      vm_compute; reflexivity.
Defined.

(** ** Tuning through the register bank *)




Section BankTuning.

Context {W : Type} {HW : Hardware W} {PF : Platform W}.




End BankTuning.

(** ** The PHY lifecycle *)

Section LifecycleRuns.

Context {W : Type} {HW : Hardware W} {PF : Platform W}.

Lemma bus_property_enable_run (base : regmap) (r : usb2phy_reg) (en : bool)
  (m : pmachine W) :
  bus (property_enable base r en) m
  = Some (tt,
          PMachine (hw_property_enable base r en (p_hw m)) (p_dev m)
            (p_trace m ++ [AcBus (ev_property_enable base r en)])).
Proof. destruct m as [w [r0 pb vs rst] tr]. reflexivity. Qed.


Lemma udelay_run (us : Z) (m : pmachine W) :
  udelay us m
  = Some (tt,
          PMachine (hw_udelay (p_hw m) us) (p_dev m)
            (p_trace m ++ [AcUdelay us])).
Proof. reflexivity. Qed.

(** X18: [rockchip_usb2phy_init] and [rockchip_usb2phy_exit] on a port that
    is neither the OTG nor the host port return [-EINVAL] and touch
    nothing: no register access, no delay. *)
Theorem usb2phy_init_exit_reject_unknown_port (id : Z) (m : pmachine W) :
  id <> USB2PHY_PORT_OTG -> id <> USB2PHY_PORT_HOST ->
  rockchip_usb2phy_init id m = Some (- EINVAL, m)
  /\ rockchip_usb2phy_exit id m = Some (- EINVAL, m).
Proof.
  intros Hotg Hhost.
  unfold rockchip_usb2phy_init, rockchip_usb2phy_exit, port_cfg_of, pbind,
    get_dev.
  replace (id =? USB2PHY_PORT_OTG) with false
    by (symmetry; apply Z.eqb_neq; exact Hotg).
  replace (id =? USB2PHY_PORT_HOST) with false
    by (symmetry; apply Z.eqb_neq; exact Hhost).
  split; reflexivity.
Qed.

(** X19: on a port the PHY has, whose suspend descriptor the register can
    serve (lower half-word, both encodings fitting and distinct, register
    honouring the write-enable convention and untouched by the busy
    wait), [rockchip_usb2phy_exit] leaves the port reading suspended and
    [rockchip_usb2phy_init] leaves it reading resumed, whatever it read
    before; both return 0, exit after its single write, init after the
    write and a 2000 us wait. *)
Theorem usb2phy_init_exit_suspend (id : Z) (pc : rockchip_usb2phy_port_cfg)
  (m : pmachine W) :
  port_cfg_of (dev_rphy (p_dev m)) id = Some pc ->
  honours_wmask (get_reg_base (dev_rphy (p_dev m))) (offset (phy_sus pc)) ->
  (forall w us,
      hw_read (hw_udelay w us) (get_reg_base (dev_rphy (p_dev m)))
        (offset (phy_sus pc))
      = hw_read w (get_reg_base (dev_rphy (p_dev m))) (offset (phy_sus pc))) ->
  low_half (phy_sus pc) ->
  fits (phy_sus pc) (enable (phy_sus pc)) ->
  fits (phy_sus pc) (disable (phy_sus pc)) ->
  enable (phy_sus pc) <> disable (phy_sus pc) ->
  (exists m',
      rockchip_usb2phy_exit id m = Some (0, m')
      /\ p_dev m' = p_dev m
      /\ p_trace m'
         = p_trace m
           ++ [AcBus (ev_property_enable (get_reg_base (dev_rphy (p_dev m)))
                        (phy_sus pc) true)]
      /\ hw_property_enabled (get_reg_base (dev_rphy (p_dev m)))
           (phy_sus pc) (p_hw m') = true)
  /\ (exists m',
         rockchip_usb2phy_init id m = Some (0, m')
         /\ p_dev m' = p_dev m
         /\ p_trace m'
            = p_trace m
              ++ [AcBus (ev_property_enable
                           (get_reg_base (dev_rphy (p_dev m)))
                           (phy_sus pc) false);
                  AcUdelay 2000]
         /\ hw_property_enabled (get_reg_base (dev_rphy (p_dev m)))
              (phy_sus pc) (p_hw m') = false).
Proof.
  intros Hport Hhon Hwait Hr Hen Hdis Hne. split.
  - eexists. split.
    + unfold rockchip_usb2phy_exit, pbind at 1, get_dev. rewrite Hport.
      erewrite pbind_Some; [|apply bus_property_enable_run]. reflexivity.
    + cbn [p_hw p_dev p_trace]. split; [reflexivity|].
      split; [reflexivity|].
      unfold hw_property_enabled, property_test.
      rewrite (read_after_write _ _ true) by assumption.
      apply Z.eqb_refl.
  - eexists. split.
    + unfold rockchip_usb2phy_init, pbind at 1, get_dev. rewrite Hport.
      erewrite pbind_Some; [|apply bus_property_enable_run].
      erewrite pbind_Some; [|apply udelay_run]. reflexivity.
    + cbn [p_hw p_dev p_trace]. split; [reflexivity|].
      split; [rewrite <- app_assoc; reflexivity|].
      unfold hw_property_enabled, property_test.
      rewrite Hwait, (read_after_write _ _ false) by assumption.
      apply Z.eqb_neq. congruence.
Qed.


(** X21: [rockchip_usb2phy_reset] always returns, never a positive value,
    and goes one of four ways: no reset control, nothing done, 0; assert
    fails, its status returned and the line never deasserted; assert
    passes and, 20 us later, deassert fails, its status returned; both
    pass, a further 100 us wait, 0.  A positive status of either call
    counts as success. *)
Theorem usb2phy_reset_outcomes (m : pmachine W) :
  exists (r : Z) (m' : pmachine W) (evs : list access),
    rockchip_usb2phy_reset m = Some (r, m')
    /\ p_dev m' = p_dev m
    /\ p_trace m' = p_trace m ++ evs
    /\ r <= 0
    /\ ((phy_rst (p_dev m) = false /\ r = 0 /\ evs = [])
        \/ (phy_rst (p_dev m) = true
            /\ ((exists s, s < 0 /\ r = s /\ evs = [AcResetAssert s])
                \/ (exists s s',
                       0 <= s /\ s' < 0 /\ r = s'
                       /\ evs = [AcResetAssert s; AcUdelay 20;
                                 AcResetDeassert s'])
                \/ (exists s s',
                       0 <= s /\ 0 <= s' /\ r = 0
                       /\ evs = [AcResetAssert s; AcUdelay 20;
                                 AcResetDeassert s'; AcUdelay 100])))).
Proof.
  destruct m as [w d tr].
  unfold rockchip_usb2phy_reset, pbind at 1, get_dev. cbn [p_dev p_hw p_trace].
  destruct (phy_rst d) eqn:Hrst.
  - unfold pbind at 1, reset_assert. cbn [p_dev p_hw p_trace].
    destruct (hw_reset_assert w) as [s w1].
    destruct (Z.ltb_spec s 0) as [Hs|Hs].
    + eexists _, _, _. split; [reflexivity|]. cbn [p_dev p_trace].
      split; [reflexivity|]. split; [reflexivity|]. split; [lia|].
      right. split; [reflexivity|]. left. exists s.
      split; [exact Hs|]. split; reflexivity.
    + unfold pbind at 1, udelay. cbn [p_dev p_hw p_trace].
      unfold pbind at 1, reset_deassert. cbn [p_dev p_hw p_trace].
      destruct (hw_reset_deassert (hw_udelay w1 20)) as [s' w2].
      destruct (Z.ltb_spec s' 0) as [Hs'|Hs'].
      * eexists _, _, _. split; [reflexivity|]. cbn [p_dev p_trace].
        split; [reflexivity|].
        split; [rewrite <- !app_assoc; reflexivity|]. split; [lia|].
        right. split; [reflexivity|]. right. left. exists s, s'.
        split; [exact Hs|]. split; [exact Hs'|]. split; reflexivity.
      * unfold pbind, udelay, pret. cbn [p_dev p_hw p_trace].
        eexists _, _, _. split; [reflexivity|]. cbn [p_dev p_trace].
        split; [reflexivity|].
        split; [rewrite <- !app_assoc; reflexivity|]. split; [lia|].
        right. split; [reflexivity|]. right. right. exists s, s'.
        split; [exact Hs|]. split; [exact Hs'|]. split; reflexivity.
  - eexists _, _, []. split; [reflexivity|]. cbn [p_dev p_trace].
    split; [reflexivity|]. split; [rewrite app_nil_r; reflexivity|].
    split; [lia|]. left. split; [reflexivity|]. split; reflexivity.
Qed.

End LifecycleRuns.

Section PowerAndLookup.

Context {W : Type} {HW : Hardware W} {PF : Platform W}.

Lemma get_vbus_supply_run (id : Z) (v : bool) (m : pmachine W) :
  0 <= id < USB2PHY_NUM_PORTS ->
  nth_error (vbus_supply (p_dev m)) (Z.to_nat id) = Some v ->
  get_vbus_supply id m = Some (v, m).
Proof.
  intros Hid Hv. unfold get_vbus_supply.
  replace ((0 <=? id) && (id <? USB2PHY_NUM_PORTS)) with true
    by (symmetry; apply andb_true_iff; split;
        [apply Z.leb_le|apply Z.ltb_lt]; lia).
  rewrite Hv. reflexivity.
Qed.

(** X22: [rockchip_usb2phy_power_on] and [rockchip_usb2phy_power_off] on a
    port without a VBUS regulator return 0 and do nothing; with one they
    make a single regulator call, enabling and disabling respectively,
    and return its status as it is, a positive one included. *)
Theorem usb2phy_power_forwards_regulator_status (id : Z) (v : bool)
  (m : pmachine W) :
  0 <= id < USB2PHY_NUM_PORTS ->
  nth_error (vbus_supply (p_dev m)) (Z.to_nat id) = Some v ->
  (exists r m',
      rockchip_usb2phy_power_on id m = Some (r, m')
      /\ p_dev m' = p_dev m
      /\ if v
         then r = fst (hw_regulator_set_enable (p_hw m) id true)
              /\ p_hw m' = snd (hw_regulator_set_enable (p_hw m) id true)
              /\ p_trace m' = p_trace m ++ [AcRegulator id true r]
         else r = 0 /\ m' = m)
  /\ (exists r m',
         rockchip_usb2phy_power_off id m = Some (r, m')
         /\ p_dev m' = p_dev m
         /\ if v
            then r = fst (hw_regulator_set_enable (p_hw m) id false)
                 /\ p_hw m' = snd (hw_regulator_set_enable (p_hw m) id false)
                 /\ p_trace m' = p_trace m ++ [AcRegulator id false r]
            else r = 0 /\ m' = m).
Proof.
  intros Hid Hv.
  unfold rockchip_usb2phy_power_on, rockchip_usb2phy_power_off.
  rewrite !(pbind_Some _ _ _ _ _ (get_vbus_supply_run id v m Hid Hv)).
  destruct v.
  - unfold pbind, regulator_set_enable.
    destruct (hw_regulator_set_enable (p_hw m) id true) as [s1 w1].
    destruct (hw_regulator_set_enable (p_hw m) id false) as [s2 w2].
    cbn [fst snd].
    split.
    + exists s1. destruct (Z.eqb_spec s1 0) as [->|Hne]; cbn [negb];
        eexists; (split; [reflexivity|]); cbn [p_hw p_dev p_trace];
        (split; [reflexivity|]); (split; [reflexivity|]);
        split; reflexivity.
    + exists s2. destruct (Z.eqb_spec s2 0) as [->|Hne]; cbn [negb];
        eexists; (split; [reflexivity|]); cbn [p_hw p_dev p_trace];
        (split; [reflexivity|]); (split; [reflexivity|]);
        split; reflexivity.
  - split; exists 0, m; (split; [reflexivity|]); (split; [reflexivity|]);
      split; reflexivity.
Qed.

Lemma port_cfg_of_valid (r : rockchip_usb2phy) (id : Z) :
  id = USB2PHY_PORT_OTG \/ id = USB2PHY_PORT_HOST ->
  exists pc, port_cfg_of r id = Some pc.
Proof. intros [-> | ->]; eexists; reflexivity. Qed.

(** X23: [rockchip_usb2phy_of_xlate] accepts exactly the device names that
    are "host-port" or "otg-port" up to letter case.  When it returns 0
    the port id it leaves is one the PHY has, so that init and exit find a
    port configuration for it and the power calls index [vbus_supply]
    within its two slots; the slot of that port holds whether a supply
    was found, "phy-supply" for the host port, "phy-supply" or else
    "vbus-supply" for the OTG port.  Otherwise it returns [-EINVAL] and
    changes nothing, the id included.  It makes no access. *)
Theorem of_xlate_leaves_valid_port (supplies : String.string -> bool)
  (dev_name : String.string) (phy_id : Z) (m : pmachine W) :
  length (vbus_supply (p_dev m)) = 2%nat ->
  exists (r id : Z) (m' : pmachine W),
    rockchip_usb2phy_of_xlate supplies dev_name phy_id m = Some ((r, id), m')
    /\ p_trace m' = p_trace m
    /\ p_hw m' = p_hw m
    /\ dev_rphy (p_dev m') = dev_rphy (p_dev m)
    /\ (r = 0 <-> strcasecmp dev_name "host-port"%string = 0
                  \/ strcasecmp dev_name "otg-port"%string = 0)
    /\ (r = 0 ->
        id = (if strcasecmp dev_name "host-port"%string =? 0
              then USB2PHY_PORT_HOST else USB2PHY_PORT_OTG)
        /\ (exists pc, port_cfg_of (dev_rphy (p_dev m')) id = Some pc)
        /\ get_vbus_supply id m'
           = Some (if id =? USB2PHY_PORT_HOST then supplies "phy-supply"%string
                   else supplies "phy-supply"%string
                        || supplies "vbus-supply"%string,
                   m'))
    /\ (r <> 0 -> r = - EINVAL /\ id = phy_id /\ m' = m).
Proof.
  intros Hlen. destruct m as [w [r0 pb vs rst] tr]. cbn [p_dev vbus_supply] in Hlen.
  destruct vs as [|v0 [|v1 [|v2 vs]]]; try discriminate Hlen.
  unfold rockchip_usb2phy_of_xlate.
  destruct (Z.eqb_spec (strcasecmp dev_name "host-port"%string) 0) as [Hhost|Hhost].
  - eexists _, _, _. split; [reflexivity|]. cbn [p_hw p_dev p_trace dev_rphy].
    split; [reflexivity|]. split; [reflexivity|]. split; [reflexivity|].
    split; [split; [intros _; left; exact Hhost|reflexivity]|].
    split; [|intros H; exfalso; apply H; reflexivity].
    intros _. split; [reflexivity|].
    split; [apply port_cfg_of_valid; right; reflexivity|].
    reflexivity.
  - destruct (Z.eqb_spec (strcasecmp dev_name "otg-port"%string) 0) as [Hotg|Hotg].
    + unfold pbind at 1. unfold device_get_supply_regulator at 1.
      cbn [p_hw p_dev p_trace dev_rphy phy_base vbus_supply phy_rst].
      unfold pbind at 1. unfold get_vbus_supply at 1. cbn.
      destruct (supplies "phy-supply"%string); cbn.
      * eexists _, _, _. split; [reflexivity|].
        cbn [p_hw p_dev p_trace dev_rphy].
        split; [reflexivity|]. split; [reflexivity|]. split; [reflexivity|].
        split; [split; [intros _; right; exact Hotg|reflexivity]|].
        split; [|intros H; exfalso; apply H; reflexivity].
        intros _. split; [reflexivity|].
        split; [apply port_cfg_of_valid; left; reflexivity|].
        reflexivity.
      * eexists _, _, _. split; [reflexivity|].
        cbn [p_hw p_dev p_trace dev_rphy].
        split; [reflexivity|]. split; [reflexivity|]. split; [reflexivity|].
        split; [split; [intros _; right; exact Hotg|reflexivity]|].
        split; [|intros H; exfalso; apply H; reflexivity].
        intros _. split; [reflexivity|].
        split; [apply port_cfg_of_valid; left; reflexivity|].
        reflexivity.
    + eexists _, _, _. split; [reflexivity|].
      cbn [p_hw p_dev p_trace dev_rphy].
      split; [reflexivity|]. split; [reflexivity|]. split; [reflexivity|].
      split; [split; [discriminate|intros [H|H]; contradiction]|].
      split; [discriminate|].
      intros _. split; [reflexivity|]. split; reflexivity.
Qed.

End PowerAndLookup.

(** ** Witnesses of the further properties *)

(** Witness: the rk1808 table, contact on the third poll, no charger
    voltage. *)
Lemma detection_paths_witness :
  exists (k : nat) (t : power_supply_type) (m' : machine sim),
    @rockchip_chg_get_type sim (sim_hw (rk1808_contact_at 3)) default_build
      (sim_machine rk1808_phy_cfg sim_reset)
    = Some (t, m')
    /\ dcd_retries (rphy m') = CHG_DCD_MAX_RETRIES - Z.of_nat k.
Proof.
  destruct (@detection_paths sim (sim_hw (rk1808_contact_at 3)) default_build
              (sim_machine rk1808_phy_cfg sim_reset))
    as (k & t & m' & rest & _ & Hrun & _ & Hdcd & _).
  - reflexivity.
  - vm_compute. reflexivity.
  - exists k, t, m'. split; [exact Hrun|exact Hdcd].
Defined.

(** Witness: a budget of zero on the rk1808 table: no retry, the bundle
    written disabled once, the counter wrapped. *)
Lemma primary_det_retry_exhausts_budget_witness :
  exists m',
    @rockchip_chg_primary_det_retry sim (sim_hw rk1808_idle)
      (Machine sim_reset (with_primary_retries 0 (phy_of rk1808_phy_cfg)) [])
    = Some (false, m')
    /\ primary_retries (rphy m') = 255
    /\ trace m' = [EvWrite GRF 0x108 0x08000000; EvWrite GRF 0x108 0x01000000].
Proof.
  eexists. split.
  - apply (@primary_det_retry_exhausts_budget sim (sim_hw rk1808_idle) 0%nat
             (Machine sim_reset
                (with_primary_retries 0 (phy_of rk1808_phy_cfg)) [])).
    + reflexivity.
    + lia.
    + intros j Hj. lia.
  - eval_conj.
Defined.

(** Witness: a budget of two on the rk1808 table with [cp_det] asserted:
    the first retry stops the loop and one is left. *)
Lemma primary_det_retry_stops_at_first_hit_witness :
  exists m',
    @rockchip_chg_primary_det_retry sim (sim_hw rk1808_voltage_only)
      (Machine sim_reset (with_primary_retries 2 (phy_of rk1808_phy_cfg)) [])
    = Some (true, m')
    /\ primary_retries (rphy m') = 1
    /\ length (trace m') = 6%nat.
Proof.
  eexists. split.
  - apply (@primary_det_retry_stops_at_first_hit sim
             (sim_hw rk1808_voltage_only) 1%nat
             (Machine sim_reset
                (with_primary_retries 2 (phy_of rk1808_phy_cfg)) [])).
    + lia.
    + cbn. lia.
    + intros j Hj. lia.
    + vm_compute. reflexivity.
  - eval_conj.
Defined.

(** Witness: the name of SDP. *)
Lemma chg_to_string_injective_witness :
  POWER_SUPPLY_TYPE_USB = POWER_SUPPLY_TYPE_USB.
Proof. apply chg_to_string_injective. reflexivity. Defined.

(** The simulated platform honours the write-enable convention on its
    register banks, and its waits leave them alone. *)
Lemma psim_honours_wmask (script : Z -> Z -> option Z) (base : regmap)
  (off : Z) :
  (forall now, script now off = None) ->
  @honours_wmask psim (psim_hw script) base off.
Proof.
  intros Hfree w v. cbn. unfold sim_read, sim_write.
  destruct base; cbn; rewrite !Hfree; rewrite lookup_insert_eq; reflexivity.
Qed.

(** Witness: port 2 of a PHY with the rk3506 table. *)
Lemma usb2phy_init_exit_reject_unknown_port_witness :
  @rockchip_usb2phy_init psim (psim_hw no_status) psim_platform 2
    (psim_machine rk3506_phy_cfg psim_reset)
  = Some (-22, psim_machine rk3506_phy_cfg psim_reset)
  /\ @rockchip_usb2phy_exit psim (psim_hw no_status) 2
       (psim_machine rk3506_phy_cfg psim_reset)
     = Some (-22, psim_machine rk3506_phy_cfg psim_reset).
Proof.
  apply (@usb2phy_init_exit_reject_unknown_port psim (psim_hw no_status)
           psim_platform 2 (psim_machine rk3506_phy_cfg psim_reset)).
  - discriminate.
  - discriminate.
Defined.

(** Witness: the host port of the rk3506 table, suspend descriptor in
    bits 8..0 of register 0x70 with encodings 0x1d2 and 0x1d1. *)
Lemma usb2phy_init_exit_suspend_witness :
  (exists m',
      @rockchip_usb2phy_exit psim (psim_hw no_status) 1
        (psim_machine rk3506_phy_cfg psim_reset)
      = Some (0, m')
      /\ p_trace m' = [AcBus (EvWrite GRF 0x70 0x01ff01d1)])
  /\ (exists m',
         @rockchip_usb2phy_init psim (psim_hw no_status) psim_platform 1
           (psim_machine rk3506_phy_cfg psim_reset)
         = Some (0, m')
         /\ p_trace m' = [AcBus (EvWrite GRF 0x70 0x01ff01d2); AcUdelay 2000]).
Proof.
  destruct (@usb2phy_init_exit_suspend psim (psim_hw no_status) psim_platform
              1 (port_cfg_host rk3506_phy_cfg)
              (psim_machine rk3506_phy_cfg psim_reset))
    as [(m1 & Hexit & _ & Ht1 & _) (m2 & Hinit & _ & Ht2 & _)].
  - reflexivity.
  - apply psim_honours_wmask. reflexivity.
  - intros w us. reflexivity.
  - unfold low_half. cbn. lia.
  - unfold fits. cbn. lia.
  - unfold fits. cbn. lia.
  - cbn. lia.
  - split; [exists m1|exists m2]; (split; [assumption|]).
    + rewrite Ht1. vm_compute. reflexivity.
    + rewrite Ht2. vm_compute. reflexivity.
Defined.


(** Witness: the OTG port of a simulated PHY with a regulator on it that
    answers 5. *)
Lemma usb2phy_power_forwards_regulator_status_witness :
  (exists m',
      @rockchip_usb2phy_power_on psim psim_platform 0
        (PMachine (PSim sim_reset ∅ 0 0 5)
           {| dev_rphy := phy_of rk3506_phy_cfg; phy_base := 0xff2b0000;
              vbus_supply := [true; false]; phy_rst := false |} [])
      = Some (5, m')
      /\ p_trace m' = [AcRegulator 0 true 5])
  /\ (exists m',
         @rockchip_usb2phy_power_off psim psim_platform 0
           (PMachine (PSim sim_reset ∅ 0 0 5)
              {| dev_rphy := phy_of rk3506_phy_cfg; phy_base := 0xff2b0000;
                 vbus_supply := [true; false]; phy_rst := false |} [])
         = Some (5, m')
         /\ p_trace m' = [AcRegulator 0 false 5]).
Proof.
  destruct (@usb2phy_power_forwards_regulator_status psim psim_platform 0 true
              (PMachine (PSim sim_reset ∅ 0 0 5)
                 {| dev_rphy := phy_of rk3506_phy_cfg; phy_base := 0xff2b0000;
                    vbus_supply := [true; false]; phy_rst := false |} []))
    as [(r1 & m1 & Hon & _ & Hr1 & _ & Ht1) (r2 & m2 & Hoff & _ & Hr2 & _ & Ht2)].
  - unfold USB2PHY_NUM_PORTS. lia.
  - reflexivity.
  - cbn in Hr1, Hr2. subst r1 r2.
    split; [exists m1|exists m2]; (split; [assumption|assumption]).
Defined.

(** Witness: a port node named OTG-Port with a vbus-supply only. *)
Lemma of_xlate_leaves_valid_port_witness :
  exists (r id : Z) (m' : pmachine psim),
    @rockchip_usb2phy_of_xlate psim
      (fun name => String.eqb name "vbus-supply"%string) "OTG-Port"%string 7
      (psim_machine rk3506_phy_cfg psim_reset)
    = Some ((r, id), m')
    /\ r = 0 /\ id = 0
    /\ @get_vbus_supply psim 0 m' = Some (true, m').
Proof.
  destruct (@of_xlate_leaves_valid_port psim
              (fun name => String.eqb name "vbus-supply"%string)
              "OTG-Port"%string 7
              (psim_machine rk3506_phy_cfg psim_reset))
    as (r & id & m' & Hrun & _ & _ & _ & Hiff & Hok & _).
  - reflexivity.
  - assert (Hr : r = 0) by (apply Hiff; right; vm_compute; reflexivity).
    destruct (Hok Hr) as (Hid & _ & Hsup).
    assert (Hid0 : id = 0) by (rewrite Hid; vm_compute; reflexivity).
    exists r, id, m'. split; [exact Hrun|]. split; [exact Hr|].
    split; [exact Hid0|]. rewrite Hid0 in Hsup. exact Hsup.
Defined.
